(** * Navigation synthesis and mkdocs.yml merge of docs/scripts/gen_mkdocs_yml.py

    A shallow embedding of the parts of [gen_mkdocs_yml.py] that build the
    API navigation structure (first pass, [_build_nav_structure_only]) and
    merge it into [mkdocs.yml] ([SafeMkDocsConfigUpdater]).  Python strings
    are [String.string] (ASCII), Python dicts are association lists kept in
    insertion order, and the file system is passed explicitly. *)

From Stdlib Require Import String Ascii List Bool Arith ZArith Lia.
Import ListNotations.
Open Scope string_scope.
Set Warnings "-register-all".

(** ** Python string primitives *)

Module Py.

Definition nl : ascii := Ascii.ascii_of_nat 10.
Definition nl_s : string := String nl EmptyString.

(** [str.isspace] on ASCII: \t \n \v \f \r, \x1c-\x1f and space; this is
    also the set matched by [\s] in a [str] regex. *)
Definition is_space (c : ascii) : bool :=
  let n := nat_of_ascii c in
  (Nat.leb 9 n && Nat.leb n 13) || (Nat.leb 28 n && Nat.leb n 32).

Definition is_upper (c : ascii) : bool :=
  let n := nat_of_ascii c in Nat.leb 65 n && Nat.leb n 90.
Definition is_lower (c : ascii) : bool :=
  let n := nat_of_ascii c in Nat.leb 97 n && Nat.leb n 122.

Definition to_lower (c : ascii) : ascii :=
  if is_upper c then ascii_of_nat (nat_of_ascii c + 32) else c.
Definition to_upper (c : ascii) : ascii :=
  if is_lower c then ascii_of_nat (nat_of_ascii c - 32) else c.

(** [s.lower()] *)
Fixpoint lower (s : string) : string :=
  match s with
  | EmptyString => EmptyString
  | String c s' => String (to_lower c) (lower s')
  end.

(** [s.title()]: a cased character is upper-cased when the previous
    character is not cased, lower-cased otherwise. *)
Fixpoint title_aux (prev_cased : bool) (s : string) : string :=
  match s with
  | EmptyString => EmptyString
  | String c s' =>
      let c' := if prev_cased then to_lower c else to_upper c in
      String c' (title_aux (is_upper c' || is_lower c') s')
  end.
Definition title (s : string) : string := title_aux false s.

(** [s.lstrip()] and [s.rstrip()] and [s.strip()] *)
Fixpoint lstrip (s : string) : string :=
  match s with
  | EmptyString => EmptyString
  | String c s' => if is_space c then lstrip s' else s
  end.
Fixpoint rev_str (s : string) (acc : string) : string :=
  match s with
  | EmptyString => acc
  | String c s' => rev_str s' (String c acc)
  end.
Definition rstrip (s : string) : string :=
  rev_str (lstrip (rev_str s EmptyString)) EmptyString.
Definition strip (s : string) : string := rstrip (lstrip s).

(** [sub in s] *)
Definition contains (sub s : string) : bool :=
  match String.index 0 sub s with Some _ => true | None => false end.

(** [s.replace(old, new)]: leftmost non-overlapping occurrences, scanned
    from the left.  Every call in the script passes a non-empty [old]; the
    fuel [length s] suffices then, since each step consumes a character. *)
Fixpoint replace_fuel (fuel : nat) (old new s : string) : string :=
  match fuel with
  | O => s
  | S f =>
      match s with
      | EmptyString => EmptyString
      | String c s' =>
          if String.prefix old s
          then new ++ replace_fuel f old new
                 (substring (String.length old)
                    (String.length s - String.length old) s)
          else String c (replace_fuel f old new s')
      end
  end.
Definition replace (old new s : string) : string :=
  replace_fuel (String.length s) old new s.

(** [s.split(c)] for a one-character separator *)
Fixpoint split (c : ascii) (s : string) : list string :=
  match s with
  | EmptyString => [EmptyString]
  | String x s' =>
      let r := split c s' in
      if Ascii.eqb x c then EmptyString :: r
      else match r with
           | h :: t => String x h :: t
           | [] => [String x EmptyString]
           end
  end.

(** [sep.join(l)] *)
Definition join (sep : string) (l : list string) : string := String.concat sep l.

(** [s.startswith(p)] *)
Definition startswith (s p : string) : bool := String.prefix p s.

(** [repr] of a string, with the quote choice of CPython: single quotes
    unless the text has a single quote and no double quote. *)
Definition hexdig (n : nat) : ascii :=
  if Nat.ltb n 10 then ascii_of_nat (48 + n) else ascii_of_nat (87 + n).
Fixpoint repr_body (q : ascii) (s : string) : string :=
  match s with
  | EmptyString => EmptyString
  | String c s' =>
      let n := nat_of_ascii c in
      let rest := repr_body q s' in
      if Ascii.eqb c q || Nat.eqb n 92 then String "\" (String c rest)
      else if Nat.eqb n 10 then "\n" ++ rest
      else if Nat.eqb n 13 then "\r" ++ rest
      else if Nat.eqb n 9 then "\t" ++ rest
      else if Nat.ltb n 32 || Nat.leb 127 n
      then String "\" (String "x" (String (hexdig (n / 16))
             (String (hexdig (n mod 16)) rest)))
      else String c rest
  end.
Definition dquote : ascii := ascii_of_nat 34.
Definition repr_str (s : string) : string :=
  let q : ascii :=
    if contains "'" s && negb (contains (String dquote EmptyString) s)
    then dquote else "'"%char in
  String q (repr_body q s ++ String q EmptyString).

End Py.

(** ** Python dicts as association lists in insertion order *)

Section Dict.
Context {K V : Type} (keqb : K -> K -> bool).

(** [d.get(k)] *)
Fixpoint dict_get (k : K) (d : list (K * V)) : option V :=
  match d with
  | [] => None
  | (k', v) :: d' => if keqb k k' then Some v else dict_get k d'
  end.

(** [k in d] *)
Definition dict_has (k : K) (d : list (K * V)) : bool :=
  match dict_get k d with Some _ => true | None => false end.

(** [d[k] = v]: an existing key keeps its position, a new one goes last. *)
Fixpoint dict_set (k : K) (v : V) (d : list (K * V)) : list (K * V) :=
  match d with
  | [] => [(k, v)]
  | (k', v') :: d' =>
      if keqb k k' then (k', v) :: d' else (k', v') :: dict_set k v d'
  end.

End Dict.


(** ** Navigation values

    The values stored in [nav_structure]: strings (page paths), lists of
    items and one-key dicts [{label: value}]. *)

Inductive navv : Type :=
| VStr (s : string)
| VList (l : list navv)
| VDict (d : list (string * navv)).

(** [str(v)] of a navigation value (only [VStr] is reached by the
    renderer in practice; lists and dicts print as their [repr]). *)
Fixpoint navv_repr (v : navv) : string :=
  match v with
  | VStr s => Py.repr_str s
  | VList l => "[" ++ Py.join ", " (map navv_repr l) ++ "]"
  | VDict d =>
      "{" ++ Py.join ", "
        (map (fun kv => Py.repr_str (fst kv) ++ ": " ++ navv_repr (snd kv)) d)
      ++ "}"
  end.
Definition navv_str (v : navv) : string :=
  match v with VStr s => s | _ => navv_repr v end.

(** The page paths a navigation value links to (its string leaves; the
    keys of dicts are labels). *)
Fixpoint navv_pages (v : navv) : list string :=
  match v with
  | VStr s => [s]
  | VList l => List.concat (map navv_pages l)
  | VDict d => List.concat (map (fun kv => navv_pages (snd kv)) d)
  end.

Definition nav_pages (package_nav : list (string * navv)) : list string :=
  List.concat (map (fun kv => navv_pages (snd kv)) package_nav).

(** ** SafeMkDocsConfigUpdater *)

Module Updater.

(** [_format_display_name] *)
Definition display_replacements : list (string * string) :=
  [("Llm", "LLM"); ("Api", "API"); ("Ai", "AI"); ("Http", "HTTP");
   ("Json", "JSON"); ("Xml", "XML"); ("Url", "URL"); ("Uri", "URI");
   ("Uuid", "UUID"); ("Id", "ID")].

Definition format_display_name (name : string) : string :=
  fold_left (fun acc r => Py.replace (fst r) (snd r) acc) display_replacements
    (Py.title (Py.replace "_" " " name)).

(** [key if ('.' in key) else self._format_display_name(key)] *)
Definition format_key (key : string) : string :=
  if Py.contains "." key then key else format_display_name key.

(** [sorted(structure.items())]: the keys of a dict are distinct, so the
    order is the order of the keys (insertion sort, stable). *)
Fixpoint insert_by_key {V} (kv : string * V) (l : list (string * V)) :=
  match l with
  | [] => [kv]
  | kv' :: l' =>
      if String.leb (fst kv) (fst kv') then kv :: kv' :: l'
      else kv' :: insert_by_key kv l'
  end.
Definition sort_items {V} (l : list (string * V)) : list (string * V) :=
  fold_right insert_by_key [] l.

(** [_build_nav_structure]: the items are sorted by key, a dict value is
    turned into the list of its rendered items, any other value is kept.
    [build_value v] is what the loop puts under the formatted key. *)
Fixpoint build_value (v : navv) : navv :=
  match v with
  | VDict e =>
      VList (map (fun kv => VDict [(format_key (fst kv), snd kv)])
               (sort_items
                  ((fix go (d : list (string * navv)) : list (string * navv) :=
                      match d with
                      | [] => []
                      | (k, x) :: d' => (k, build_value x) :: go d'
                      end) e)))
  | _ => v
  end.

Definition build_nav_structure (structure : list (string * navv)) : list navv :=
  map (fun kv => VDict [(format_key (fst kv), snd kv)])
    (sort_items (map (fun kv => (fst kv, build_value (snd kv))) structure)).

(** [_build_api_reference_nav] *)
Definition build_api_reference_nav
  (nav_structure : list (string * list (string * navv))) : list navv :=
  map (fun kv => VDict [(format_display_name (fst kv),
                         VList (build_nav_structure (snd kv)))])
    nav_structure.

Definition spaces (n : nat) : string := String.concat "" (repeat " " n).

(** [if sub_line.strip(): lines.append(sub_line)] over [sub_yaml.split('\n')] *)
Definition nonblank_lines (s : string) : list string :=
  filter (fun l => negb (String.eqb (Py.strip l) "")) (Py.split Py.nl s).

(** [_nav_to_yaml_string], as its list of lines: the lines of one item of
    [nav_list] at [indent], then [nav_to_yaml_lines] runs over the list. *)
Fixpoint item_lines (indent : nat) (item : navv) {struct item} : list string :=
  let base := spaces indent in
  match item with
  | VDict kvs =>
      (fix go (kvs : list (string * navv)) : list string :=
         match kvs with
         | [] => []
         | (key, value) :: kvs' =>
             app (match value with
                  | VList sub =>
                      let sub_yaml :=
                        Py.join Py.nl_s
                          (List.concat (map (item_lines (indent + 2)) sub)) in
                      (base ++ "- " ++ key ++ ":")
                        :: (if String.eqb sub_yaml "" then []
                            else nonblank_lines sub_yaml)
                  | _ => [base ++ "- " ++ key ++ ": " ++ navv_str value]
                  end) (go kvs')
         end) kvs
  | _ => [base ++ "- " ++ navv_str item]
  end.

Definition nav_to_yaml_lines (nav_list : list navv) (indent : nat) : list string :=
  List.concat (map (item_lines indent) nav_list).

Definition nav_to_yaml_string (nav_list : list navv) (indent : nat) : string :=
  Py.join Py.nl_s (nav_to_yaml_lines nav_list indent).

(** [_generate_api_reference_content]: the first package whose name is
    ['bridgic-core'] up to case is rendered in full under four spaces, and
    every package whose name starts with ['bridgic-llms-'] adds one fixed
    link under [Bridgic-Integration > llms]. *)
Definition LLM_OVERVIEW_PATH : string := "extras/llms/index.md".

Definition core_item_lines (item : navv) : list string :=
  match item with
  | VDict kvs =>
      List.concat
        (map (fun kv =>
                ("    - " ++ format_display_name (fst kv) ++ ":")
                  :: match snd kv with
                     | VList value =>
                         let sub_yaml := nav_to_yaml_string value 6 in
                         if String.eqb sub_yaml "" then []
                         else nonblank_lines sub_yaml
                     | _ => []
                     end) kvs)
  | _ => []
  end.

Definition integration_entry (pkg_name : string) : list (string * string) :=
  if Py.startswith pkg_name "bridgic-llms-" then
    let suffix := Py.replace "bridgic-llms-" "" pkg_name in
    let dotted_suffix := Py.replace "-" "_" suffix in
    [("bridgic.llms." ++ dotted_suffix,
      "reference/" ++ pkg_name ++ "/bridgic/llms/" ++ dotted_suffix ++ "/index.md")]
  else [].

Definition generate_api_reference_content
  (nav_structure : list (string * list (string * navv))) : string :=
  let core_lines :=
    match filter (fun k => String.eqb (Py.lower k) "bridgic-core")
            (map fst nav_structure) with
    | [] => []
    | core_key :: _ =>
        let core_struct :=
          match dict_get String.eqb core_key nav_structure with
          | Some v => v | None => [] end in
        List.concat
          (map core_item_lines
             (build_api_reference_nav [(core_key, core_struct)]))
    end in
  let integration_entries :=
    List.concat (map integration_entry (map fst nav_structure)) in
  let integration_lines :=
    match integration_entries with
    | [] => []
    | _ => app ["    - Bridgic-Integration:"; "      - llms:";
                "        - llms: " ++ LLM_OVERVIEW_PATH]
             (map (fun e => "        - " ++ fst e ++ ": " ++ snd e)
                integration_entries)
    end in
  Py.join Py.nl_s (app core_lines integration_lines).

(** Writing [mkdocs.yml]: [open(path, 'w')] truncates the file before
    [f.write]; an error raised by the open leaves the file as it was, an
    error raised while writing leaves the characters written so far. *)
Inductive write_outcome : Type :=
| WriteOk
| OpenFails
| WriteFailsAfter (n : nat).

Definition write_file (w : write_outcome) (content dest : string) : bool * string :=
  match w with
  | WriteOk => (true, content)
  | OpenFails => (false, dest)
  | WriteFailsAfter n => (false, substring 0 n content)
  end.

Definition placeholder : string := "{{API_REFERENCE_CONTENT}}".

(** [update_mkdocs_config]: [template] is the content of
    [scripts/mkdocs_template.yml], [None] when it does not exist or cannot be
    read; [dest] is the current content of [mkdocs.yml].  The result is the
    returned flag and the new content of [mkdocs.yml]. *)
Definition update_mkdocs_config (template : option string)
  (nav_structure : list (string * list (string * navv)))
  (w : write_outcome) (dest : string) : bool * string :=
  match template with
  | None => (false, dest)
  | Some template_content =>
      if negb (Py.contains placeholder template_content) then (false, dest)
      else
        let api_reference_content := generate_api_reference_content nav_structure in
        let final_content :=
          Py.replace placeholder api_reference_content template_content in
        write_file w final_content dest
  end.

(** *** The legacy region-staging update, [_update_mkdocs_config_legacy] *)

(** [re.search(r'^nav:\s*$', s, re.MULTILINE)]: the leftmost line start
    followed by [nav:], then the longest run of [\s] after which [$]
    holds (end of text or before a newline), backtracking from the longest
    run.  The result is [(match.start(), match.end())]. *)
Fixpoint ws_run (s : string) : nat :=
  match s with
  | String c s' => if Py.is_space c then S (ws_run s') else O
  | EmptyString => O
  end.

Definition eol_at (r : string) (k : nat) : bool :=
  match String.get k r with
  | None => true
  | Some c => Ascii.eqb c Py.nl
  end.

Fixpoint backtrack_eol (r : string) (k : nat) : option nat :=
  if eol_at r k then Some k
  else match k with O => None | S k' => backtrack_eol r k' end.

Fixpoint search_nav_start (s : string) (pos : nat) (at_line_start : bool)
  : option (nat * nat) :=
  match s with
  | EmptyString => None
  | String c s' =>
      let here :=
        if at_line_start && String.prefix "nav:" s then
          let r := substring 4 (String.length s - 4) s in
          match backtrack_eol r (ws_run r) with
          | Some k => Some (pos, pos + 4 + k)
          | None => None
          end
        else None in
      match here with
      | Some m => Some m
      | None => search_nav_start s' (S pos) (Ascii.eqb c Py.nl)
      end
  end.

Definition nav_start_match (s : string) : option (nat * nat) :=
  search_nav_start s 0 true.

(** [re.search(r'^\n([a-z_]+:)', s, re.MULTILINE)]: [match.start()]. *)
Fixpoint key_colon (started : bool) (r : string) : bool :=
  match r with
  | EmptyString => false
  | String c r' =>
      if Py.is_lower c || Ascii.eqb c "_" then key_colon true r'
      else started && Ascii.eqb c ":"
  end.

Fixpoint search_next_config (s : string) (pos : nat) (at_line_start : bool)
  : option nat :=
  match s with
  | EmptyString => None
  | String c s' =>
      if at_line_start && Ascii.eqb c Py.nl && key_colon false s' then Some pos
      else search_next_config s' (S pos) (Ascii.eqb c Py.nl)
  end.

Definition next_config_match (s : string) : option nat :=
  search_next_config s 0 true.

(** The loop of [_rebuild_nav_content] that drops an existing
    [- API Reference:] item and its sub-items. *)
Fixpoint drop_api_reference (skip : bool) (lines : list string) : list string :=
  match lines with
  | [] => []
  | line :: rest =>
      let stripped := Py.strip line in
      if Py.startswith stripped "- API Reference:" then drop_api_reference true rest
      else if skip then
        if Py.startswith line "  - " && negb (Py.startswith line "    ")
        then line :: drop_api_reference false rest
        else drop_api_reference true rest
      else line :: drop_api_reference false rest
  end.

Fixpoint find_index {A} (p : A -> bool) (l : list A) : option nat :=
  match l with
  | [] => None
  | x :: l' => if p x then Some 0 else option_map S (find_index p l')
  end.

(** [_rebuild_nav_content] *)
Definition rebuild_nav_content (nav_content : string)
  (nav_structure : list (string * list (string * navv))) : string :=
  let new_nav_lines := drop_api_reference false (Py.split Py.nl nav_content) in
  let yaml_str := nav_to_yaml_string (build_api_reference_nav nav_structure) 2 in
  let new_api_section := "  - API Reference:" ++ Py.nl_s ++ yaml_str in
  match find_index (fun l => Py.startswith (Py.strip l) "- About:") new_nav_lines with
  | Some about_index =>
      Py.join Py.nl_s
        (app (firstn about_index new_nav_lines)
           (new_api_section :: "" :: skipn about_index new_nav_lines))
  | None =>
      let padded :=
        match rev new_nav_lines with
        | last_line :: _ =>
            if String.eqb (Py.strip last_line) "" then new_nav_lines
            else app new_nav_lines [""]
        | [] => new_nav_lines
        end in
      Py.join Py.nl_s (app padded [new_api_section])
  end.

(** The text after the [nav:] match, split at the next top-level key:
    [(nav_content, content_after_nav)]. *)
Definition split_nav_region (original : string) (nav_end : nat) : string * string :=
  let remaining := substring nav_end (String.length original - nav_end) original in
  match next_config_match remaining with
  | Some j =>
      (substring 0 (j + 1) remaining,
       substring (j + 1) (String.length remaining - (j + 1)) remaining)
  | None => (remaining, "")
  end.

(** [_update_mkdocs_config_legacy] on the current content [original] of
    [mkdocs.yml]. *)
Definition update_mkdocs_config_legacy
  (nav_structure : list (string * list (string * navv)))
  (w : write_outcome) (original : string) : bool * string :=
  match nav_start_match original with
  | None => (false, original)
  | Some (nav_start, nav_end) =>
      let content_before_nav := substring 0 nav_start original in
      let '(nav_content, content_after_nav) := split_nav_region original nav_end in
      let new_nav_content := rebuild_nav_content nav_content nav_structure in
      let final_content :=
        content_before_nav ++ "nav:" ++ Py.nl_s ++ new_nav_content
        ++ (if String.eqb content_after_nav "" then "" else content_after_nav) in
      write_file w final_content original
  end.

End Updater.

(** ** Top-level syntax of an [__init__.py] and [_parse_init_doc_and_all] *)

Module Ast.

(** The expression forms that matter to [ast.literal_eval].  Constants are
    strings, bytes (one character per byte), integers, booleans, [None]
    and [...]; float and complex constants are outside this syntax.
    [EUnaryOp minus e] is unary [-] ([minus = true]) or [+]; [EBinOp]
    stands for any binary operator ([+] concatenation included) and
    [EOther] for comprehensions, lambdas, subscripts and the like. *)
Inductive expr : Type :=
| EName (id : string)
| EStr (s : string)
| EBytes (b : string)
| EInt (z : Z)
| EBool (b : bool)
| ENone
| EEllipsis
| EList (elts : list expr)
| ETuple (elts : list expr)
| ESet (elts : list expr)
| EDict (items : list (expr * expr))
| EUnaryOp (minus : bool) (operand : expr)
| EBinOp (left right : expr)
| ECall (func : expr) (args : list expr)
| EAttribute (value : expr) (attr : string)
| EOther.

(** Top-level statements: plain, augmented and annotated assignments,
    expression statements (a docstring), imports and anything else. *)
Inductive stmt : Type :=
| SAssign (targets : list expr) (value : expr)
| SAugAssign (target : expr) (value : expr)
| SAnnAssign (target : expr) (value : option expr)
| SExpr (value : expr)
| SImportFrom (module : string) (names : list string)
| SOther.

(** Python values built by [ast.literal_eval]; a set and a dict hold their
    members without duplicates, in insertion order. *)
Inductive pyval : Type :=
| PStr (s : string)
| PBytes (b : string)
| PInt (z : Z)
| PBool (b : bool)
| PNone
| PEllipsis
| PList (l : list pyval)
| PTuple (l : list pyval)
| PSet (l : list pyval)
| PDict (l : list (pyval * pyval)).

(** [hash(v)] succeeds: lists, sets and dicts are unhashable, a tuple is
    hashable when its members are. *)
Fixpoint hashable (v : pyval) : bool :=
  match v with
  | PList _ | PSet _ | PDict _ => false
  | PTuple l => forallb hashable l
  | _ => true
  end.

(** The integer value of a number ([True == 1], [False == 0]). *)
Definition num (v : pyval) : option Z :=
  match v with
  | PInt z => Some z
  | PBool b => Some (if b then 1%Z else 0%Z)
  | _ => None
  end.

(** [==] between hashable values, as sets and dicts compare their members
    and keys: numbers by value, strings and bytes by content, tuples
    member by member.  (Unhashable values never reach it.) *)
Fixpoint py_eq (v w : pyval) {struct v} : bool :=
  match v, w with
  | PStr a, PStr b => String.eqb a b
  | PBytes a, PBytes b => String.eqb a b
  | PNone, PNone => true
  | PEllipsis, PEllipsis => true
  | PTuple l, PTuple l' =>
      (fix go (l l' : list pyval) : bool :=
         match l, l' with
         | [], [] => true
         | x :: xs, y :: ys => py_eq x y && go xs ys
         | _, _ => false
         end) l l'
  | _, _ =>
      match num v, num w with
      | Some a, Some b => Z.eqb a b
      | _, _ => false
      end
  end.

(** [set(members)]: a member equal to an earlier one is not added. *)
Definition set_of (l : list pyval) : list pyval :=
  fold_left (fun acc x => if existsb (py_eq x) acc then acc else app acc [x]) l [].

(** [dict(zip(keys, values))]: a repeated key keeps its first position and
    takes the last value. *)
Definition dict_of (kvs : list (pyval * pyval)) : list (pyval * pyval) :=
  fold_left (fun acc kv => dict_set py_eq (fst kv) (snd kv) acc) kvs [].

Section Traverse.
Context {A B : Type} (f : A -> option B).
Fixpoint traverse (l : list A) : option (list B) :=
  match l with
  | [] => Some []
  | x :: xs =>
      match f x, traverse xs with
      | Some y, Some ys => Some (y :: ys)
      | _, _ => None
      end
  end.
Fixpoint traverse_pairs (l : list (A * A)) : option (list (B * B)) :=
  match l with
  | [] => Some []
  | (x, x') :: xs =>
      match f x, f x', traverse_pairs xs with
      | Some y, Some y', Some ys => Some ((y, y') :: ys)
      | _, _, _ => None
      end
  end.
End Traverse.

(** [ast.literal_eval]: constants, a sign before an integer, list, tuple,
    set and dict displays and [set()].  A name, a call, an attribute, a
    sign before anything else or a binary operation (between non-complex
    operands) raises [ValueError], and a set member or dict key that is
    unhashable raises [TypeError]: both are [None] here. *)
Fixpoint literal_eval (e : expr) : option pyval :=
  match e with
  | EStr s => Some (PStr s)
  | EBytes b => Some (PBytes b)
  | EInt z => Some (PInt z)
  | EBool b => Some (PBool b)
  | ENone => Some PNone
  | EEllipsis => Some PEllipsis
  | EUnaryOp minus (EInt z) => Some (PInt (if minus then Z.opp z else z))
  | EList l => option_map PList (traverse literal_eval l)
  | ETuple l => option_map PTuple (traverse literal_eval l)
  | ESet l =>
      match traverse literal_eval l with
      | Some vs => if forallb hashable vs then Some (PSet (set_of vs)) else None
      | None => None
      end
  | EDict l =>
      match traverse_pairs literal_eval l with
      | Some kvs =>
          if forallb (fun kv => hashable (fst kv)) kvs then Some (PDict (dict_of kvs))
          else None
      | None => None
      end
  | ECall (EName f) [] => if String.eqb f "set" then Some (PSet []) else None
  | _ => None
  end.

(** [str(n)] of an integer, in decimal. *)
Fixpoint digits_fuel (fuel : nat) (n : Z) (acc : string) : string :=
  match fuel with
  | O => acc
  | S fuel' =>
      let acc' := String (ascii_of_nat (48 + Z.to_nat (n mod 10))) acc in
      if Z.ltb n 10 then acc' else digits_fuel fuel' (n / 10) acc'
  end.
Definition z_str (z : Z) : string :=
  if Z.ltb z 0 then "-" ++ digits_fuel (S (Z.to_nat (Z.log2 (- z)))) (- z) ""
  else digits_fuel (S (Z.to_nat (Z.log2 z))) z "".

(** [repr] and [str] of those values.  [set_order] is the order in which
    a set yields its members (given their [repr]s in insertion order):
    CPython orders them by hash, and the hash of a string changes from
    run to run. *)
Section Repr.
Variable set_order : list string -> list string.

Fixpoint repr (v : pyval) : string :=
  match v with
  | PStr s => Py.repr_str s
  | PBytes b => "b" ++ Py.repr_str b
  | PInt z => z_str z
  | PBool b => if b then "True" else "False"
  | PNone => "None"
  | PEllipsis => "Ellipsis"
  | PList l => "[" ++ Py.join ", " (map repr l) ++ "]"
  | PTuple [x] => "(" ++ repr x ++ ",)"
  | PTuple l => "(" ++ Py.join ", " (map repr l) ++ ")"
  | PSet [] => "set()"
  | PSet l => "{" ++ Py.join ", " (set_order (map repr l)) ++ "}"
  | PDict l =>
      "{" ++ Py.join ", " (map (fun kv => repr (fst kv) ++ ": " ++ repr (snd kv)) l)
      ++ "}"
  end.
Definition str (v : pyval) : string :=
  match v with PStr s => s | _ => repr v end.

Definition is_all_target (t : expr) : bool :=
  match t with EName id => String.eqb id "__all__" | _ => false end.

(** One [__all__] target of an assignment: [exports] is replaced when the
    value evaluates to a list or a tuple, kept otherwise. *)
Definition assign_exports (value : expr) (exports : list string) : list string :=
  match literal_eval value with
  | Some (PList l) | Some (PTuple l) => map str l
  | _ => exports
  end.

Definition stmt_exports (exports : list string) (node : stmt) : list string :=
  match node with
  | SAssign targets value =>
      fold_left (fun ex target =>
                   if is_all_target target then assign_exports value ex else ex)
        targets exports
  | _ => exports
  end.

(** [_parse_init_doc_and_all]: [source] is the parsed body of the file,
    [None] when reading or parsing raises.  The docstring is the leading
    string expression (as written; [ast.get_docstring] also dedents it,
    and no caller uses it). *)
Definition parse_init_doc_and_all (source : option (list stmt))
  : option string * list string :=
  match source with
  | None => (None, [])
  | Some body =>
      let docstring :=
        match body with SExpr (EStr d) :: _ => Some d | _ => None end in
      (docstring, fold_left stmt_exports body [])
  end.

End Repr.

(** Sets printed in insertion order: an instance of [set_order], used
    where only the number of exports matters. *)
Definition insertion_order (l : list string) : list string := l.

End Ast.

(** ** DocumentationGenerator: the first pass, [_build_nav_structure_only] *)

Module Gen.

Record Config : Type := {
  exclude_patterns : list string;
  exclude_files : list string;
  docs_base_path : string;
  only_index_pages : bool;
  single_entry_as_group : bool }.

(** A [.py] file found by [code_src.rglob("*.py")] that passed
    [is_valid_python_module]: its path relative to [code_src] in parts (the
    file name last, ending in [.py]) and its parsed top-level body. *)
Record PyFile : Type := {
  rel_parts : list string;
  source : option (list Ast.stmt) }.

(** An entry of [config.packages]: its path, the ['name'] of its
    [package_info] entry if any, the parts of [self.root / package_path]
    and its files. *)
Record Package : Type := {
  package_path : string;
  info_name : option string;
  src_parts : list string;
  files : list PyFile }.

(** Tuple equality of Python on tuples of strings. *)
Fixpoint parts_eqb (a b : list string) : bool :=
  match a, b with
  | [], [] => true
  | x :: a', y :: b' => String.eqb x y && parts_eqb a' b'
  | _, _ => false
  end.

(** Tuple order of Python on tuples of strings. *)
Fixpoint parts_compare (a b : list string) : comparison :=
  match a, b with
  | [], [] => Eq
  | [], _ => Lt
  | _, [] => Gt
  | x :: a', y :: b' =>
      match String.compare x y with
      | Eq => parts_compare a' b'
      | c => c
      end
  end.
Definition parts_leb (a b : list string) : bool :=
  match parts_compare a b with Gt => false | _ => true end.

Section Sort.
Context {A : Type} (key : A -> list string).
Fixpoint insert_sorted (x : A) (l : list A) : list A :=
  match l with
  | [] => [x]
  | y :: l' => if parts_leb (key x) (key y) then x :: y :: l' else y :: insert_sorted x l'
  end.
(** [sorted(...)] (insertion sort, stable like Python's) *)
Definition sort_by (l : list A) : list A := fold_right insert_sorted [] l.
End Sort.

(** [Path(package_path).name.replace("-", "_")] unless [package_info] has
    a name: [get_package_display_name]. *)
Definition path_name (p : string) : string :=
  last (filter (fun x => negb (String.eqb x "" || String.eqb x "."))
          (Py.split "/" p)) "".
Definition get_package_display_name (pkg : Package) : string :=
  match info_name pkg with
  | Some n => n
  | None => Py.replace "-" "_" (path_name (package_path pkg))
  end.

(** [should_exclude_path] on the full path [code_src / rel]. *)
Definition should_exclude_path (cfg : Config) (pkg : Package) (f : PyFile) : bool :=
  let parts := app (src_parts pkg) (rel_parts f) in
  let name := last (rel_parts f) "" in
  existsb (fun pattern => existsb (String.eqb pattern) parts) (exclude_patterns cfg)
  || existsb (String.eqb name) (exclude_files cfg)
  || Py.startswith name ".".

(** [path.relative_to(code_src).with_suffix("")]: the last part loses its
    [.py]. *)
Definition drop_py (name : string) : string :=
  substring 0 (String.length name - 3) name.
Definition module_parts (f : PyFile) : list string :=
  app (removelast (rel_parts f)) [drop_py (last (rel_parts f) "")].

(** [process_init_module]: the trailing [__init__] is dropped (when there
    is a parent part) and [doc_path] becomes [.../index.md]; [has_all] says
    whether the export list is non-empty. *)
Definition process_init_module (parts : list string) (f : PyFile)
  : list string * list string * bool :=
  (* [len(exports)] is all that is used, and it does not depend on the
     order in which sets print their members. *)
  let exports := snd (Ast.parse_init_doc_and_all Ast.insertion_order (source f)) in
  let has_all := negb (Nat.eqb (length exports) 0) in
  let doc_path := app (removelast parts) [last parts "" ++ ".md"] in
  if Nat.ltb 1 (length parts)
  then (removelast parts, app (removelast parts) ["index.md"], has_all)
  else (parts, doc_path, has_all).

(** [f"{docs_base_path}/{package_name}/{doc_path.as_posix()}"] *)
Definition index_page (cfg : Config) (package_name : string) (doc_path : list string)
  : string :=
  docs_base_path cfg ++ "/" ++ package_name ++ "/" ++ Py.join "/" doc_path.

(** One iteration of the file loop: the [package_nodes] entry it records,
    if any.  A file that is not an [__init__.py] never records one
    ([path.name == '__init__.py' and has_all] is false for it). *)
Definition record_node (cfg : Config) (pkg : Package) (package_name : string)
  (f : PyFile) : option (list string * string) :=
  if should_exclude_path cfg pkg f then None
  else
    let parts := module_parts f in
    if String.eqb (last parts "") "__init__" then
      let '(parts', doc_path, has_all) := process_init_module parts f in
      match parts' with
      | [] => None
      | _ =>
          if negb has_all then None
          else Some (parts', index_page cfg package_name doc_path)
      end
    else None.

(** The per-group rendering of [_build_nav_structure_only]: the group's
    own label first, then the sorted direct children (four parts), a child
    with deeper nodes being a nested list with its own label and its sorted
    five-part children. *)
Definition node_path (nodes : list (list string * string)) (p : list string) : string :=
  match dict_get parts_eqb p nodes with Some v => v | None => "" end.

Definition child_item (nodes : list (list string * string)) (child_parts : list string)
  : navv :=
  let child_name := last child_parts "" in
  let child_path := node_path nodes child_parts in
  let has_deeper :=
    existsb (fun p => Nat.ltb 4 (length p) && parts_eqb (firstn 4 p) child_parts)
      (map fst nodes) in
  if negb has_deeper then VDict [(child_name, VStr child_path)]
  else
    let grand_children :=
      filter (fun p => Nat.eqb (length p) 5 && parts_eqb (firstn 4 p) child_parts)
        (map fst nodes) in
    VDict [(child_name,
            VList (VDict [(child_name, VStr child_path)]
                   :: map (fun gc => VDict [(last gc "", VStr (node_path nodes gc))])
                        (sort_by id grand_children)))].

Definition group_entry (single_entry_as_group : bool)
  (nodes : list (list string * string)) (first3 : list string) (index : string)
  : navv :=
  let child_index_map :=
    filter (fun kv => Nat.eqb (length (fst kv)) 4 && parts_eqb (firstn 3 (fst kv)) first3)
      nodes in
  let group_items :=
    VDict [(last first3 "", VStr index)]
      :: map (child_item nodes) (sort_by id (map fst child_index_map)) in
  if Nat.eqb (length group_items) 1 then
    if single_entry_as_group then VList group_items else VStr index
  else VList group_items.

(** [groups]: the first three parts of every node with at least three
    parts, with the page of the first such node. *)
Definition build_groups (nodes : list (list string * string))
  : list (list string * string) :=
  fold_left (fun groups kv =>
               if Nat.leb 3 (length (fst kv)) then
                 let key := firstn 3 (fst kv) in
                 if dict_has parts_eqb key groups then groups
                 else dict_set parts_eqb key (snd kv) groups
               else groups) nodes [].

Definition build_package_nav (single_entry_as_group : bool)
  (nodes : list (list string * string)) (package_nav : list (string * navv))
  : list (string * navv) :=
  fold_left (fun nav g =>
               let display_key := Py.join "." (fst g) in
               let nav1 := if dict_has String.eqb display_key nav then nav
                           else dict_set String.eqb display_key (VList []) nav in
               dict_set String.eqb display_key
                 (group_entry single_entry_as_group nodes (fst g) (snd g)) nav1)
    (build_groups nodes) package_nav.

(** The generator's state shared by the passes. *)
Record State : Type := {
  package_nodes : list (string * list (list string * string));
  nav_structure : list (string * list (string * navv)) }.

Definition empty_state : State := {| package_nodes := []; nav_structure := [] |}.

(** [_build_nav_structure_only] for one package. *)
Definition build_nav_structure_only (cfg : Config) (st : State) (pkg : Package)
  : State :=
  let package_name := get_package_display_name pkg in
  let nodes0 :=
    match dict_get String.eqb package_name (package_nodes st) with
    | Some d => d | None => [] end in
  let nodes :=
    fold_left (fun nodes f =>
                 match record_node cfg pkg package_name f with
                 | Some (k, v) => dict_set parts_eqb k v nodes
                 | None => nodes
                 end)
      (sort_by rel_parts (files pkg)) nodes0 in
  let package_nodes' := dict_set String.eqb package_name nodes (package_nodes st) in
  match nodes with
  | [] => {| package_nodes := package_nodes'; nav_structure := nav_structure st |}
  | _ =>
      let package_nav0 :=
        match dict_get String.eqb package_name (nav_structure st) with
        | Some d => d | None => [] end in
      {| package_nodes := package_nodes';
         nav_structure :=
           dict_set String.eqb package_name
             (build_package_nav (single_entry_as_group cfg) nodes package_nav0)
             (nav_structure st) |}
  end.

(** The first pass of [generate] over [config.packages]. *)
Definition first_pass (cfg : Config) (packages : list Package) : State :=
  fold_left (build_nav_structure_only cfg) packages empty_state.

(** [generate] up to the merge: the content of [mkdocs.yml] afterwards.
    [clean_ok] says whether [clean_reference_directory()], which runs
    first, returns: when it raises (it re-raises any error of [rmtree] or
    [mkdir]), [generate] stops there and [mkdocs.yml] is not touched. *)
Definition generate_mkdocs (clean_ok : bool) (cfg : Config) (packages : list Package)
  (template : option string) (w : Updater.write_outcome) (dest : string) : string :=
  if negb clean_ok then dest
  else
    match nav_structure (first_pass cfg packages) with
    | [] => dest
    | ns => snd (Updater.update_mkdocs_config template ns w dest)
    end.

(** [PurePath.with_suffix(".md")] on a last part [name] without [.py]:
    the suffix is the text from the last dot, when that dot is neither the
    first nor the last character. *)
Fixpoint last_dot (s : string) (pos : nat) (acc : option nat) : option nat :=
  match s with
  | EmptyString => acc
  | String c s' => last_dot s' (S pos) (if Ascii.eqb c "." then Some pos else acc)
  end.
Definition with_suffix_md (name : string) : string :=
  match last_dot name 0 None with
  | Some i =>
      if Nat.ltb 0 i && Nat.ltb i (String.length name - 1)
      then substring 0 i name ++ ".md"
      else name ++ ".md"
  | None => name ++ ".md"
  end.

(** One iteration of the file loop of [process_package]: the
    [(doc_path, identifier)] it passes to [create_documentation_file], if
    any.  [__init__.py] files follow the first pass; [__main__.py] is
    skipped; any other module is skipped when [only_index_pages] holds. *)
Definition doc_file (cfg : Config) (pkg : Package) (f : PyFile)
  : option (list string * string) :=
  if should_exclude_path cfg pkg f then None
  else
    let parts := module_parts f in
    let doc_path := app (removelast parts) [with_suffix_md (last parts "")] in
    if String.eqb (last parts "") "__init__" then
      let '(parts', doc_path', has_all) := process_init_module parts f in
      match parts' with
      | [] => None
      | _ => if negb has_all then None else Some (doc_path', Py.join "." parts')
      end
    else if String.eqb (last parts "") "__main__" then None
    else if only_index_pages cfg then None
    else Some (doc_path, Py.join "." parts).

(** The second pass of [generate]: [process_package] over
    [config.packages], as the list of [(package_name, doc_path,
    identifier)] of the documentation files it writes
    ([Path(docs_base_path) / package_name / doc_path]).  [ok pkg f] says
    whether, for a file that reaches them, the [self.nav[nav_key]]
    assignment and [create_documentation_file] both go through: an error
    raised by the former is caught by the file loop, and the latter returns
    [False] on error; either way no page is written for that file. *)
Definition process_package_docs (cfg : Config) (ok : Package -> PyFile -> bool)
  (pkg : Package) : list (string * list string * string) :=
  let package_name := get_package_display_name pkg in
  flat_map (fun f => match doc_file cfg pkg f with
                     | Some (dp, ident) =>
                         if ok pkg f then [(package_name, dp, ident)] else []
                     | None => []
                     end)
    (sort_by rel_parts (files pkg)).
Definition second_pass (cfg : Config) (ok : Package -> PyFile -> bool)
  (packages : list Package) : list (string * list string * string) :=
  flat_map (process_package_docs cfg ok) packages.

End Gen.

(** ** DocumentationConfig: defaults and [load_from_file] *)

Module DocumentationConfig.

(** The values [yaml.safe_load] builds from [doc_config.yaml]: strings,
    integers, booleans, null, sequences and mappings with string keys. *)
Inductive yval : Type :=
| YStr (s : string)
| YInt (z : Z)
| YBool (b : bool)
| YNull
| YList (l : list yval)
| YDict (d : list (string * yval)).

(** [hash(v)] succeeds: lists and dicts are unhashable. *)
Definition hashable (v : yval) : bool :=
  match v with YList _ | YDict _ => false | _ => true end.

(** [==] between hashable values ([True == 1], [False == 0]). *)
Definition yeqb (a b : yval) : bool :=
  match a, b with
  | YStr x, YStr y => String.eqb x y
  | YInt x, YInt y => Z.eqb x y
  | YBool x, YBool y => Bool.eqb x y
  | YBool x, YInt y | YInt y, YBool x => Z.eqb y (if x then 1 else 0)%Z
  | YNull, YNull => true
  | _, _ => false
  end.

(** [set(v)], [None] when it raises [TypeError]; only membership in the
    result is used, so it is kept as a list. *)
Definition py_set (v : yval) : option (list yval) :=
  match v with
  | YList l => if forallb hashable l then Some l else None
  | YStr s => Some (map (fun c => YStr (String c EmptyString)) (list_ascii_of_string s))
  | YDict d => Some (map (fun kv => YStr (fst kv)) d)
  | _ => None
  end.

Record DocConfig : Type := {
  exclude_patterns : list yval;
  exclude_files : list yval;
  packages : list yval;
  (** [package_info]: path, then ['name'] and ['description'] *)
  package_info : list (yval * (yval * yval));
  (** the generation options, in the order [load_from_file] reads them *)
  options : list (string * yval) }.

(** [_set_defaults] (the unused [mkdocstrings_options] left out) *)
Definition set_defaults : DocConfig := {|
  exclude_patterns :=
    map YStr ["__pycache__"; ".venv"; "venv"; ".git"; ".pytest_cache";
              "node_modules"; "tests"; "test"; "ipynb"; "dist"; "build"];
  exclude_files := map YStr ["__main__.py"; "setup.py"; "conftest.py"; "version.py"];
  packages := [YStr "bridgic-core"];
  package_info := [];
  options :=
    [("docs_base_path", YStr "reference"); ("verbose", YBool true);
     ("skip_empty_modules", YBool true); ("show_source", YBool true);
     ("show_root_heading", YBool true); ("show_root_toc_entry", YBool true);
     ("generate_index_pages", YBool true); ("docstring_style", YStr "numpy");
     ("only_index_pages", YBool true); ("single_entry_as_group", YBool true)] |}.

(** Each section of [load_from_file] gives the state when it ends and
    whether it ended without raising; a raise skips the later sections
    (the handler only logs). *)
Definition step_exclude_patterns (st : DocConfig) (d : list (string * yval))
  : DocConfig * bool :=
  match dict_get String.eqb "exclude_patterns" d with
  | None => (st, true)
  | Some v =>
      match py_set v with
      | Some l => ({| exclude_patterns := l; exclude_files := exclude_files st;
                      packages := packages st; package_info := package_info st;
                      options := options st |}, true)
      | None => (st, false)
      end
  end.

Definition step_exclude_files (st : DocConfig) (d : list (string * yval))
  : DocConfig * bool :=
  match dict_get String.eqb "exclude_files" d with
  | None => (st, true)
  | Some v =>
      match py_set v with
      | Some l => ({| exclude_patterns := exclude_patterns st; exclude_files := l;
                      packages := packages st; package_info := package_info st;
                      options := options st |}, true)
      | None => (st, false)
      end
  end.

(** [pkg['path']], [None] when it raises ([KeyError] or [TypeError]). *)
Definition get_path (pkg : yval) : option yval :=
  match pkg with YDict d => dict_get String.eqb "path" d | _ => None end.

(** [pkg.get(k, default)] on a dict *)
Definition get_or (d : list (string * yval)) (k : string) (default : yval) : yval :=
  match dict_get String.eqb k d with Some v => v | None => default end.

(** The dict comprehension building [package_info]: for each entry the key
    [pkg['path']] (hashed), then its value; a repeated key keeps its first
    position and takes the last value. *)
Fixpoint build_info (l : list yval) (acc : list (yval * (yval * yval)))
  : option (list (yval * (yval * yval))) :=
  match l with
  | [] => Some acc
  | YDict d :: l' =>
      match dict_get String.eqb "path" d with
      | Some p =>
          if hashable p
          then build_info l'
                 (dict_set yeqb p (get_or d "name" p, get_or d "description" (YStr "")) acc)
          else None
      | None => None
      end
  | _ :: _ => None
  end.

Definition step_packages (st : DocConfig) (d : list (string * yval)) : DocConfig * bool :=
  match dict_get String.eqb "packages" d with
  | Some (YList l) =>
      match l with
      | YDict _ :: _ =>
          match Ast.traverse get_path l with
          | None => (st, false)
          | Some paths =>
              let st1 := {| exclude_patterns := exclude_patterns st;
                            exclude_files := exclude_files st; packages := paths;
                            package_info := package_info st; options := options st |} in
              match build_info l [] with
              | Some info => ({| exclude_patterns := exclude_patterns st;
                                 exclude_files := exclude_files st; packages := paths;
                                 package_info := info; options := options st |}, true)
              | None => (st1, false)
              end
          end
      | _ => ({| exclude_patterns := exclude_patterns st; exclude_files := exclude_files st;
                 packages := l; package_info := package_info st;
                 options := options st |}, true)
      end
  | _ => (st, true)
  end.

(** [self.k = gen_opts.get('k', self.k)] for each option; [.get] raises
    [AttributeError] unless [generation_options] is a dict. *)
Definition step_generation_options (st : DocConfig) (d : list (string * yval))
  : DocConfig * bool :=
  match dict_get String.eqb "generation_options" d with
  | None => (st, true)
  | Some (YDict g) =>
      ({| exclude_patterns := exclude_patterns st; exclude_files := exclude_files st;
          packages := packages st; package_info := package_info st;
          options := map (fun kv => (fst kv, get_or g (fst kv) (snd kv))) (options st) |},
       true)
  | Some _ => (st, false)
  end.

(** [load_from_file]: [doc] is what [yaml.safe_load] returns, [None] when
    opening, reading or parsing raises.  For a document that is not a
    mapping no assignment is reached: [key in data] raises on null,
    numbers and booleans, and when it holds for a list or a string the
    subscript [data[key]] raises. *)
Definition load_from_file (st : DocConfig) (doc : option yval) : DocConfig :=
  match doc with
  | Some (YDict d) =>
      let '(st1, ok1) := step_exclude_patterns st d in
      if negb ok1 then st1 else
      let '(st2, ok2) := step_exclude_files st1 d in
      if negb ok2 then st2 else
      let '(st3, ok3) := step_packages st2 d in
      if negb ok3 then st3 else
      fst (step_generation_options st3 d)
  | _ => st
  end.

(** [get_package_display_name] and [get_package_description]; [None] when
    they raise (an unhashable path in [package_path in self.package_info],
    or [Path] of a non-string). *)
Definition get_package_display_name (cfg : DocConfig) (package_path : yval) : option yval :=
  if negb (hashable package_path) then None
  else
    match dict_get yeqb package_path (package_info cfg) with
    | Some (name, _) => Some name
    | None =>
        match package_path with
        | YStr p => Some (YStr (Py.replace "-" "_" (Gen.path_name p)))
        | _ => None
        end
    end.

Definition get_package_description (cfg : DocConfig) (package_path : yval) : option yval :=
  if negb (hashable package_path) then None
  else
    match dict_get yeqb package_path (package_info cfg) with
    | Some (_, description) => Some description
    | None => Some (YStr "")
    end.

End DocumentationConfig.

(** ** Scenarios used by the properties *)

Module Scenarios.
Import Updater.

Definition example_structure (package_name : string)
  : list (string * list (string * navv)) :=
  [(package_name,
    [("pkg.sub.mod",
      VList [VDict [("mod", VStr "reference/pkg/sub/mod/index.md")];
             VDict [("leaf", VStr "reference/pkg/sub/mod/leaf/index.md")]])])].

Definition example_template : string := "site_name: x" ++ Py.nl_s ++ placeholder ++ Py.nl_s ++ "theme: y".

Definition relevant_package (k : string) : bool :=
  String.eqb (Py.lower k) "bridgic-core" || Py.startswith k "bridgic-llms-".

(** The API content as the amended rules describe it: the block of the
    core package [k] with structure [v] (its label, then its rendered
    navigation six spaces in), and the [Bridgic-Integration] block with
    one fixed line for each [bridgic-llms-] package [n], in order. *)
Definition core_block (k : string) (v : list (string * navv)) : list string :=
  let sub := nav_to_yaml_string (build_nav_structure v) 6 in
  ("    - " ++ format_display_name (format_display_name k) ++ ":")
    :: (if String.eqb sub "" then [] else nonblank_lines sub).

Definition llm_entry_line (n : string) : string :=
  let dotted := Py.replace "-" "_" (Py.replace "bridgic-llms-" "" n) in
  "        - bridgic.llms." ++ dotted ++ ": reference/" ++ n ++ "/bridgic/llms/"
  ++ dotted ++ "/index.md".

Definition integration_block (names : list string) : list string :=
  match names with
  | [] => []
  | _ => app ["    - Bridgic-Integration:"; "      - llms:";
              "        - llms: extras/llms/index.md"]
           (map llm_entry_line names)
  end.

Definition llm_packages (ns : list (string * list (string * navv))) : list string :=
  filter (fun n => Py.startswith n "bridgic-llms-") (map fst ns).

Definition is_core_key (k : string) : bool := String.eqb (Py.lower k) "bridgic-core".

(** The structure of the package of [example_structure], and packages
    that follow a core package: an integration and a second key equal to
    [bridgic-core] up to case. *)
Definition core_example : list (string * navv) :=
  [("pkg.sub.mod",
    VList [VDict [("mod", VStr "reference/pkg/sub/mod/index.md")];
           VDict [("leaf", VStr "reference/pkg/sub/mod/leaf/index.md")]])].
Definition mixed_tail : list (string * list (string * navv)) :=
  [("bridgic-llms-openai-like", []); ("BRIDGIC-CORE", core_example)].







Definition exports_of (source : option (list Ast.stmt)) : list string :=
  snd (Ast.parse_init_doc_and_all Ast.insertion_order source).



(** The page an [__init__.py] gets in the navigation when it is recorded. *)
Definition init_index_page (cfg : Gen.Config) (package_name : string) (f : Gen.PyFile)
  : string :=
  Gen.index_page cfg package_name
    (snd (fst (Gen.process_init_module (Gen.module_parts f) f))).

(** The index-only configuration of [doc_config.yaml]'s defaults. *)
Definition cfg_index_only (single : bool) : Gen.Config :=
  {| Gen.exclude_patterns := ["__pycache__"; ".venv"; "tests"; "build"];
     Gen.exclude_files := ["__main__.py"; "setup.py"; "conftest.py"; "version.py"];
     Gen.docs_base_path := "reference";
     Gen.only_index_pages := true;
     Gen.single_entry_as_group := single |}.

Definition exports_A : option (list Ast.stmt) :=
  Some [Ast.SAssign [Ast.EName "__all__"] (Ast.EList [Ast.EStr "A"])].

(** [dirs/__init__.py] with [__all__ = ["A"]]. *)
Definition init_file (dirs : list string) : Gen.PyFile :=
  {| Gen.rel_parts := app dirs ["__init__.py"]; Gen.source := exports_A |}.

Definition core_package (fs : list Gen.PyFile) : Gen.Package :=
  {| Gen.package_path := "bridgic-core"; Gen.info_name := Some "bridgic-core";
     Gen.src_parts := ["/"; "repo"; "bridgic-core"]; Gen.files := fs |}.

(** [bridgic/core/automa/__init__.py] and [bridgic/core/automa/Args/__init__.py]. *)
Definition package_upper_child : Gen.Package :=
  core_package [init_file ["bridgic"; "core"; "automa"];
                init_file ["bridgic"; "core"; "automa"; "Args"]].

(** [bridgic/core/automa/__init__.py] and
    [bridgic/core/automa/Deep/x/y/__init__.py] (three parts below the group). *)
Definition package_deep_entry : Gen.Package :=
  core_package [init_file ["bridgic"; "core"; "automa"];
                init_file ["bridgic"; "core"; "automa"; "Deep"; "x"; "y"]].

(** The loop bodies of [_build_nav_structure_only], named. *)
Definition group_step (groups : list (list string * string)) (kv : list string * string) :=
  if Nat.leb 3 (length (fst kv)) then
    let key := firstn 3 (fst kv) in
    if dict_has Gen.parts_eqb key groups then groups else dict_set Gen.parts_eqb key (snd kv) groups
  else groups.

Definition node_step (cfg : Gen.Config) (pkg : Gen.Package) (package_name : string)
  (nodes : list (list string * string)) (f : Gen.PyFile) :=
  match Gen.record_node cfg pkg package_name f with
  | Some (k, v) => dict_set Gen.parts_eqb k v nodes
  | None => nodes
  end.

Definition nav_step (single : bool) (nodes : list (list string * string))
  (nav : list (string * navv)) (g : list string * string) :=
  let display_key := Py.join "." (fst g) in
  let nav1 := if dict_has String.eqb display_key nav then nav
              else dict_set String.eqb display_key (VList []) nav in
  dict_set String.eqb display_key (Gen.group_entry single nodes (fst g) (snd g)) nav1.

(** A node [(k, v)] comes from an accepted file of one of [packages]. *)
Definition origin (cfg : Gen.Config) (packages : list Gen.Package)
  (k : list string) (v : string) : Prop :=
  exists pkg f, In pkg packages /\ In f (Gen.files pkg) /\
    Gen.record_node cfg pkg (Gen.get_package_display_name pkg) f = Some (k, v).

(** What the first pass keeps true of its state: recorded nodes come from
    accepted files; every page and every group key of a package's
    navigation comes from a node of at least three parts. *)
Definition nav_inv (cfg : Gen.Config) (packages : list Gen.Package) (st : Gen.State)
  : Prop :=
  (forall name nodes,
      dict_get String.eqb name (Gen.package_nodes st) = Some nodes ->
      forall k v, In (k, v) nodes -> origin cfg packages k v) /\
  (forall name pnav,
      dict_get String.eqb name (Gen.nav_structure st) = Some pnav ->
      (forall p, In p (nav_pages pnav) ->
                 exists k, 3 <= length k /\ origin cfg packages k p) /\
      (forall dk, In dk (map fst pnav) ->
                  exists k v, 3 <= length k /\ origin cfg packages k v /\
                              dk = Py.join "." (firstn 3 k))).

(** A node [(k, v)] recorded under the display name [name] comes from an
    accepted file of a package of [packages] with that display name. *)
Definition origin_named (cfg : Gen.Config) (packages : list Gen.Package)
  (name : string) (k : list string) (v : string) : Prop :=
  exists pkg f, In pkg packages /\ In f (Gen.files pkg) /\
    Gen.get_package_display_name pkg = name /\
    Gen.record_node cfg pkg name f = Some (k, v).

(** What the first pass keeps true of the names it uses: the nodes kept
    under a name come from packages with that display name, and a name is a
    key of [nav_structure] only if such a package recorded a node. *)
Definition keys_inv (cfg : Gen.Config) (packages : list Gen.Package) (st : Gen.State)
  : Prop :=
  (forall name nodes,
      dict_get String.eqb name (Gen.package_nodes st) = Some nodes ->
      forall k v, In (k, v) nodes -> origin_named cfg packages name k v) /\
  (forall name, In name (map fst (Gen.nav_structure st)) ->
                exists k v, origin_named cfg packages name k v).

(** Strings without a newline, and navigation values whose keys and
    string leaves have none. *)
Definition no_nl (s : string) : bool :=
  negb (existsb (Ascii.eqb Py.nl) (list_ascii_of_string s)).

Fixpoint navv_nl_free (v : navv) : bool :=
  match v with
  | VStr s => no_nl s
  | VList l => forallb navv_nl_free l
  | VDict d => forallb (fun kv => no_nl (fst kv) && navv_nl_free (snd kv)) d
  end.

End Scenarios.

(** * Properties *)

(** ** The merge (template path and region-staging) *)

Module MergeFacts.
Import Updater Scenarios.

Lemma dict_get_filter_relevant (k : string) (ns : list (string * list (string * navv))) :
  relevant_package k = true ->
  dict_get String.eqb k (filter (fun kv => relevant_package (fst kv)) ns)
  = dict_get String.eqb k ns.
Proof.
  intros Hk. induction ns as [|[k' v] ns IH]; simpl; [reflexivity|].
  destruct (String.eqb k k') eqn:E.
  - apply String.eqb_eq in E; subst k'. rewrite Hk. simpl.
    rewrite String.eqb_refl. reflexivity.
  - destruct (relevant_package k'); simpl; [rewrite E|]; exact IH.
Qed.

Lemma core_keys_filter_relevant (ns : list (string * list (string * navv))) :
  filter (fun k => String.eqb (Py.lower k) "bridgic-core")
    (map fst (filter (fun kv => relevant_package (fst kv)) ns))
  = filter (fun k => String.eqb (Py.lower k) "bridgic-core") (map fst ns).
Proof.
  induction ns as [|[k v] ns IH]; simpl; [reflexivity|].
  destruct (relevant_package k) eqn:R; simpl.
  - destruct (String.eqb (Py.lower k) "bridgic-core"); [f_equal|]; exact IH.
  - unfold relevant_package in R. apply orb_false_iff in R.
    rewrite (proj1 R). exact IH.
Qed.

Lemma integration_filter_relevant (ns : list (string * list (string * navv))) :
  List.concat (map integration_entry
                 (map fst (filter (fun kv => relevant_package (fst kv)) ns)))
  = List.concat (map integration_entry (map fst ns)).
Proof.
  induction ns as [|[k v] ns IH]; simpl; [reflexivity|].
  destruct (relevant_package k) eqn:R; simpl.
  - f_equal. exact IH.
  - unfold relevant_package in R. apply orb_false_iff in R.
    unfold integration_entry at 2. rewrite (proj2 R). exact IH.
Qed.

Lemma content_filter_relevant (ns : list (string * list (string * navv))) :
  generate_api_reference_content (filter (fun kv => relevant_package (fst kv)) ns)
  = generate_api_reference_content ns.
Proof.
  unfold generate_api_reference_content.
  rewrite core_keys_filter_relevant, integration_filter_relevant.
  destruct (filter (fun k => String.eqb (Py.lower k) "bridgic-core") (map fst ns))
    as [|core_key rest] eqn:Hc; [reflexivity|].
  assert (Hrel : relevant_package core_key = true).
  { assert (Hin : In core_key (filter (fun k => String.eqb (Py.lower k) "bridgic-core")
                                 (map fst ns))) by (rewrite Hc; left; reflexivity).
    apply filter_In in Hin. unfold relevant_package. rewrite (proj2 Hin). reflexivity. }
  rewrite (dict_get_filter_relevant core_key ns Hrel). reflexivity.
Qed.

(** C1 (counterexample): a package whose name is neither [bridgic-core]
    nor [bridgic-llms-...] is not rendered: the placeholder of the
    template is replaced by nothing although the structure holds the group
    [pkg.sub.mod] with its child [leaf]. *)
Lemma C1_other_package_not_rendered :
  update_mkdocs_config (Some example_template) (example_structure "pkg") WriteOk ""
  = (true, "site_name: x" ++ Py.nl_s ++ Py.nl_s ++ "theme: y").
Proof. vm_compute. reflexivity. Qed.

Lemma integration_entries_filter (l : list string) :
  List.concat (map integration_entry l)
  = map (fun n => ("bridgic.llms." ++ Py.replace "-" "_" (Py.replace "bridgic-llms-" "" n),
                   "reference/" ++ n ++ "/bridgic/llms/"
                   ++ Py.replace "-" "_" (Py.replace "bridgic-llms-" "" n) ++ "/index.md"))
        (filter (fun n => Py.startswith n "bridgic-llms-") l).
Proof.
  induction l as [|n l IH]; [reflexivity|].
  cbn [map List.concat filter]. unfold integration_entry at 1.
  destruct (Py.startswith n "bridgic-llms-"); [cbn [app map]; f_equal|]; exact IH.
Qed.

Lemma integration_lines_block (l : list string) :
  match List.concat (map integration_entry l) with
  | [] => []
  | _ => app ["    - Bridgic-Integration:"; "      - llms:";
              "        - llms: " ++ LLM_OVERVIEW_PATH]
           (map (fun e => "        - " ++ fst e ++ ": " ++ snd e)
              (List.concat (map integration_entry l)))
  end
  = integration_block (filter (fun n => Py.startswith n "bridgic-llms-") l).
Proof.
  rewrite integration_entries_filter.
  destruct (filter (fun n => Py.startswith n "bridgic-llms-") l) as [|n rest];
    [reflexivity|].
  cbn [map integration_block]. rewrite map_map. reflexivity.
Qed.

Lemma filter_core_keys_none (pre : list (string * list (string * navv))) :
  forallb (fun kv => negb (is_core_key (fst kv))) pre = true ->
  filter (fun k => String.eqb (Py.lower k) "bridgic-core") (map fst pre) = [].
Proof.
  induction pre as [|[k' v'] pre IH]; intros H; [reflexivity|].
  cbn [forallb fst] in H. apply andb_true_iff in H. destruct H as [H1 H2].
  cbn [map filter fst]. unfold is_core_key in H1.
  destruct (String.eqb (Py.lower k') "bridgic-core"); [discriminate|]. exact (IH H2).
Qed.

Lemma dict_get_after_non_core (pre post : list (string * list (string * navv)))
  (k : string) (v : list (string * navv)) :
  forallb (fun kv => negb (is_core_key (fst kv))) pre = true ->
  is_core_key k = true ->
  dict_get String.eqb k (app pre ((k, v) :: post)) = Some v.
Proof.
  intros Hpre Hk. induction pre as [|[k' v'] pre IH].
  - cbn [app dict_get]. rewrite String.eqb_refl. reflexivity.
  - cbn [forallb fst] in Hpre. apply andb_true_iff in Hpre. destruct Hpre as [H1 H2].
    cbn [app dict_get]. destruct (String.eqb k k') eqn:E.
    + apply String.eqb_eq in E. subst k'. rewrite Hk in H1. discriminate.
    + exact (IH H2).
Qed.

Lemma core_lines_block (k : string) (v : list (string * navv)) :
  List.concat (map core_item_lines (build_api_reference_nav [(k, v)])) = core_block k v.
Proof.
  unfold build_api_reference_nav, core_block.
  cbn [map List.concat core_item_lines fst snd]. rewrite !app_nil_r. reflexivity.
Qed.

(** C1 (amended): in template mode the result is the template with every
    occurrence of the placeholder replaced by the API content.  That
    content renders, of all packages, only the first one whose name is
    [bridgic-core] up to case (its block: its label, then its navigation),
    followed, when some package name starts with [bridgic-llms-], by the
    [Bridgic-Integration > llms] block holding an overview line and one
    fixed line per such package, in order; with no [bridgic-core] package
    only the integration block is left; packages of any other name
    contribute nothing.  For a package [bridgic-core] holding the group
    [pkg.sub.mod] with the child [pkg.sub.mod.leaf] the placeholder line
    becomes the nested list with the items [mod] and [leaf], the rest of
    the template being unchanged. *)
Theorem C1_primary_merge_content :
  (forall (t : string) ns d,
      Py.contains placeholder t = true ->
      update_mkdocs_config (Some t) ns WriteOk d
      = (true, Py.replace placeholder (generate_api_reference_content ns) t)) /\
  (forall ns pre k v post,
      ns = app pre ((k, v) :: post) ->
      forallb (fun kv => negb (is_core_key (fst kv))) pre = true ->
      is_core_key k = true ->
      generate_api_reference_content ns
      = Py.join Py.nl_s (app (core_block k v) (integration_block (llm_packages ns)))) /\
  (forall ns,
      forallb (fun kv => negb (is_core_key (fst kv))) ns = true ->
      generate_api_reference_content ns
      = Py.join Py.nl_s (integration_block (llm_packages ns))) /\
  (forall ns,
      generate_api_reference_content ns
      = generate_api_reference_content (filter (fun kv => relevant_package (fst kv)) ns)) /\
  (forall d,
      update_mkdocs_config (Some example_template) (example_structure "bridgic-core")
        WriteOk d
      = (true, "site_name: x" ++ Py.nl_s
               ++ "    - Bridgic-Core:" ++ Py.nl_s
               ++ "      - pkg.sub.mod:" ++ Py.nl_s
               ++ "        - mod: reference/pkg/sub/mod/index.md" ++ Py.nl_s
               ++ "        - leaf: reference/pkg/sub/mod/leaf/index.md" ++ Py.nl_s
               ++ "theme: y")).
Proof.
  split; [|split; [|split; [|split]]].
  - intros t ns d H. unfold update_mkdocs_config. rewrite H. reflexivity.
  - intros ns pre k v post -> Hpre Hk. unfold generate_api_reference_content.
    rewrite map_app, filter_app, (filter_core_keys_none pre Hpre).
    cbn [map filter fst app]. pose proof Hk as Hk'. unfold is_core_key in Hk'. rewrite Hk'.
    rewrite (dict_get_after_non_core pre post k v Hpre Hk).
    rewrite core_lines_block, integration_lines_block.
    unfold llm_packages. rewrite map_app. reflexivity.
  - intros ns Hns. unfold generate_api_reference_content.
    rewrite (filter_core_keys_none ns Hns), integration_lines_block. reflexivity.
  - intros ns. symmetry. apply content_filter_relevant.
  - intros d. vm_compute. reflexivity.
Qed.

(** The first of two [bridgic-core] keys (up to case) is rendered, after a
    package of another name, with one [bridgic-llms-] package. *)
Lemma C1_primary_merge_content_witness :
  llm_packages (app [("other", [])] (("Bridgic-Core", core_example) :: mixed_tail))
  = ["bridgic-llms-openai-like"] /\
  generate_api_reference_content
    (app [("other", [])] (("Bridgic-Core", core_example) :: mixed_tail))
  = Py.join Py.nl_s
      (app (core_block "Bridgic-Core" core_example)
         (integration_block
            (llm_packages (app [("other", [])] (("Bridgic-Core", core_example) :: mixed_tail))))).
Proof.
  split; [vm_compute; reflexivity|].
  apply (proj1 (proj2 C1_primary_merge_content)
           (app [("other", [])] (("Bridgic-Core", core_example) :: mixed_tail))
           [("other", [])] "Bridgic-Core" core_example mixed_tail);
    [reflexivity|vm_compute; reflexivity..].
Defined.

(** C2 (counterexample): a write error after [mkdocs.yml] was opened
    leaves it truncated to what was written: here the first twelve
    characters of the new content replace the old file. *)
Lemma C2_partial_write_counterexample :
  update_mkdocs_config (Some example_template) (example_structure "bridgic-core")
    (WriteFailsAfter 12) "old content"
  = (false, "site_name: x").
Proof. vm_compute. reflexivity. Qed.

(** C2 (amended): a missing template, a template without the placeholder,
    a failure to open the destination, and (in the region-staging routine)
    a missing [nav:] line all report failure and leave [mkdocs.yml] as it
    was; a write error after the destination was opened reports failure
    and leaves the prefix of the new content written so far. *)
Theorem C2_failure_paths :
  forall (t : string) ns (w : write_outcome) (d : string) (n : nat),
    update_mkdocs_config None ns w d = (false, d) /\
    (Py.contains placeholder t = false ->
     update_mkdocs_config (Some t) ns w d = (false, d)) /\
    update_mkdocs_config (Some t) ns OpenFails d = (false, d) /\
    (Py.contains placeholder t = true ->
     update_mkdocs_config (Some t) ns (WriteFailsAfter n) d
     = (false, substring 0 n
                 (Py.replace placeholder (generate_api_reference_content ns) t))) /\
    (nav_start_match d = None -> update_mkdocs_config_legacy ns w d = (false, d)) /\
    update_mkdocs_config_legacy ns OpenFails d = (false, d).
Proof.
  intros t ns w d n. repeat split.
  - intros H. unfold update_mkdocs_config. rewrite H. reflexivity.
  - unfold update_mkdocs_config. destruct (Py.contains placeholder t); reflexivity.
  - intros H. unfold update_mkdocs_config. rewrite H. reflexivity.
  - intros H. unfold update_mkdocs_config_legacy. rewrite H. reflexivity.
  - unfold update_mkdocs_config_legacy.
    destruct (nav_start_match d) as [[a b]|]; [|reflexivity].
    destruct (split_nav_region d b). reflexivity.
Qed.

Lemma C2_failure_paths_witness :
  Py.contains placeholder "no placeholder" = false /\
  update_mkdocs_config (Some "no placeholder") (example_structure "bridgic-core")
    WriteOk "old" = (false, "old").
Proof.
  split; [vm_compute; reflexivity|].
  apply (proj1 (proj2 (C2_failure_paths "no placeholder"
                          (example_structure "bridgic-core") WriteOk "old" 0))).
  vm_compute. reflexivity.
Defined.


(** C9: with the same template and structure a second merge leaves
    [mkdocs.yml] as the first one wrote it; a successful merge does not
    depend on the previous content of [mkdocs.yml]. *)
Theorem C9_merge_idempotent :
  forall (template : option string) ns (d d' : string),
    update_mkdocs_config template ns WriteOk
      (snd (update_mkdocs_config template ns WriteOk d))
    = update_mkdocs_config template ns WriteOk d /\
    (fst (update_mkdocs_config template ns WriteOk d) = true ->
     update_mkdocs_config template ns WriteOk d'
     = update_mkdocs_config template ns WriteOk d).
Proof.
  intros template ns d d'. unfold update_mkdocs_config.
  destruct template as [t|]; simpl; [|split; [reflexivity|discriminate]].
  destruct (Py.contains placeholder t); simpl; split; auto; discriminate.
Qed.

Lemma C9_merge_idempotent_witness :
  fst (update_mkdocs_config (Some example_template) (example_structure "bridgic-core")
         WriteOk "") = true /\
  update_mkdocs_config (Some example_template) (example_structure "bridgic-core")
    WriteOk "anything"
  = update_mkdocs_config (Some example_template) (example_structure "bridgic-core")
      WriteOk "".
Proof.
  split; [vm_compute; reflexivity|].
  apply (proj2 (C9_merge_idempotent (Some example_template)
                  (example_structure "bridgic-core") "" "anything")).
  vm_compute. reflexivity.
Defined.

End MergeFacts.

(** ** Export-list extraction *)

Module ExportFacts.
Import Scenarios.

Section Order.
Variable o : list string -> list string.





End Order.








End ExportFacts.

(** ** The navigation tree builder *)

Module TreeFacts.
Import Gen Scenarios.

(** *** Dicts *)

Section DictFacts.
Context {K V : Type} (keqb : K -> K -> bool).
Hypothesis keqb_eq : forall a b, keqb a b = true <-> a = b.

Lemma keqb_reflect a b : reflect (a = b) (keqb a b).
Proof. apply iff_reflect. symmetry. apply keqb_eq. Qed.

Lemma dict_get_set (k k' : K) (v : V) (d : list (K * V)) :
  dict_get keqb k' (dict_set keqb k v d)
  = if keqb k' k then Some v else dict_get keqb k' d.
Proof.
  induction d as [|[k0 v0] d IH]; simpl; [reflexivity|].
  destruct (keqb_reflect k k0) as [->|Hne]; simpl.
  - destruct (keqb k' k0); reflexivity.
  - rewrite IH. destruct (keqb_reflect k' k0) as [H1|H1];
      destruct (keqb_reflect k' k) as [H2|H2]; subst; try contradiction; reflexivity.
Qed.

Lemma In_dict_set (k a : K) (v b : V) (d : list (K * V)) :
  In (a, b) (dict_set keqb k v d) -> In (a, b) d \/ (a = k /\ b = v).
Proof.
  induction d as [|[k0 v0] d IH]; simpl.
  - intros [H|[]]. injection H as -> ->. right. split; reflexivity.
  - destruct (keqb_reflect k k0) as [->|Hne]; simpl.
    + intros [H|H]; [injection H as -> ->; right; split; reflexivity|].
      left. right. exact H.
    + intros [H|H]; [left; left; exact H|].
      destruct (IH H) as [H'|H']; [left; right; exact H'|right; exact H'].
Qed.

Lemma dict_get_In (k : K) (v : V) (d : list (K * V)) :
  dict_get keqb k d = Some v -> In (k, v) d.
Proof.
  induction d as [|[k0 v0] d IH]; simpl; [discriminate|].
  destruct (keqb_reflect k k0) as [->|Hne].
  - intros H. injection H as ->. left. reflexivity.
  - intros H. right. apply IH. exact H.
Qed.

Lemma In_dict_get (k : K) (v : V) (d : list (K * V)) :
  In (k, v) d -> exists v', dict_get keqb k d = Some v'.
Proof.
  induction d as [|[k0 v0] d IH]; simpl; [intros []|].
  destruct (keqb_reflect k k0) as [->|Hne]; [eauto|].
  intros [H|H]; [injection H as -> ->; contradiction|apply IH; exact H].
Qed.

Lemma dict_has_In (k : K) (d : list (K * V)) :
  dict_has keqb k d = true <-> exists v, In (k, v) d.
Proof.
  unfold dict_has. split.
  - destruct (dict_get keqb k d) as [v|] eqn:E; [|discriminate].
    intros _. exists v. apply dict_get_In. exact E.
  - intros [v Hv]. destruct (In_dict_get k v d Hv) as [v' ->]. reflexivity.
Qed.

End DictFacts.

Lemma parts_eqb_eq (a b : list string) : parts_eqb a b = true <-> a = b.
Proof.
  revert b. induction a as [|x a IH]; intros [|y b]; simpl;
    try (split; [discriminate|intros H; discriminate H]); [split; reflexivity|].
  rewrite andb_true_iff, String.eqb_eq, IH. split.
  - intros [-> ->]. reflexivity.
  - intros H. injection H as -> ->. split; reflexivity.
Qed.

Lemma sort_by_In {A} (key : A -> list string) (x : A) (l : list A) :
  In x (sort_by key l) <-> In x l.
Proof.
  unfold sort_by. induction l as [|y l IH]; simpl; [reflexivity|].
  assert (Hins : forall z m, In x (insert_sorted key z m) <-> z = x \/ In x m).
  { intros z m. induction m as [|w m IHm]; simpl; [reflexivity|].
    destruct (parts_leb (key z) (key w)); simpl; [reflexivity|].
    rewrite IHm. tauto. }
  rewrite Hins, IH. reflexivity.
Qed.

(** *** Pages of navigation values *)

Lemma in_concat_map {A B} (f : A -> list B) (y : B) (l : list A) :
  In y (List.concat (map f l)) <-> exists x, In x l /\ In y (f x).
Proof. rewrite <- flat_map_concat_map. apply in_flat_map. Qed.

Lemma navv_pages_dict1 (k : string) (v : navv) :
  navv_pages (VDict [(k, v)]) = navv_pages v.
Proof. simpl. apply app_nil_r. Qed.

Lemma navv_pages_VStr (s : string) : navv_pages (VStr s) = [s].
Proof. reflexivity. Qed.

Lemma navv_pages_VList (l : list navv) :
  navv_pages (VList l) = List.concat (map navv_pages l).
Proof. reflexivity. Qed.

Lemma nav_pages_In (p : string) (pnav : list (string * navv)) :
  In p (nav_pages pnav) <-> exists k v, In (k, v) pnav /\ In p (navv_pages v).
Proof.
  unfold nav_pages. rewrite in_concat_map. split.
  - intros [[k v] [H1 H2]]. exists k, v. split; assumption.
  - intros [k [v [H1 H2]]]. exists (k, v). split; assumption.
Qed.

Lemma node_path_In (nodes : list (list string * string)) (k : list string) :
  In k (map fst nodes) -> In (k, node_path nodes k) nodes.
Proof.
  intros H. apply in_map_iff in H. destruct H as [[k' v] [Hk Hin]]. simpl in Hk. subst k'.
  destruct (In_dict_get parts_eqb parts_eqb_eq k v nodes Hin) as [v' Hv'].
  unfold node_path. rewrite Hv'. apply (dict_get_In parts_eqb parts_eqb_eq). exact Hv'.
Qed.

Lemma In_dict_set_self {K V} (keqb : K -> K -> bool)
  (keqb_eq : forall a b, keqb a b = true <-> a = b) (k : K) (v : V) d :
  In (k, v) (dict_set keqb k v d).
Proof.
  induction d as [|[k0 v0] d IH]; simpl; [left; reflexivity|].
  destruct (keqb_reflect keqb keqb_eq k k0) as [->|Hne]; simpl; [left; reflexivity|].
  right. exact IH.
Qed.

Lemma In_dict_set_keep {K V} (keqb : K -> K -> bool)
  (keqb_eq : forall a b, keqb a b = true <-> a = b) (k a : K) (v b : V) d :
  In (a, b) d -> exists b', In (a, b') (dict_set keqb k v d).
Proof.
  induction d as [|[k0 v0] d IH]; simpl; [intros []|].
  destruct (keqb_reflect keqb keqb_eq k k0) as [->|Hne]; simpl.
  - intros [H|H]; [injection H as -> ->; exists v; left; reflexivity|].
    exists b. right. exact H.
  - intros [H|H]; [exists b; left; exact H|].
    destruct (IH H) as [b' Hb']. exists b'. right. exact Hb'.
Qed.

Lemma keys_dict_set (k a : string) (v : navv) (d : list (string * navv)) :
  In a (map fst (dict_set String.eqb k v d)) -> In a (map fst d) \/ a = k.
Proof.
  intros H. apply in_map_iff in H. destruct H as [[a' b] [Ha Hin]]. simpl in Ha. subst a'.
  destruct (In_dict_set String.eqb String.eqb_eq k a v b d Hin) as [H|[H _]].
  - left. apply in_map_iff. exists (a, b). split; [reflexivity|exact H].
  - right. exact H.
Qed.

(** *** Groups *)

Lemma build_groups_In (nodes : list (list string * string)) (g : list string * string) :
  In g (build_groups nodes) ->
  exists k, In (k, snd g) nodes /\ 3 <= length k /\ fst g = firstn 3 k.
Proof.
  unfold build_groups. change (fun groups kv => _) with group_step.
  assert (Hgen : forall l acc,
             (forall g, In g acc -> exists k, In (k, snd g) nodes /\ 3 <= length k
                                              /\ fst g = firstn 3 k) ->
             (forall kv, In kv l -> In kv nodes) ->
             forall g, In g (fold_left group_step l acc) ->
             exists k, In (k, snd g) nodes /\ 3 <= length k /\ fst g = firstn 3 k).
  { induction l as [|kv l IH]; intros acc Hacc Hl; simpl; [exact Hacc|].
    apply IH; [|intros kv' H; apply Hl; right; exact H].
    intros [a b] Hg. unfold group_step in Hg.
    destruct (Nat.leb 3 (length (fst kv))) eqn:E3; [|exact (Hacc _ Hg)].
    destruct (dict_has parts_eqb (firstn 3 (fst kv)) acc); [exact (Hacc _ Hg)|].
    destruct (In_dict_set parts_eqb parts_eqb_eq _ _ _ _ _ Hg) as [H|[-> ->]];
      [exact (Hacc _ H)|].
    exists (fst kv). simpl. split; [|split].
    - destruct kv as [k v]. apply Hl. left. reflexivity.
    - apply Nat.leb_le. exact E3.
    - reflexivity. }
  apply Hgen; [intros g' []|intros kv H; exact H].
Qed.

Lemma build_groups_complete (nodes : list (list string * string)) (k : list string) (v : string) :
  In (k, v) nodes -> 3 <= length k ->
  exists v', In (firstn 3 k, v') (build_groups nodes).
Proof.
  intros Hin Hlen. unfold build_groups. change (fun groups kv => _) with group_step.
  assert (Hkeep : forall l acc v0, In (firstn 3 k, v0) acc ->
                  exists v', In (firstn 3 k, v') (fold_left group_step l acc)).
  { induction l as [|kv l IH]; intros acc v0 H; simpl; [exists v0; exact H|].
    unfold group_step at 2. destruct (Nat.leb 3 (length (fst kv))); [|exact (IH _ _ H)].
    destruct (dict_has parts_eqb (firstn 3 (fst kv)) acc); [exact (IH _ _ H)|].
    destruct (In_dict_set_keep parts_eqb parts_eqb_eq (firstn 3 (fst kv)) _ (snd kv) v0
                acc H) as [b' Hb'].
    exact (IH _ _ Hb'). }
  assert (Hgen : forall l acc, In (k, v) l ->
                 exists v', In (firstn 3 k, v') (fold_left group_step l acc)).
  { induction l as [|kv l IH]; intros acc H; [destruct H|].
    destruct H as [->|H]; [|simpl; apply IH; exact H].
    simpl. unfold group_step at 2. simpl fst. simpl snd.
    assert (E3 : Nat.leb 3 (length k) = true) by (apply Nat.leb_le; exact Hlen).
    rewrite E3.
    destruct (dict_has parts_eqb (firstn 3 k) acc) eqn:Eh.
    - apply (dict_has_In parts_eqb parts_eqb_eq) in Eh. destruct Eh as [v0 Hv0].
      exact (Hkeep l acc v0 Hv0).
    - apply (Hkeep l _ v). apply (In_dict_set_self parts_eqb parts_eqb_eq). }
  apply Hgen. exact Hin.
Qed.

(** *** Pages of a group *)

Lemma child_item_pages (nodes : list (list string * string)) (c : list string) (p : string) :
  In c (map fst nodes) -> length c = 4 ->
  In p (navv_pages (child_item nodes c)) ->
  exists k, In (k, p) nodes /\ 4 <= length k.
Proof.
  intros Hc Hlen. unfold child_item.
  destruct (negb (existsb _ (map fst nodes))).
  - rewrite navv_pages_dict1, navv_pages_VStr. intros [<-|[]].
    exists c. split; [apply node_path_In; exact Hc|lia].
  - rewrite navv_pages_dict1, navv_pages_VList, map_cons, concat_cons,
      navv_pages_dict1, navv_pages_VStr.
    intros H. apply in_app_or in H. destruct H as [[<-|[]]|H].
    + exists c. split; [apply node_path_In; exact Hc|lia].
    + apply in_concat_map in H. destruct H as [x [Hx Hp]].
      apply in_map_iff in Hx. destruct Hx as [gc [<- Hgc]].
      apply sort_by_In in Hgc. apply filter_In in Hgc. destruct Hgc as [Hgc Hf].
      apply andb_true_iff in Hf. destruct Hf as [H5 _]. apply Nat.eqb_eq in H5.
      rewrite navv_pages_dict1, navv_pages_VStr in Hp. destruct Hp as [<-|[]].
      exists gc. split; [apply node_path_In; exact Hgc|lia].
Qed.

Lemma group_entry_pages (single : bool) (nodes : list (list string * string))
  (first3 : list string) (index p : string) :
  In p (navv_pages (group_entry single nodes first3 index)) ->
  p = index \/ exists k, In (k, p) nodes /\ 4 <= length k.
Proof.
  unfold group_entry.
  assert (Hitems : forall p,
             In p (navv_pages
                     (VList (VDict [(last first3 "", VStr index)]
                             :: map (child_item nodes)
                                  (sort_by id (map fst (filter (fun kv =>
                                     Nat.eqb (length (fst kv)) 4
                                     && parts_eqb (firstn 3 (fst kv)) first3) nodes)))))) ->
             p = index \/ exists k, In (k, p) nodes /\ 4 <= length k).
  { intros p' H.
    rewrite navv_pages_VList, map_cons, concat_cons, navv_pages_dict1, navv_pages_VStr in H.
    apply in_app_or in H.
    destruct H as [[<-|[]]|H]; [left; reflexivity|right].
    apply in_concat_map in H. destruct H as [x [Hx Hp]].
    apply in_map_iff in Hx. destruct Hx as [c [<- Hc]].
    apply sort_by_In in Hc. apply in_map_iff in Hc. destruct Hc as [[c' v] [Hc' Hin]].
    simpl in Hc'. subst c'. apply filter_In in Hin. destruct Hin as [Hin Hf].
    apply andb_true_iff in Hf. destruct Hf as [H4 _]. apply Nat.eqb_eq in H4.
    apply (child_item_pages nodes c); [|exact H4|exact Hp].
    apply in_map_iff. exists (c, v). split; [reflexivity|exact Hin]. }
  cbv zeta.
  destruct (Nat.eqb (length _) 1); [destruct single|]; try exact (Hitems p).
  rewrite navv_pages_VStr. intros [<-|[]]. left. reflexivity.
Qed.

(** *** Package navigation *)

Lemma nav_step_In (single : bool) nodes nav g a b :
  In (a, b) (nav_step single nodes nav g) ->
  In (a, b) nav \/
  (a = Py.join "." (fst g) /\ (b = VList [] \/ b = group_entry single nodes (fst g) (snd g))).
Proof.
  unfold nav_step. cbv zeta. intros H.
  destruct (In_dict_set String.eqb String.eqb_eq _ _ _ _ _ H) as [H1|[-> ->]];
    [|right; split; [reflexivity|right; reflexivity]].
  destruct (dict_has String.eqb (Py.join "." (fst g)) nav); [left; exact H1|].
  destruct (In_dict_set String.eqb String.eqb_eq _ _ _ _ _ H1) as [H2|[-> ->]];
    [left; exact H2|right; split; [reflexivity|left; reflexivity]].
Qed.

Lemma nav_step_get (single : bool) nodes nav g dk :
  dict_get String.eqb dk (nav_step single nodes nav g)
  = if String.eqb dk (Py.join "." (fst g))
    then Some (group_entry single nodes (fst g) (snd g))
    else dict_get String.eqb dk nav.
Proof.
  unfold nav_step. cbv zeta.
  rewrite (dict_get_set String.eqb String.eqb_eq).
  destruct (String.eqb dk (Py.join "." (fst g))) eqn:E; [reflexivity|].
  destruct (dict_has String.eqb (Py.join "." (fst g)) nav); [reflexivity|].
  rewrite (dict_get_set String.eqb String.eqb_eq), E. reflexivity.
Qed.

Lemma build_package_nav_fold (single : bool) nodes pnav0 :
  build_package_nav single nodes pnav0
  = fold_left (nav_step single nodes) (build_groups nodes) pnav0.
Proof. reflexivity. Qed.

Lemma build_package_nav_pages (single : bool) nodes pnav0 p :
  In p (nav_pages (build_package_nav single nodes pnav0)) ->
  In p (nav_pages pnav0) \/ exists k, In (k, p) nodes /\ 3 <= length k.
Proof.
  rewrite build_package_nav_fold.
  pose proof (build_groups_In nodes) as Hg. revert Hg.
  generalize (build_groups nodes) as gs. intros gs.
  revert pnav0. induction gs as [|g gs IH]; intros acc Hg Hp; [left; exact Hp|].
  change (fold_left (nav_step single nodes) (g :: gs) acc)
    with (fold_left (nav_step single nodes) gs (nav_step single nodes acc g)) in Hp.
  destruct (IH _ (fun g' H => Hg g' (or_intror H)) Hp) as [H|H]; [|right; exact H].
  apply nav_pages_In in H. destruct H as [a [b [Hab Hpb]]].
  destruct (nav_step_In single nodes acc g a b Hab) as [H|[_ [->| ->]]].
  - left. apply nav_pages_In. exists a, b. split; assumption.
  - destruct Hpb.
  - destruct (group_entry_pages single nodes (fst g) (snd g) p Hpb) as [->|[k [Hk Hl]]].
    + destruct (Hg g (or_introl eq_refl)) as [k [Hk [Hl _]]].
      right. exists k. split; assumption.
    + right. exists k. split; [exact Hk|lia].
Qed.

Lemma build_package_nav_keys (single : bool) nodes pnav0 dk :
  In dk (map fst (build_package_nav single nodes pnav0)) ->
  In dk (map fst pnav0) \/
  exists k v, In (k, v) nodes /\ 3 <= length k /\ dk = Py.join "." (firstn 3 k).
Proof.
  rewrite build_package_nav_fold.
  pose proof (build_groups_In nodes) as Hg. revert Hg.
  generalize (build_groups nodes) as gs. intros gs.
  revert pnav0. induction gs as [|g gs IH]; intros acc Hg Hd; [left; exact Hd|].
  change (fold_left (nav_step single nodes) (g :: gs) acc)
    with (fold_left (nav_step single nodes) gs (nav_step single nodes acc g)) in Hd.
  destruct (IH _ (fun g' H => Hg g' (or_intror H)) Hd) as [H|H]; [|right; exact H].
  apply in_map_iff in H. destruct H as [[a b] [Ha Hab]]. simpl in Ha. subst a.
  destruct (nav_step_In single nodes acc g dk b Hab) as [H|[-> _]].
  - left. apply in_map_iff. exists (dk, b). split; [reflexivity|exact H].
  - destruct (Hg g (or_introl eq_refl)) as [k [Hk [Hl Hf]]].
    right. exists k, (snd g). rewrite Hf. split; [exact Hk|split; [exact Hl|reflexivity]].
Qed.

(** *** The first pass *)

Lemma record_node_Some cfg pkg package_name f k v :
  record_node cfg pkg package_name f = Some (k, v) ->
  String.eqb (last (module_parts f) "") "__init__" = true /\
  exports_of (source f) <> [] /\
  v = init_index_page cfg package_name f.
Proof.
  unfold record_node, init_index_page, process_init_module, exports_of.
  destruct (should_exclude_path cfg pkg f); [discriminate|].
  destruct (String.eqb (last (module_parts f) "") "__init__") eqn:Ei; [|discriminate].
  destruct (Nat.ltb 1 (length (module_parts f))).
  - destruct (removelast (module_parts f)) as [|x xs]; [discriminate|].
    destruct (snd (Ast.parse_init_doc_and_all Ast.insertion_order (source f))) as [|e es]; simpl;
      [discriminate|].
    intros H. injection H as _ <-.
    split; [reflexivity|split; [discriminate|reflexivity]].
  - destruct (module_parts f) as [|x xs]; [discriminate|].
    destruct (snd (Ast.parse_init_doc_and_all Ast.insertion_order (source f))) as [|e es]; simpl;
      [discriminate|].
    intros H. injection H as _ <-.
    split; [reflexivity|split; [discriminate|reflexivity]].
Qed.

Lemma node_fold_origin cfg packages pkg :
  In pkg packages ->
  forall l acc,
    (forall k v, In (k, v) acc -> origin cfg packages k v) ->
    (forall f, In f l -> In f (files pkg)) ->
    forall k v, In (k, v) (fold_left (node_step cfg pkg (get_package_display_name pkg)) l acc) ->
    origin cfg packages k v.
Proof.
  intros Hpkg l. induction l as [|f l IH]; intros acc Hacc Hl; simpl; [exact Hacc|].
  apply IH; [|intros f' H; apply Hl; right; exact H].
  intros k v H. unfold node_step in H.
  destruct (record_node cfg pkg (get_package_display_name pkg) f) as [[k0 v0]|] eqn:Er;
    [|exact (Hacc _ _ H)].
  destruct (In_dict_set parts_eqb parts_eqb_eq _ _ _ _ _ H) as [H1|[-> ->]];
    [exact (Hacc _ _ H1)|].
  exists pkg, f. split; [exact Hpkg|split; [apply Hl; left; reflexivity|exact Er]].
Qed.

Lemma build_nav_structure_only_inv cfg packages st pkg :
  In pkg packages -> nav_inv cfg packages st ->
  nav_inv cfg packages (build_nav_structure_only cfg st pkg).
Proof.
  intros Hpkg [Hn Hv]. unfold build_nav_structure_only. cbv zeta.
  change (fun nodes f => match record_node cfg pkg (get_package_display_name pkg) f with
                         | Some (k, v) => dict_set parts_eqb k v nodes
                         | None => nodes end)
    with (node_step cfg pkg (get_package_display_name pkg)).
  set (name := get_package_display_name pkg).
  set (nodes0 := match dict_get String.eqb name (package_nodes st) with
                 | Some d => d | None => [] end).
  assert (Hn0 : forall k v, In (k, v) nodes0 -> origin cfg packages k v).
  { unfold nodes0. destruct (dict_get String.eqb name (package_nodes st)) eqn:E;
      [exact (Hn _ _ E)|intros k v []]. }
  remember (fold_left (node_step cfg pkg name) (sort_by rel_parts (files pkg)) nodes0)
    as nodes eqn:Enodes.
  assert (Hnodes : forall k v, In (k, v) nodes -> origin cfg packages k v).
  { rewrite Enodes. apply (node_fold_origin cfg packages pkg Hpkg); [exact Hn0|].
    intros f Hf. apply sort_by_In in Hf. exact Hf. }
  assert (Hpn : forall name' nodes',
             dict_get String.eqb name' (dict_set String.eqb name nodes (package_nodes st))
             = Some nodes' ->
             forall k v, In (k, v) nodes' -> origin cfg packages k v).
  { intros name' nodes' H. rewrite (dict_get_set String.eqb String.eqb_eq) in H.
    destruct (String.eqb name' name); [injection H as <-; exact Hnodes|exact (Hn _ _ H)]. }
  destruct nodes as [|n ns]; [split; [exact Hpn|exact Hv]|].
  split; [exact Hpn|].
  intros name' pnav H. simpl in H. rewrite (dict_get_set String.eqb String.eqb_eq) in H.
  destruct (String.eqb name' name); [|exact (Hv _ _ H)].
  injection H as <-.
  set (pnav0 := match dict_get String.eqb name (nav_structure st) with
                | Some d => d | None => [] end).
  assert (H0 : forall p, In p (nav_pages pnav0) ->
                 exists k, 3 <= length k /\ origin cfg packages k p).
  { unfold pnav0. destruct (dict_get String.eqb name (nav_structure st)) eqn:E;
      [exact (proj1 (Hv _ _ E))|intros p []]. }
  assert (H1 : forall dk, In dk (map fst pnav0) ->
                 exists k v, 3 <= length k /\ origin cfg packages k v /\
                             dk = Py.join "." (firstn 3 k)).
  { unfold pnav0. destruct (dict_get String.eqb name (nav_structure st)) eqn:E;
      [exact (proj2 (Hv _ _ E))|intros dk []]. }
  split.
  - intros p Hp.
    destruct (build_package_nav_pages _ _ _ p Hp) as [Hq|[k [Hk Hl]]]; [exact (H0 p Hq)|].
    exists k. split; [exact Hl|exact (Hnodes _ _ Hk)].
  - intros dk Hd.
    destruct (build_package_nav_keys _ _ _ dk Hd) as [Hq|[k [v [Hk [Hl ->]]]]];
      [exact (H1 dk Hq)|].
    exists k, v. split; [exact Hl|split; [exact (Hnodes _ _ Hk)|reflexivity]].
Qed.

Lemma first_pass_inv cfg packages : nav_inv cfg packages (first_pass cfg packages).
Proof.
  unfold first_pass.
  assert (Hgen : forall l st, (forall pkg, In pkg l -> In pkg packages) ->
                 nav_inv cfg packages st ->
                 nav_inv cfg packages (fold_left (build_nav_structure_only cfg) l st)).
  { induction l as [|pkg l IH]; intros st Hl Hst; simpl; [exact Hst|].
    apply IH; [intros pkg' H; apply Hl; right; exact H|].
    apply build_nav_structure_only_inv; [apply Hl; left; reflexivity|exact Hst]. }
  apply Hgen; [intros pkg H; exact H|].
  split; simpl; intros name x H; discriminate.
Qed.

Lemma firstn_length3 (k : list string) : 3 <= length k -> length (firstn 3 k) = 3.
Proof. intros H. rewrite length_firstn. lia. Qed.

Lemma group_entry_no_children (single : bool) nodes (key : list string) (p : string) :
  length key = 3 ->
  filter (fun kv => Nat.leb 3 (length (fst kv)) && parts_eqb (firstn 3 (fst kv)) key) nodes
  = [(key, p)] ->
  group_entry single nodes key p
  = if single then VList [VDict [(last key "", VStr p)]] else VStr p.
Proof.
  intros Hlen Hf.
  assert (Hnil : filter (fun kv => Nat.eqb (length (fst kv)) 4
                                   && parts_eqb (firstn 3 (fst kv)) key) nodes = []).
  { destruct (filter (fun kv => Nat.eqb (length (fst kv)) 4
                                 && parts_eqb (firstn 3 (fst kv)) key) nodes)
      as [|kv rest] eqn:E; [reflexivity|].
    assert (Hkv : In kv (filter (fun kv => Nat.eqb (length (fst kv)) 4
                                           && parts_eqb (firstn 3 (fst kv)) key) nodes))
      by (rewrite E; left; reflexivity).
    apply filter_In in Hkv. destruct Hkv as [Hkv Hb].
    apply andb_true_iff in Hb. destruct Hb as [H4 Hp]. apply Nat.eqb_eq in H4.
    assert (H3 : In kv (filter (fun kv => Nat.leb 3 (length (fst kv))
                                          && parts_eqb (firstn 3 (fst kv)) key) nodes)).
    { apply filter_In. split; [exact Hkv|]. rewrite H4, Hp. reflexivity. }
    rewrite Hf in H3. destruct H3 as [H3|[]]. subst kv. simpl in H4. lia. }
  unfold group_entry. cbv zeta. rewrite Hnil. destruct single; reflexivity.
Qed.

(** ** C6: the index of a group is the page of its first node *)

(** C6 (code bug). With [bridgic/core/automa/__init__.py] and
    [bridgic/core/automa/Args/__init__.py] both exporting names, the group
    [bridgic.core.automa] is keyed by the node [bridgic/core/automa], but its
    [automa] label links to the page of [Args]: [Args] sorts before
    [__init__.py], so its node is recorded first and becomes the group's
    index. *)
Theorem C6_group_index_from_first_node :
  dict_get String.eqb "bridgic-core"
    (package_nodes (first_pass (cfg_index_only true) [package_upper_child]))
  = Some [(["bridgic"; "core"; "automa"; "Args"],
           "reference/bridgic-core/bridgic/core/automa/Args/index.md");
          (["bridgic"; "core"; "automa"],
           "reference/bridgic-core/bridgic/core/automa/index.md")] /\
  dict_get String.eqb "bridgic-core"
    (nav_structure (first_pass (cfg_index_only true) [package_upper_child]))
  = Some [("bridgic.core.automa",
           VList [VDict [("automa",
                          VStr "reference/bridgic-core/bridgic/core/automa/Args/index.md")];
                  VDict [("Args",
                          VStr "reference/bridgic-core/bridgic/core/automa/Args/index.md")]])].
Proof. vm_compute. split; reflexivity. Qed.

(** ** C7: an entry three parts below its group reaches the output *)

(** C7 (code bug). With [bridgic/core/automa/__init__.py] and
    [bridgic/core/automa/Deep/x/y/__init__.py] both exporting names, the
    generated [mkdocs.yml] content links the group's [automa] label to the
    page of [Deep/x/y], an entry three parts below the group key. *)
Theorem C7_deep_entry_rendered :
  generate_mkdocs true (cfg_index_only true) [package_deep_entry]
    (Some Updater.placeholder) Updater.WriteOk ""
  = "    - Bridgic-Core:" ++ Py.nl_s
    ++ "      - bridgic.core.automa:" ++ Py.nl_s
    ++ "        - automa: reference/bridgic-core/bridgic/core/automa/Deep/x/y/index.md".
Proof. vm_compute. reflexivity. Qed.

(** ** C4: the export list admits package indices *)

(** C4. An [__init__.py] whose extracted export list is empty records no
    node; a non-excluded [__init__.py] with a non-empty export list records
    one, with its index page; and every page in the navigation built by the
    first pass is the index page of an admitted [__init__.py] of a
    configured package whose export list is non-empty. *)
Theorem C4_empty_exports_never_in_nav (cfg : Config) (packages : list Package) :
  (forall pkg f, exports_of (source f) = [] ->
                 record_node cfg pkg (get_package_display_name pkg) f = None) /\
  (forall pkg f, should_exclude_path cfg pkg f = false ->
                 String.eqb (last (module_parts f) "") "__init__" = true ->
                 exports_of (source f) <> [] ->
                 exists k, record_node cfg pkg (get_package_display_name pkg) f
                           = Some (k, init_index_page cfg (get_package_display_name pkg) f)) /\
  (forall name pnav p,
      dict_get String.eqb name (nav_structure (first_pass cfg packages)) = Some pnav ->
      In p (nav_pages pnav) ->
      exists pkg f, In pkg packages /\ In f (files pkg) /\
        String.eqb (last (module_parts f) "") "__init__" = true /\
        exports_of (source f) <> [] /\
        p = init_index_page cfg (get_package_display_name pkg) f).
Proof.
  split; [|split].
  - intros pkg f He.
    destruct (record_node cfg pkg (get_package_display_name pkg) f) as [[k v]|] eqn:Er;
      [|reflexivity].
    destruct (record_node_Some _ _ _ _ _ _ Er) as [_ [Hne _]]. contradiction.
  - intros pkg f Hx Hi Hne. unfold record_node, init_index_page, process_init_module.
    unfold exports_of in Hne. rewrite Hx, Hi.
    destruct (snd (Ast.parse_init_doc_and_all Ast.insertion_order (source f))) as [|e es];
      [contradiction|]. simpl.
    destruct (module_parts f) as [|x [|y zs]]; [discriminate| |].
    + exists [x]. reflexivity.
    + simpl. exists (x :: removelast (y :: zs)). reflexivity.
  - intros name pnav p Hget Hp.
    destruct (proj1 (proj2 (first_pass_inv cfg packages) name pnav Hget) p Hp)
      as [k [_ [pkg [f [Hpkg [Hf Hr]]]]]].
    destruct (record_node_Some _ _ _ _ _ _ Hr) as [Hi [Hne Hv]].
    exists pkg, f. repeat split; assumption.
Qed.

(** C4 at the two packages [automa] and [automa/Args]. *)
Lemma C4_empty_exports_never_in_nav_witness :
  exists pnav,
    dict_get String.eqb "bridgic-core"
      (nav_structure (first_pass (cfg_index_only true) [package_upper_child])) = Some pnav /\
    In "reference/bridgic-core/bridgic/core/automa/Args/index.md" (nav_pages pnav) /\
    exists pkg f, In pkg [package_upper_child] /\ In f (files pkg) /\
      String.eqb (last (module_parts f) "") "__init__" = true /\
      exports_of (source f) <> [] /\
      "reference/bridgic-core/bridgic/core/automa/Args/index.md"
      = init_index_page (cfg_index_only true) (get_package_display_name pkg) f.
Proof.
  refine (ex_intro _ _ (conj eq_refl _)).
  split; [vm_compute; left; reflexivity|].
  refine (proj2 (proj2 (C4_empty_exports_never_in_nav (cfg_index_only true)
                          [package_upper_child])) "bridgic-core" _ _ eq_refl _).
  vm_compute. left. reflexivity.
Defined.

(** ** C10: groups come from nodes of three parts or more *)

(** C10. In the navigation built by the first pass, every page comes from a
    recorded node of at least three parts (a node of one or two parts never
    reaches it), and every group key is the dotted join of exactly three
    parts, the first three of such a node. *)
Theorem C10_short_entries_omitted (cfg : Config) (packages : list Package)
  (name : string) (pnav : list (string * navv)) :
  dict_get String.eqb name (nav_structure (first_pass cfg packages)) = Some pnav ->
  (forall p, In p (nav_pages pnav) ->
             exists k, 3 <= length k /\ origin cfg packages k p) /\
  (forall dk, In dk (map fst pnav) ->
              exists key k v, length key = 3 /\ key = firstn 3 k /\
                              origin cfg packages k v /\ dk = Py.join "." key).
Proof.
  intros Hget.
  destruct (proj2 (first_pass_inv cfg packages) name pnav Hget) as [Hp Hk].
  split; [exact Hp|].
  intros dk Hd. destruct (Hk dk Hd) as [k [v [Hl [Ho ->]]]].
  exists (firstn 3 k), k, v.
  split; [apply firstn_length3; exact Hl|split; [reflexivity|split; [exact Ho|reflexivity]]].
Qed.

(** C10 at the two packages [automa] and [automa/Args]. *)
Lemma C10_short_entries_omitted_witness :
  exists pnav,
    dict_get String.eqb "bridgic-core"
      (nav_structure (first_pass (cfg_index_only true) [package_upper_child])) = Some pnav /\
    exists key k v, length key = 3 /\ key = firstn 3 k /\
      origin (cfg_index_only true) [package_upper_child] k v /\
      "bridgic.core.automa" = Py.join "." key.
Proof.
  refine (ex_intro _ _ (conj eq_refl _)).
  refine (proj2 (C10_short_entries_omitted (cfg_index_only true) [package_upper_child]
                   "bridgic-core" _ eq_refl) "bridgic.core.automa" _).
  vm_compute. left. reflexivity.
Defined.

(** ** C8: the single-entry policy *)

(** The groups of [build_groups] are keyed uniquely. *)
Lemma build_groups_functional (nodes : list (list string * string)) (key : list string)
  (a b : string) :
  In (key, a) (build_groups nodes) -> In (key, b) (build_groups nodes) -> a = b.
Proof.
  unfold build_groups. change (fun groups kv => _) with group_step.
  assert (Hgen : forall l acc,
             (forall k a b, In (k, a) acc -> In (k, b) acc -> a = b) ->
             forall k a b, In (k, a) (fold_left group_step l acc) ->
                           In (k, b) (fold_left group_step l acc) -> a = b).
  { induction l as [|kv l IH]; intros acc Hacc; simpl; [exact Hacc|].
    apply IH. unfold group_step.
    destruct (Nat.leb 3 (length (fst kv))); [|exact Hacc].
    destruct (dict_has parts_eqb (firstn 3 (fst kv)) acc) eqn:Eh; [exact Hacc|].
    intros k a' b' Ha Hb.
    destruct (In_dict_set parts_eqb parts_eqb_eq _ _ _ _ _ Ha) as [Ha'|[Hka Ha2]];
    destruct (In_dict_set parts_eqb parts_eqb_eq _ _ _ _ _ Hb) as [Hb'|[Hkb Hb2]].
    - exact (Hacc _ _ _ Ha' Hb').
    - exfalso. subst k.
      rewrite (proj2 (dict_has_In parts_eqb parts_eqb_eq _ _) (ex_intro _ a' Ha')) in Eh.
      discriminate.
    - exfalso. subst k.
      rewrite (proj2 (dict_has_In parts_eqb parts_eqb_eq _ _) (ex_intro _ b' Hb')) in Eh.
      discriminate.
    - congruence. }
  apply Hgen. intros k a' b' [].
Qed.

Lemma group_entry_single_item (single : bool) nodes (key : list string) (idx : string) :
  filter (fun kv => Nat.eqb (length (fst kv)) 4 && parts_eqb (firstn 3 (fst kv)) key) nodes
  = [] ->
  group_entry single nodes key idx
  = if single then VList [VDict [(last key "", VStr idx)]] else VStr idx.
Proof. intros H. unfold group_entry. cbv zeta. rewrite H. destruct single; reflexivity. Qed.

(** C8. For every group [(key, idx)] of [groups] (its three-part key and
    its index, the page of the first node with that prefix) that has no
    four-part child node, so that its only item is its own index, whatever
    deeper nodes it has, and no other group with the same dotted name, the
    package navigation built from the nodes maps the dotted key to a
    one-item list holding the module name and the index page when
    [single_entry_as_group] is true, and to the bare index page when it is
    false. *)
Theorem C8_single_entry_policy (single : bool) (nodes : list (list string * string))
  (pnav0 : list (string * navv)) (key : list string) (idx : string) :
  In (key, idx) (build_groups nodes) ->
  filter (fun kv => Nat.eqb (length (fst kv)) 4 && parts_eqb (firstn 3 (fst kv)) key) nodes
  = [] ->
  forallb (fun kv => negb (Nat.leb 3 (length (fst kv)))
                     || negb (String.eqb (Py.join "." (firstn 3 (fst kv))) (Py.join "." key))
                     || parts_eqb (firstn 3 (fst kv)) key) nodes = true ->
  dict_get String.eqb (Py.join "." key) (build_package_nav single nodes pnav0)
  = Some (if single then VList [VDict [(last key "", VStr idx)]] else VStr idx).
Proof.
  intros Hg0 Hf Hc.
  rewrite <- (group_entry_single_item single nodes key idx Hf).
  assert (Hgrp : forall g, In g (build_groups nodes) ->
                 Py.join "." (fst g) = Py.join "." key -> g = (key, idx)).
  { intros [gk gv] Hg Hj.
    destruct (build_groups_In nodes _ Hg) as [k [Hk [Hl Hfk]]].
    cbn [fst snd] in Hfk, Hj |- *. subst gk.
    pose proof (proj1 (forallb_forall _ nodes) Hc (k, gv) Hk) as Hb.
    change (negb (Nat.leb 3 (length k))
            || negb (String.eqb (Py.join "." (firstn 3 k)) (Py.join "." key))
            || parts_eqb (firstn 3 k) key = true) in Hb.
    assert (E3 : Nat.leb 3 (length k) = true) by (apply Nat.leb_le; exact Hl).
    rewrite Hj, String.eqb_refl, E3 in Hb.
    change (parts_eqb (firstn 3 k) key = true) in Hb.
    apply parts_eqb_eq in Hb. rewrite Hb in Hg |- *.
    rewrite (build_groups_functional nodes key gv idx Hg Hg0). reflexivity. }
  rewrite build_package_nav_fold.
  assert (Hex : exists gv, In (key, gv) (build_groups nodes)) by (exists idx; exact Hg0).
  revert Hgrp Hex. generalize (build_groups nodes) as gs. intros gs.
  assert (Hfold : forall gs acc,
             (forall g, In g gs -> Py.join "." (fst g) = Py.join "." key -> g = (key, idx)) ->
             (exists gv, In (key, gv) gs) \/
             dict_get String.eqb (Py.join "." key) acc
             = Some (group_entry single nodes key idx) ->
             dict_get String.eqb (Py.join "." key) (fold_left (nav_step single nodes) gs acc)
             = Some (group_entry single nodes key idx)).
  { clear gs Hg0. induction gs as [|g gs IH]; intros acc Hg Hin.
    - destruct Hin as [[gv []]|H]. exact H.
    - change (fold_left (nav_step single nodes) (g :: gs) acc)
        with (fold_left (nav_step single nodes) gs (nav_step single nodes acc g)).
      apply IH; [intros g' H; apply Hg; right; exact H|].
      destruct (String.eqb (Py.join "." key) (Py.join "." (fst g))) eqn:E.
      + right. rewrite nav_step_get, E. apply String.eqb_eq in E.
        rewrite (Hg g (or_introl eq_refl) (eq_sym E)). reflexivity.
      + destruct Hin as [[gv [Hg0|Hgs]]|H].
        * subst g. simpl in E. rewrite String.eqb_refl in E. discriminate.
        * left. exists gv. exact Hgs.
        * right. rewrite nav_step_get, E. exact H. }
  intros Hgrp Hex. apply Hfold; [exact Hgrp|left; exact Hex].
Qed.

(** C8 at the group [bridgic.core.automa], collapsible, whose only other
    node [bridgic/core/automa/x/y] is dropped for lack of a four-part
    parent. *)
Lemma C8_single_entry_policy_witness :
  In (["bridgic"; "core"; "automa"], "reference/bridgic-core/bridgic/core/automa/index.md")
     (build_groups
        [(["bridgic"; "core"; "automa"], "reference/bridgic-core/bridgic/core/automa/index.md");
         (["bridgic"; "core"; "automa"; "x"; "y"], "reference/bridgic-core/bridgic/core/automa/x/y/index.md")]) /\
  dict_get String.eqb "bridgic.core.automa"
    (build_package_nav true
       [(["bridgic"; "core"; "automa"], "reference/bridgic-core/bridgic/core/automa/index.md");
        (["bridgic"; "core"; "automa"; "x"; "y"], "reference/bridgic-core/bridgic/core/automa/x/y/index.md")]
       [])
  = Some (VList [VDict [("automa", VStr "reference/bridgic-core/bridgic/core/automa/index.md")]]).
Proof.
  split; [vm_compute; left; reflexivity|].
  apply (C8_single_entry_policy true
           [(["bridgic"; "core"; "automa"], "reference/bridgic-core/bridgic/core/automa/index.md");
            (["bridgic"; "core"; "automa"; "x"; "y"], "reference/bridgic-core/bridgic/core/automa/x/y/index.md")]
           [] ["bridgic"; "core"; "automa"]
           "reference/bridgic-core/bridgic/core/automa/index.md");
    [vm_compute; left; reflexivity|vm_compute; reflexivity..].
Defined.

End TreeFacts.

(** ** Further properties of the generator *)

Module ExtraFacts.
Import Gen Scenarios TreeFacts.

(** *** Characters of strings *)

Lemma prefix_In (p s : string) (c : ascii) :
  String.prefix p s = true -> In c (list_ascii_of_string p) ->
  In c (list_ascii_of_string s).
Proof.
  revert s. induction p as [|a p IH]; intros s Hp Hc; [destruct Hc|].
  destruct s as [|b s]; simpl in Hp; [discriminate|].
  destruct (ascii_dec a b) as [<-|]; [|discriminate].
  destruct Hc as [->|Hc]; [left; reflexivity|right; exact (IH s Hp Hc)].
Qed.

Lemma to_lower_dash (c : ascii) : Py.to_lower c = "-"%char -> c = "-"%char.
Proof.
  unfold Py.to_lower, Py.is_upper. destruct (Nat.leb 65 (nat_of_ascii c)) eqn:E1;
    destruct (Nat.leb (nat_of_ascii c) 90) eqn:E2; simpl; try (intros H; exact H).
  intros H. apply (f_equal nat_of_ascii) in H.
  apply Nat.leb_le in E1. apply Nat.leb_le in E2.
  rewrite nat_ascii_embedding in H by lia.
  change (nat_of_ascii "-"%char) with 45 in H. lia.
Qed.

Lemma lower_dash (k : string) :
  In "-"%char (list_ascii_of_string (Py.lower k)) -> In "-"%char (list_ascii_of_string k).
Proof.
  induction k as [|c k IH]; simpl; [intros []|].
  intros [H|H]; [left; apply to_lower_dash; exact H|right; exact (IH H)].
Qed.

Lemma substring_whole (s : string) : substring 0 (String.length s) s = s.
Proof. induction s as [|c s IH]; simpl; [reflexivity|]. rewrite IH. reflexivity. Qed.

Lemma prefix_one (a c : ascii) (s : string) :
  String.prefix (String a EmptyString) (String c s) = true <-> a = c.
Proof.
  simpl. destruct (ascii_dec a c) as [E|E]; split; intros H; try congruence.
  destruct s; reflexivity.
Qed.

Lemma replace_dash_fuel (fuel : nat) (s : string) :
  String.length s <= fuel ->
  ~ In "-"%char (list_ascii_of_string (Py.replace_fuel fuel "-" "_" s)).
Proof.
  revert s. induction fuel as [|f IH]; intros s Hl.
  - destruct s; simpl in *; [intros []|lia].
  - destruct s as [|c s']; [simpl; intros []|].
    change (Py.replace_fuel (S f) "-" "_" (String c s'))
      with (if String.prefix "-" (String c s')
            then "_" ++ Py.replace_fuel f "-" "_"
                   (substring 1 (String.length (String c s') - 1) (String c s'))
            else String c (Py.replace_fuel f "-" "_" s')).
    simpl in Hl. destruct (String.prefix "-" (String c s')) eqn:E.
    + apply prefix_one in E. subst c.
      change (substring 1 (String.length (String "-" s') - 1) (String "-" s'))
        with (substring 0 (String.length s' - 0) s').
      rewrite Nat.sub_0_r, substring_whole.
      simpl. intros [H|H]; [discriminate|exact (IH s' ltac:(lia) H)].
    + simpl. intros [H|H]; [|exact (IH s' ltac:(lia) H)].
      subst c. rewrite (proj2 (prefix_one _ _ s') eq_refl) in E. discriminate.
Qed.

(** *** Package names without an explicit name *)

Lemma relevant_dash (k : string) :
  (String.eqb (Py.lower k) "bridgic-core" || Py.startswith k "bridgic-llms-") = true ->
  In "-"%char (list_ascii_of_string k).
Proof.
  intros H. apply orb_true_iff in H. destruct H as [H|H].
  - apply String.eqb_eq in H. apply lower_dash. rewrite H. simpl. tauto.
  - apply (prefix_In "bridgic-llms-" k "-"%char H). simpl. tauto.
Qed.

Lemma content_irrelevant (ns : list (string * list (string * navv))) :
  forallb (fun k => negb (String.eqb (Py.lower k) "bridgic-core"
                          || Py.startswith k "bridgic-llms-")) (map fst ns) = true ->
  Updater.generate_api_reference_content ns = "".
Proof.
  intros H. rewrite <- MergeFacts.content_filter_relevant.
  replace (filter (fun kv => relevant_package (fst kv)) ns) with
    (@nil (string * list (string * navv))); [reflexivity|].
  induction ns as [|[k v] ns IH]; [reflexivity|].
  simpl in H. apply andb_true_iff in H. destruct H as [H1 H2].
  simpl. unfold relevant_package. apply negb_true_iff in H1. rewrite H1. exact (IH H2).
Qed.

Lemma keys_dict_set_gen {V} (k a : string) (v : V) (d : list (string * V)) :
  In a (map fst (dict_set String.eqb k v d)) -> In a (map fst d) \/ a = k.
Proof.
  intros H. apply in_map_iff in H. destruct H as [[a' b] [Ha Hin]]. simpl in Ha. subst a'.
  destruct (In_dict_set String.eqb String.eqb_eq k a v b d Hin) as [H|[H _]].
  - left. apply in_map_iff. exists (a, b). split; [reflexivity|exact H].
  - right. exact H.
Qed.

Lemma keys_dict_set_self {V} (k : string) (v : V) (d : list (string * V)) :
  In k (map fst (dict_set String.eqb k v d)).
Proof.
  apply in_map_iff. exists (k, v). split; [reflexivity|].
  apply (In_dict_set_self String.eqb String.eqb_eq).
Qed.

Lemma keys_dict_set_keep {V} (k a : string) (v : V) (d : list (string * V)) :
  In a (map fst d) -> In a (map fst (dict_set String.eqb k v d)).
Proof.
  intros H. apply in_map_iff in H. destruct H as [[a' b] [Ha Hin]]. simpl in Ha. subst a'.
  destruct (In_dict_set_keep String.eqb String.eqb_eq k a v b d Hin) as [b' Hb'].
  apply in_map_iff. exists (a, b'). split; [reflexivity|exact Hb'].
Qed.

(** *** Names used by the first pass *)

Lemma node_fold_origin_named cfg packages pkg :
  In pkg packages ->
  forall l acc,
    (forall k v, In (k, v) acc ->
                 origin_named cfg packages (get_package_display_name pkg) k v) ->
    (forall f, In f l -> In f (files pkg)) ->
    forall k v, In (k, v) (fold_left (node_step cfg pkg (get_package_display_name pkg)) l acc) ->
    origin_named cfg packages (get_package_display_name pkg) k v.
Proof.
  intros Hpkg l. induction l as [|f l IH]; intros acc Hacc Hl; simpl; [exact Hacc|].
  apply IH; [|intros f' H; apply Hl; right; exact H].
  intros k v H. unfold node_step in H.
  destruct (record_node cfg pkg (get_package_display_name pkg) f) as [[k0 v0]|] eqn:Er;
    [|exact (Hacc _ _ H)].
  destruct (In_dict_set parts_eqb parts_eqb_eq _ _ _ _ _ H) as [H1|[-> ->]];
    [exact (Hacc _ _ H1)|].
  exists pkg, f. split; [exact Hpkg|split; [apply Hl; left; reflexivity|split; [reflexivity|exact Er]]].
Qed.

Lemma build_nav_structure_only_keys_inv cfg packages st pkg :
  In pkg packages -> keys_inv cfg packages st ->
  keys_inv cfg packages (build_nav_structure_only cfg st pkg).
Proof.
  intros Hpkg [Hn Hk]. unfold build_nav_structure_only. cbv zeta.
  change (fun nodes f => match record_node cfg pkg (get_package_display_name pkg) f with
                         | Some (k, v) => dict_set parts_eqb k v nodes
                         | None => nodes end)
    with (node_step cfg pkg (get_package_display_name pkg)).
  set (name := get_package_display_name pkg).
  set (nodes0 := match dict_get String.eqb name (package_nodes st) with
                 | Some d => d | None => [] end).
  assert (Hn0 : forall k v, In (k, v) nodes0 -> origin_named cfg packages name k v).
  { unfold nodes0. destruct (dict_get String.eqb name (package_nodes st)) eqn:E;
      [exact (Hn _ _ E)|intros k v []]. }
  remember (fold_left (node_step cfg pkg name) (sort_by rel_parts (files pkg)) nodes0)
    as nodes eqn:Enodes.
  assert (Hnodes : forall k v, In (k, v) nodes -> origin_named cfg packages name k v).
  { rewrite Enodes. apply (node_fold_origin_named cfg packages pkg Hpkg); [exact Hn0|].
    intros f Hf. apply sort_by_In in Hf. exact Hf. }
  assert (Hpn : forall name' nodes',
             dict_get String.eqb name' (dict_set String.eqb name nodes (package_nodes st))
             = Some nodes' ->
             forall k v, In (k, v) nodes' -> origin_named cfg packages name' k v).
  { intros name' nodes' H. rewrite (dict_get_set String.eqb String.eqb_eq) in H.
    destruct (String.eqb name' name) eqn:E; [|exact (Hn _ _ H)].
    apply String.eqb_eq in E. subst name'. injection H as <-. exact Hnodes. }
  destruct nodes as [|[k0 v0] ns]; [split; [exact Hpn|exact Hk]|].
  split; [exact Hpn|].
  intros name' H. simpl in H. destruct (keys_dict_set_gen _ _ _ _ H) as [H1| ->];
    [exact (Hk _ H1)|].
  exists k0, v0. apply Hnodes. left. reflexivity.
Qed.

Lemma first_pass_keys_inv cfg packages : keys_inv cfg packages (first_pass cfg packages).
Proof.
  unfold first_pass.
  assert (Hgen : forall l st, (forall pkg, In pkg l -> In pkg packages) ->
                 keys_inv cfg packages st ->
                 keys_inv cfg packages (fold_left (build_nav_structure_only cfg) l st)).
  { induction l as [|pkg l IH]; intros st Hl Hst; simpl; [exact Hst|].
    apply IH; [intros pkg' H; apply Hl; right; exact H|].
    apply build_nav_structure_only_keys_inv; [apply Hl; left; reflexivity|exact Hst]. }
  apply Hgen; [intros pkg H; exact H|].
  split; simpl; [intros name x H; discriminate|intros name []].
Qed.

Lemma record_node_not_excluded cfg pkg name f k v :
  record_node cfg pkg name f = Some (k, v) -> should_exclude_path cfg pkg f = false.
Proof.
  unfold record_node. destruct (should_exclude_path cfg pkg f); [discriminate|reflexivity].
Qed.

Lemma dict_set_nonempty {K V} (keqb : K -> K -> bool) (k : K) (v : V) d :
  dict_set keqb k v d <> [].
Proof. destruct d as [|[k' v'] d]; simpl; [discriminate|destruct (keqb k k'); discriminate]. Qed.

Lemma node_fold_nonempty cfg pkg name (l : list PyFile) acc :
  acc <> [] -> fold_left (node_step cfg pkg name) l acc <> [].
Proof.
  revert acc. induction l as [|f l IH]; intros acc H; simpl; [exact H|].
  apply IH. unfold node_step. destruct (record_node cfg pkg name f) as [[k v]|];
    [apply dict_set_nonempty|exact H].
Qed.

Lemma node_fold_admitted cfg pkg name (l : list PyFile) acc f k v :
  In f l -> record_node cfg pkg name f = Some (k, v) ->
  fold_left (node_step cfg pkg name) l acc <> [].
Proof.
  revert acc. induction l as [|f' l IH]; intros acc Hf Hr; [destruct Hf|].
  simpl. destruct Hf as [<-|Hf]; [|exact (IH _ Hf Hr)].
  apply node_fold_nonempty. unfold node_step. rewrite Hr. apply dict_set_nonempty.
Qed.

Lemma build_groups_short (nodes : list (list string * string)) :
  (forall k v, In (k, v) nodes -> length k < 3) -> build_groups nodes = [].
Proof.
  intros H. unfold build_groups. change (fun groups kv => _) with group_step.
  assert (Hgen : forall l acc, (forall k v, In (k, v) l -> length k < 3) ->
                 fold_left group_step l acc = acc).
  { induction l as [|[k v] l IH]; intros acc Hl; [reflexivity|].
    simpl. unfold group_step at 2. cbn [fst snd].
    assert (E : Nat.leb 3 (length k) = false)
      by (apply Nat.leb_gt; exact (Hl k v (or_introl eq_refl))).
    rewrite E. apply IH. intros k' v' Hin. exact (Hl k' v' (or_intror Hin)). }
  apply Hgen. exact H.
Qed.

(** X: the API reference content is empty when no package of the
    navigation structure is [bridgic-core] (up to case) or a
    [bridgic-llms-...] package. *)
Theorem X_content_empty_without_known_packages (ns : list (string * list (string * navv))) :
  forallb (fun k => negb (String.eqb (Py.lower k) "bridgic-core"
                          || Py.startswith k "bridgic-llms-")) (map fst ns) = true ->
  Updater.generate_api_reference_content ns = "".
Proof. apply content_irrelevant. Qed.

Lemma X_content_empty_without_known_packages_witness :
  forallb (fun k => negb (String.eqb (Py.lower k) "bridgic-core"
                          || Py.startswith k "bridgic-llms-"))
    (map fst (example_structure "bridgic_core")) = true /\
  Updater.generate_api_reference_content (example_structure "bridgic_core") = "".
Proof.
  split; [vm_compute; reflexivity|].
  apply X_content_empty_without_known_packages. vm_compute. reflexivity.
Defined.

(** X: when no configured package has an explicit name in [package_info],
    the display names are directory names with [-] turned into [_], so none
    is [bridgic-core] or starts with [bridgic-llms-]: when the clean step
    of [generate] succeeds, the generated [mkdocs.yml] is the template with
    the placeholder replaced by the empty string (or [mkdocs.yml] is left
    as it was when the navigation structure is empty); when the clean step
    raises, [mkdocs.yml] is left as it was. *)
Theorem X_unnamed_packages_render_nothing (clean_ok : bool) (cfg : Config)
  (packages : list Package) (t d : string) :
  forallb (fun pkg => match info_name pkg with None => true | Some _ => false end)
    packages = true ->
  Py.contains Updater.placeholder t = true ->
  generate_mkdocs clean_ok cfg packages (Some t) Updater.WriteOk d
  = if negb clean_ok then d
    else match nav_structure (first_pass cfg packages) with
         | [] => d
         | _ => Py.replace Updater.placeholder "" t
         end.
Proof.
  intros Hn Hc. unfold generate_mkdocs. destruct clean_ok; [|reflexivity]. cbn [negb].
  destruct (nav_structure (first_pass cfg packages)) as [|e es] eqn:E; [reflexivity|].
  unfold Updater.update_mkdocs_config. rewrite Hc. simpl.
  rewrite content_irrelevant; [reflexivity|].
  apply forallb_forall. intros k Hk. rewrite <- E in Hk.
  destruct (proj2 (first_pass_keys_inv cfg packages) k Hk)
    as [k0 [v0 [pkg [f [Hpkg [_ [Hname _]]]]]]].
  rewrite <- Hname. unfold get_package_display_name.
  pose proof (proj1 (forallb_forall _ packages) Hn pkg Hpkg) as Hi. simpl in Hi.
  destruct (info_name pkg); [discriminate|].
  apply negb_true_iff.
  destruct (String.eqb (Py.lower (Py.replace "-" "_" (path_name (package_path pkg))))
              "bridgic-core"
            || Py.startswith (Py.replace "-" "_" (path_name (package_path pkg)))
                 "bridgic-llms-") eqn:R; [|reflexivity].
  exfalso. apply relevant_dash in R.
  exact (replace_dash_fuel _ _ (le_n _) R).
Qed.

Lemma X_unnamed_packages_render_nothing_witness :
  forallb (fun pkg => match info_name pkg with None => true | Some _ => false end)
    [{| package_path := "bridgic-core"; info_name := None;
        src_parts := ["/"; "repo"; "bridgic-core"];
        files := [init_file ["bridgic"; "core"; "automa"]] |}] = true /\
  Py.contains Updater.placeholder example_template = true /\
  generate_mkdocs true (cfg_index_only true)
    [{| package_path := "bridgic-core"; info_name := None;
        src_parts := ["/"; "repo"; "bridgic-core"];
        files := [init_file ["bridgic"; "core"; "automa"]] |}]
    (Some example_template) Updater.WriteOk ""
  = Py.replace Updater.placeholder "" example_template.
Proof.
  split; [reflexivity|]. split; [vm_compute; reflexivity|].
  rewrite (X_unnamed_packages_render_nothing true); [vm_compute; reflexivity|reflexivity|].
  vm_compute. reflexivity.
Defined.

(** X: every package key of the navigation structure built by the first
    pass is the display name of a configured package one of whose files
    recorded a node under that name. *)
Theorem X_nav_keys_from_admitting_packages (cfg : Config) (packages : list Package)
  (name : string) :
  In name (map fst (nav_structure (first_pass cfg packages))) ->
  exists pkg f k v, In pkg packages /\ In f (files pkg) /\
    get_package_display_name pkg = name /\ record_node cfg pkg name f = Some (k, v).
Proof.
  intros H. destruct (proj2 (first_pass_keys_inv cfg packages) name H)
    as [k [v [pkg [f [Hpkg [Hf [Hn Hr]]]]]]].
  exists pkg, f, k, v. repeat split; assumption.
Qed.

Lemma X_nav_keys_from_admitting_packages_witness :
  In "bridgic-core"
    (map fst (nav_structure (first_pass (cfg_index_only true) [package_upper_child]))) /\
  exists pkg f k v, In pkg [package_upper_child] /\ In f (files pkg) /\
    get_package_display_name pkg = "bridgic-core" /\
    record_node (cfg_index_only true) pkg "bridgic-core" f = Some (k, v).
Proof.
  split; [vm_compute; left; reflexivity|].
  apply X_nav_keys_from_admitting_packages. vm_compute. left. reflexivity.
Defined.

(** X: when no file of any configured package has a non-empty export
    list, the first pass builds an empty navigation structure and
    [generate] leaves [mkdocs.yml] as it was (the merge is not run). *)
Theorem X_no_exports_mkdocs_untouched (cfg : Config) (packages : list Package)
  (template : option string) (w : Updater.write_outcome) (d : string) (clean_ok : bool) :
  forallb (fun pkg => forallb (fun f => Nat.eqb (length (exports_of (source f))) 0)
                        (files pkg)) packages = true ->
  nav_structure (first_pass cfg packages) = [] /\
  generate_mkdocs clean_ok cfg packages template w d = d.
Proof.
  intros H.
  assert (Hnil : nav_structure (first_pass cfg packages) = []).
  { destruct (nav_structure (first_pass cfg packages)) as [|[name x] rest] eqn:E;
      [reflexivity|exfalso].
    assert (Hk : In name (map fst (nav_structure (first_pass cfg packages))))
      by (rewrite E; left; reflexivity).
    destruct (proj2 (first_pass_keys_inv cfg packages) name Hk)
      as [k [v [pkg [f [Hpkg [Hf [Hn Hr]]]]]]].
    rewrite <- Hn in Hr. destruct (record_node_Some _ _ _ _ _ _ Hr) as [_ [Hne _]].
    pose proof (proj1 (forallb_forall _ packages) H pkg Hpkg) as H1.
    pose proof (proj1 (forallb_forall _ (files pkg)) H1 f Hf) as H2.
    apply Nat.eqb_eq in H2. apply Hne. destruct (exports_of (source f));
      [reflexivity|discriminate]. }
  split; [exact Hnil|]. unfold generate_mkdocs. rewrite Hnil.
  destruct clean_ok; reflexivity.
Qed.

Lemma X_no_exports_mkdocs_untouched_witness :
  forallb (fun pkg => forallb (fun f => Nat.eqb (length (exports_of (source f))) 0)
                        (files pkg))
    [core_package [{| rel_parts := ["bridgic"; "core"; "__init__.py"]; source := Some [] |}]]
  = true /\
  nav_structure (first_pass (cfg_index_only true)
    [core_package [{| rel_parts := ["bridgic"; "core"; "__init__.py"]; source := Some [] |}]])
  = [] /\
  generate_mkdocs true (cfg_index_only true)
    [core_package [{| rel_parts := ["bridgic"; "core"; "__init__.py"]; source := Some [] |}]]
    (Some example_template) Updater.WriteOk "old" = "old".
Proof.
  split; [vm_compute; reflexivity|].
  apply (fun H => X_no_exports_mkdocs_untouched _ _ _ _ _ true H). vm_compute. reflexivity.
Defined.

Lemma short_nodes_single (cfg : Config) (pkg : Package) :
  existsb (fun f => match record_node cfg pkg (get_package_display_name pkg) f with
                    | Some _ => true | None => false end) (files pkg) = true ->
  forallb (fun f => match record_node cfg pkg (get_package_display_name pkg) f with
                    | Some (k, _) => Nat.ltb (length k) 3 | None => true end)
    (files pkg) = true ->
  nav_structure (first_pass cfg [pkg]) = [(get_package_display_name pkg, [])].
Proof.
  intros Hex Hall.
  change (first_pass cfg [pkg]) with (build_nav_structure_only cfg empty_state pkg).
  unfold build_nav_structure_only. cbv zeta.
  change (fun nodes f => match record_node cfg pkg (get_package_display_name pkg) f with
                         | Some (k, v) => dict_set parts_eqb k v nodes
                         | None => nodes end)
    with (node_step cfg pkg (get_package_display_name pkg)).
  cbn [package_nodes nav_structure empty_state dict_get].
  set (name := get_package_display_name pkg).
  remember (fold_left (node_step cfg pkg name) (sort_by rel_parts (files pkg)) [])
    as nodes eqn:Enodes.
  assert (Hshort : forall k v, In (k, v) nodes -> length k < 3).
  { intros k v Hin. rewrite Enodes in Hin.
    apply (node_fold_origin_named cfg [pkg] pkg (or_introl eq_refl)) in Hin;
      [|intros k' v' []|intros f Hf; apply sort_by_In in Hf; exact Hf].
    destruct Hin as [pkg' [f [Hp' [Hf [_ Hr]]]]].
    destruct Hp' as [Hp'|[]]. subst pkg'.
    pose proof (proj1 (forallb_forall _ (files pkg)) Hall f Hf) as H. simpl in H.
    unfold name in Hr. rewrite Hr in H. apply Nat.ltb_lt. exact H. }
  assert (Hne : nodes <> []).
  { apply existsb_exists in Hex. destruct Hex as [f [Hf Hr]].
    destruct (record_node cfg pkg (get_package_display_name pkg) f) as [[k v]|] eqn:Er; [|discriminate].
    rewrite Enodes. apply (node_fold_admitted _ _ _ _ _ f k v); [|exact Er].
    apply sort_by_In. exact Hf. }
  destruct nodes as [|n ns]; [contradiction|].
  cbn [nav_structure]. rewrite build_package_nav_fold, (build_groups_short _ Hshort).
  reflexivity.
Qed.

Lemma node_fold_short cfg pkg name (l : list PyFile) acc :
  (forall k v, In (k, v) acc -> length k < 3) ->
  (forall f, In f l -> forall k v, record_node cfg pkg name f = Some (k, v) -> length k < 3) ->
  forall k v, In (k, v) (fold_left (node_step cfg pkg name) l acc) -> length k < 3.
Proof.
  revert acc. induction l as [|f l IH]; intros acc Hacc Hl; simpl; [exact Hacc|].
  apply IH; [|intros f' H; apply Hl; right; exact H].
  intros k v H. unfold node_step in H.
  destruct (record_node cfg pkg name f) as [[k0 v0]|] eqn:Er; [|exact (Hacc _ _ H)].
  destruct (In_dict_set parts_eqb parts_eqb_eq _ _ _ _ _ H) as [H'|[-> ->]];
    [exact (Hacc _ _ H')|exact (Hl f (or_introl eq_refl) _ _ Er)].
Qed.

Lemma short_step cfg name st pkg :
  (forall nodes, dict_get String.eqb name (package_nodes st) = Some nodes ->
                 forall k v, In (k, v) nodes -> length k < 3) ->
  (forall pnav, dict_get String.eqb name (nav_structure st) = Some pnav -> pnav = []) ->
  (get_package_display_name pkg = name ->
   forall f, In f (files pkg) ->
   forall k v, record_node cfg pkg name f = Some (k, v) -> length k < 3) ->
  (forall nodes,
     dict_get String.eqb name (package_nodes (build_nav_structure_only cfg st pkg)) = Some nodes ->
     forall k v, In (k, v) nodes -> length k < 3) /\
  (forall pnav,
     dict_get String.eqb name (nav_structure (build_nav_structure_only cfg st pkg)) = Some pnav ->
     pnav = []) /\
  (dict_get String.eqb name (nav_structure st) = Some [] \/
   (get_package_display_name pkg = name /\
    exists f k v, In f (files pkg) /\ record_node cfg pkg name f = Some (k, v)) ->
   dict_get String.eqb name (nav_structure (build_nav_structure_only cfg st pkg)) = Some []).
Proof.
  intros Hn Hv Hs. unfold build_nav_structure_only. cbv zeta.
  change (fun nodes f => match record_node cfg pkg (get_package_display_name pkg) f with
                         | Some (k, v) => dict_set parts_eqb k v nodes
                         | None => nodes end)
    with (node_step cfg pkg (get_package_display_name pkg)).
  destruct (String.eqb name (get_package_display_name pkg)) eqn:E.
  - apply String.eqb_eq in E. specialize (Hs (eq_sym E)). rewrite <- E.
    assert (H0 : forall k v, In (k, v) (match dict_get String.eqb name (package_nodes st) with
                                        | Some d => d | None => [] end) -> length k < 3).
    { destruct (dict_get String.eqb name (package_nodes st)) as [d|] eqn:Ed;
        [exact (Hn d eq_refl)|intros k v []]. }
    assert (Hsh := node_fold_short cfg pkg name (sort_by rel_parts (files pkg)) _ H0
                     (fun f Hf => Hs f (proj1 (sort_by_In rel_parts f (files pkg)) Hf))).
    assert (Hne : (exists f k v, In f (files pkg) /\ record_node cfg pkg name f = Some (k, v)) ->
                  fold_left (node_step cfg pkg name) (sort_by rel_parts (files pkg))
                    (match dict_get String.eqb name (package_nodes st) with
                     | Some d => d | None => [] end) <> []).
    { intros [f [k [v [Hf Hr]]]]. apply (node_fold_admitted _ _ _ _ _ f k v); [|exact Hr].
      apply sort_by_In. exact Hf. }
    revert Hsh Hne.
    destruct (fold_left (node_step cfg pkg name) (sort_by rel_parts (files pkg))
                (match dict_get String.eqb name (package_nodes st) with
                 | Some d => d | None => [] end)) as [|n ns] eqn:En;
      intros Hsh Hne; cbn [package_nodes nav_structure];
      rewrite (dict_get_set String.eqb String.eqb_eq), String.eqb_refl.
    + split; [intros nodes Hget; injection Hget as <-; exact Hsh|].
      split; [exact Hv|].
      intros [H|[_ H]]; [exact H|]. exfalso. exact (Hne H eq_refl).
    + assert (Hp0 : match dict_get String.eqb name (nav_structure st) with
                    | Some d => d | None => [] end = []).
      { destruct (dict_get String.eqb name (nav_structure st)) as [d|] eqn:Ed;
          [exact (Hv d eq_refl)|reflexivity]. }
      rewrite Hp0, (dict_get_set String.eqb String.eqb_eq), String.eqb_refl.
      rewrite build_package_nav_fold, (build_groups_short _ Hsh).
      split; [intros nodes Hget; injection Hget as <-; exact Hsh|].
      split; [intros pnav Hget; injection Hget as <-; reflexivity|].
      intros _. reflexivity.
  - assert (Hne : get_package_display_name pkg <> name)
      by (intros H; subst name; rewrite String.eqb_refl in E; discriminate).
    destruct (fold_left (node_step cfg pkg (get_package_display_name pkg))
                (sort_by rel_parts (files pkg))
                (match dict_get String.eqb (get_package_display_name pkg) (package_nodes st) with
                 | Some d => d | None => [] end)) as [|n ns];
      cbn [package_nodes nav_structure];
      rewrite (dict_get_set String.eqb String.eqb_eq), E;
      [|rewrite (dict_get_set String.eqb String.eqb_eq), E];
      (split; [exact Hn|split; [exact Hv|]]);
      (intros [H|[H _]]; [exact H|contradiction]).
Qed.

(** X: when every configured package with the display name [name] records
    only nodes of fewer than three parts (for instance only
    [bridgic/__init__.py] and [bridgic/core/__init__.py]), and one of them
    records some node, [name] still gets a key in the navigation structure,
    mapped to an empty navigation, whatever packages of other names hold;
    for a single such package it is the only key. *)
Theorem X_short_nodes_empty_package_nav (cfg : Config) (packages : list Package)
  (name : string) :
  (existsb (fun pkg => String.eqb (get_package_display_name pkg) name
                       && existsb (fun f => match record_node cfg pkg name f with
                                            | Some _ => true | None => false end) (files pkg))
     packages = true ->
   forallb (fun pkg => negb (String.eqb (get_package_display_name pkg) name)
                       || forallb (fun f => match record_node cfg pkg name f with
                                            | Some (k, _) => Nat.ltb (length k) 3
                                            | None => true end) (files pkg))
     packages = true ->
   dict_get String.eqb name (nav_structure (first_pass cfg packages)) = Some []) /\
  (forall pkg : Package,
   existsb (fun f => match record_node cfg pkg (get_package_display_name pkg) f with
                     | Some _ => true | None => false end) (files pkg) = true ->
   forallb (fun f => match record_node cfg pkg (get_package_display_name pkg) f with
                     | Some (k, _) => Nat.ltb (length k) 3 | None => true end)
     (files pkg) = true ->
   nav_structure (first_pass cfg [pkg]) = [(get_package_display_name pkg, [])]).
Proof.
  split; [|exact (short_nodes_single cfg)].
  intros Hex Hall. unfold first_pass.
  assert (Hgen : forall l st,
    (forall pkg, In pkg l -> In pkg packages) ->
    (forall nodes, dict_get String.eqb name (package_nodes st) = Some nodes ->
                   forall k v, In (k, v) nodes -> length k < 3) ->
    (forall pnav, dict_get String.eqb name (nav_structure st) = Some pnav -> pnav = []) ->
    (dict_get String.eqb name (nav_structure st) = Some [] \/
     exists pkg, In pkg l /\ get_package_display_name pkg = name /\
       exists f k v, In f (files pkg) /\ record_node cfg pkg name f = Some (k, v)) ->
    dict_get String.eqb name (nav_structure (fold_left (build_nav_structure_only cfg) l st))
    = Some []).
  { induction l as [|pkg l IH]; intros st Hl Hn Hv Hd; cbn [fold_left].
    - destruct Hd as [Hd|[pkg [[] _]]]. exact Hd.
    - assert (Hs : get_package_display_name pkg = name ->
                   forall f, In f (files pkg) ->
                   forall k v, record_node cfg pkg name f = Some (k, v) -> length k < 3).
      { intros Hname f Hf k v Hr.
        pose proof (proj1 (forallb_forall _ packages) Hall pkg (Hl pkg (or_introl eq_refl)))
          as H1.
        cbv beta in H1. rewrite Hname, String.eqb_refl in H1. cbn [negb orb] in H1.
        pose proof (proj1 (forallb_forall _ (files pkg)) H1 f Hf) as H2.
        cbv beta in H2. rewrite Hr in H2. apply Nat.ltb_lt. exact H2. }
      destruct (short_step cfg name st pkg Hn Hv Hs) as [Hn' [Hv' Hd']].
      apply IH; [intros q Hq; apply Hl; right; exact Hq|exact Hn'|exact Hv'|].
      destruct Hd as [Hd|[q [[<-|Hq] [Hname Hf]]]].
      + left. apply Hd'. left. exact Hd.
      + left. apply Hd'. right. split; [exact Hname|exact Hf].
      + right. exists q. split; [exact Hq|split; [exact Hname|exact Hf]]. }
  apply Hgen; [intros pkg H; exact H|intros nodes H; discriminate|intros pnav H; discriminate|].
  right. apply existsb_exists in Hex. destruct Hex as [pkg [Hpkg Hb]].
  apply andb_true_iff in Hb. destruct Hb as [Hname Hb]. apply String.eqb_eq in Hname.
  apply existsb_exists in Hb. destruct Hb as [f [Hf Hr]].
  destruct (record_node cfg pkg name f) as [[k v]|] eqn:Er; [|discriminate].
  exists pkg. split; [exact Hpkg|split; [exact Hname|]]. exists f, k, v. split; assumption.
Qed.

(** Two packages named [bridgic-core] with short nodes only, and a package
    of another name with a group. *)
Lemma X_short_nodes_empty_package_nav_witness :
  dict_get String.eqb "bridgic-core"
    (nav_structure (first_pass (cfg_index_only true)
       [core_package [init_file ["bridgic"]];
        {| package_path := "other"; info_name := Some "other";
           src_parts := ["/"; "repo"; "other"];
           files := [init_file ["bridgic"; "core"; "automa"]] |};
        core_package [init_file ["bridgic"; "core"]]]))
  = Some [].
Proof.
  apply (proj1 (X_short_nodes_empty_package_nav (cfg_index_only true)
                  [core_package [init_file ["bridgic"]];
                   {| package_path := "other"; info_name := Some "other";
                      src_parts := ["/"; "repo"; "other"];
                      files := [init_file ["bridgic"; "core"; "automa"]] |};
                   core_package [init_file ["bridgic"; "core"]]]
                  "bridgic-core")); vm_compute; reflexivity.
Defined.

(** X: no page of the navigation built by the first pass comes from a file
    that [should_exclude_path] rejects: its path has no part listed in
    [exclude_patterns], its name is not in [exclude_files] and does not
    start with a dot. *)
Theorem X_excluded_files_never_in_nav (cfg : Config) (packages : list Package)
  (name : string) (pnav : list (string * navv)) (p : string) :
  dict_get String.eqb name (nav_structure (first_pass cfg packages)) = Some pnav ->
  In p (nav_pages pnav) ->
  exists pkg f, In pkg packages /\ In f (files pkg) /\
    p = init_index_page cfg (get_package_display_name pkg) f /\
    (forall pattern, In pattern (exclude_patterns cfg) ->
                     ~ In pattern (app (src_parts pkg) (rel_parts f))) /\
    ~ In (last (rel_parts f) "") (exclude_files cfg) /\
    Py.startswith (last (rel_parts f) "") "." = false.
Proof.
  intros Hget Hp.
  destruct (proj1 (proj2 (first_pass_inv cfg packages) name pnav Hget) p Hp)
    as [k [_ [pkg [f [Hpkg [Hf Hr]]]]]].
  destruct (record_node_Some _ _ _ _ _ _ Hr) as [_ [_ Hv]].
  pose proof (record_node_not_excluded _ _ _ _ _ _ Hr) as Hx.
  unfold should_exclude_path in Hx. apply orb_false_iff in Hx. destruct Hx as [Hx Hdot].
  apply orb_false_iff in Hx. destruct Hx as [Hpat Hfile].
  exists pkg, f. split; [exact Hpkg|split; [exact Hf|split; [exact Hv|split; [|split]]]].
  - intros pattern Hin Hin2.
    assert (existsb (fun pattern => existsb (String.eqb pattern)
                                      (app (src_parts pkg) (rel_parts f)))
              (exclude_patterns cfg) = true) as Ht.
    { apply existsb_exists. exists pattern. split; [exact Hin|].
      apply existsb_exists. exists pattern. split; [exact Hin2|apply String.eqb_refl]. }
    rewrite Ht in Hpat. discriminate.
  - intros Hin.
    assert (existsb (String.eqb (last (rel_parts f) "")) (exclude_files cfg) = true) as Ht.
    { apply existsb_exists. exists (last (rel_parts f) ""). split; [exact Hin|apply String.eqb_refl]. }
    rewrite Ht in Hfile. discriminate.
  - exact Hdot.
Qed.

Lemma X_excluded_files_never_in_nav_witness :
  exists pnav,
    dict_get String.eqb "bridgic-core"
      (nav_structure (first_pass (cfg_index_only true) [package_upper_child])) = Some pnav /\
    exists pkg f, In pkg [package_upper_child] /\ In f (files pkg) /\
      "reference/bridgic-core/bridgic/core/automa/Args/index.md"
      = init_index_page (cfg_index_only true) (get_package_display_name pkg) f /\
      (forall pattern, In pattern (exclude_patterns (cfg_index_only true)) ->
                       ~ In pattern (app (src_parts pkg) (rel_parts f))) /\
      ~ In (last (rel_parts f) "") (exclude_files (cfg_index_only true)) /\
      Py.startswith (last (rel_parts f) "") "." = false.
Proof.
  refine (ex_intro _ _ (conj eq_refl _)).
  refine (X_excluded_files_never_in_nav (cfg_index_only true) [package_upper_child]
            "bridgic-core" _ _ eq_refl _).
  vm_compute. left. reflexivity.
Defined.

(** X: [should_exclude_path] matches [exclude_patterns] against every part
    of the full path, the directories above the package included: when
    each configured package lies below a directory whose name is an
    exclusion pattern (say [/home/me/build/repo]), the first pass builds an
    empty navigation structure and [generate] leaves [mkdocs.yml] as it
    was. *)
Theorem X_excluded_root_empty_nav (cfg : Config) (packages : list Package)
  (template : option string) (w : Updater.write_outcome) (d : string) (clean_ok : bool) :
  forallb (fun pkg => existsb (fun pattern => existsb (String.eqb pattern) (src_parts pkg))
                        (exclude_patterns cfg)) packages = true ->
  nav_structure (first_pass cfg packages) = [] /\
  generate_mkdocs clean_ok cfg packages template w d = d.
Proof.
  intros H.
  assert (Hnil : nav_structure (first_pass cfg packages) = []).
  { destruct (nav_structure (first_pass cfg packages)) as [|[name x] rest] eqn:E;
      [reflexivity|exfalso].
    assert (Hk : In name (map fst (nav_structure (first_pass cfg packages))))
      by (rewrite E; left; reflexivity).
    destruct (proj2 (first_pass_keys_inv cfg packages) name Hk)
      as [k [v [pkg [f [Hpkg [Hf [Hn Hr]]]]]]].
    pose proof (record_node_not_excluded _ _ _ _ _ _ Hr) as Hx.
    pose proof (proj1 (forallb_forall _ packages) H pkg Hpkg) as H1. simpl in H1.
    apply existsb_exists in H1. destruct H1 as [pattern [Hp Hs]].
    apply existsb_exists in Hs. destruct Hs as [part [Hpart Heq]].
    apply String.eqb_eq in Heq. subst part.
    unfold should_exclude_path in Hx.
    assert (Ht : existsb (fun pattern => existsb (String.eqb pattern)
                                           (app (src_parts pkg) (rel_parts f)))
                   (exclude_patterns cfg) = true).
    { apply existsb_exists. exists pattern. split; [exact Hp|].
      apply existsb_exists. exists pattern.
      split; [apply in_or_app; left; exact Hpart|apply String.eqb_refl]. }
    rewrite Ht in Hx. discriminate. }
  split; [exact Hnil|]. unfold generate_mkdocs. rewrite Hnil.
  destruct clean_ok; reflexivity.
Qed.

Lemma X_excluded_root_empty_nav_witness :
  forallb (fun pkg => existsb (fun pattern => existsb (String.eqb pattern) (src_parts pkg))
                        (exclude_patterns (cfg_index_only true)))
    [{| package_path := "bridgic-core"; info_name := Some "bridgic-core";
        src_parts := ["/"; "home"; "build"; "repo"; "bridgic-core"];
        files := [init_file ["bridgic"; "core"; "automa"]] |}] = true /\
  nav_structure (first_pass (cfg_index_only true)
    [{| package_path := "bridgic-core"; info_name := Some "bridgic-core";
        src_parts := ["/"; "home"; "build"; "repo"; "bridgic-core"];
        files := [init_file ["bridgic"; "core"; "automa"]] |}]) = [] /\
  generate_mkdocs true (cfg_index_only true)
    [{| package_path := "bridgic-core"; info_name := Some "bridgic-core";
        src_parts := ["/"; "home"; "build"; "repo"; "bridgic-core"];
        files := [init_file ["bridgic"; "core"; "automa"]] |}]
    (Some example_template) Updater.WriteOk "old" = "old".
Proof.
  split; [vm_compute; reflexivity|].
  apply (fun H => X_excluded_root_empty_nav _ _ _ _ _ true H). vm_compute. reflexivity.
Defined.

(** X: an [__init__.py] that is not excluded and has a non-empty export
    list, in the directories [dirs] below the package source, records the
    node [dirs] with the page [<docs_base_path>/<name>/<dirs>/index.md];
    the top-level [__init__.py] (no directory) records the one-part node
    [__init__] with the page [<docs_base_path>/<name>/__init__.md]. *)
Theorem X_init_node_and_page (cfg : Config) (pkg : Package) (name : string)
  (dirs : list string) (src : option (list Ast.stmt)) :
  should_exclude_path cfg pkg {| rel_parts := app dirs ["__init__.py"]; source := src |}
  = false ->
  exports_of src <> [] ->
  record_node cfg pkg name {| rel_parts := app dirs ["__init__.py"]; source := src |}
  = match dirs with
    | [] => Some (["__init__"],
                  docs_base_path cfg ++ "/" ++ name ++ "/" ++ "__init__.md")
    | _ => Some (dirs,
                 docs_base_path cfg ++ "/" ++ name ++ "/"
                 ++ Py.join "/" (app dirs ["index.md"]))
    end.
Proof.
  intros Hx Hne. unfold record_node. rewrite Hx.
  assert (Hm : module_parts {| rel_parts := app dirs ["__init__.py"]; source := src |}
               = app dirs ["__init__"]).
  { unfold module_parts. cbn [rel_parts]. rewrite removelast_last, last_last. reflexivity. }
  rewrite Hm, last_last. cbn [String.eqb Ascii.eqb Bool.eqb andb].
  unfold process_init_module. cbn [source]. unfold exports_of in Hne.
  destruct (snd (Ast.parse_init_doc_and_all Ast.insertion_order src)) as [|e es]; [contradiction|].
  rewrite removelast_last, last_last, length_app.
  destruct dirs as [|x xs]; [reflexivity|].
  replace (Nat.ltb 1 (length (x :: xs) + length ["__init__"])) with true
    by (symmetry; apply Nat.ltb_lt; cbn [length]; lia).
  reflexivity.
Qed.

Lemma X_init_node_and_page_witness :
  should_exclude_path (cfg_index_only true) package_upper_child
    {| rel_parts := app ["bridgic"; "core"] ["__init__.py"]; source := exports_A |} = false /\
  exports_of exports_A <> [] /\
  record_node (cfg_index_only true) package_upper_child "bridgic-core"
    {| rel_parts := app ["bridgic"; "core"] ["__init__.py"]; source := exports_A |}
  = Some (["bridgic"; "core"], "reference/bridgic-core/bridgic/core/index.md").
Proof.
  split; [vm_compute; reflexivity|]. split; [vm_compute; discriminate|].
  rewrite X_init_node_and_page; [reflexivity|vm_compute; reflexivity|vm_compute; discriminate].
Defined.

Lemma drop_api_reference_sound (skip : bool) (lines : list string) (l : string) :
  In l (Updater.drop_api_reference skip lines) ->
  In l lines /\ Py.startswith (Py.strip l) "- API Reference:" = false.
Proof.
  revert skip. induction lines as [|line rest IH]; intros skip H; [destruct H|].
  simpl in H.
  destruct (Py.startswith (Py.strip line) "- API Reference:") eqn:E.
  - destruct (IH _ H) as [H1 H2]. split; [right; exact H1|exact H2].
  - destruct skip;
      [destruct (Py.startswith line "  - " && negb (Py.startswith line "    "))|].
    all: try (destruct (IH _ H) as [H1 H2]; split; [right; exact H1|exact H2]).
    all: destruct H as [<-|H]; [split; [left; reflexivity|exact E]|].
    all: destruct (IH _ H) as [H1 H2]; split; [right; exact H1|exact H2].
Qed.

Lemma drop_api_reference_keep (lines : list string) :
  forallb (fun l => negb (Py.startswith (Py.strip l) "- API Reference:")) lines = true ->
  Updater.drop_api_reference false lines = lines.
Proof.
  induction lines as [|line rest IH]; intros H; [reflexivity|].
  simpl in H. apply andb_prop in H. destruct H as [H1 H2].
  apply negb_true_iff in H1. simpl. rewrite H1, IH by exact H2. reflexivity.
Qed.

(** X: the loop of [_rebuild_nav_content] only removes lines: every line
    it keeps is a line of the input, and none of them is an
    [- API Reference:] item; a nav without such an item is kept line for
    line. *)
Theorem X_drop_api_reference_filters (lines : list string) :
  (forall l, In l (Updater.drop_api_reference false lines) ->
     In l lines /\ Py.startswith (Py.strip l) "- API Reference:" = false) /\
  (forallb (fun l => negb (Py.startswith (Py.strip l) "- API Reference:")) lines = true ->
   Updater.drop_api_reference false lines = lines).
Proof.
  split; [intros l; apply drop_api_reference_sound|apply drop_api_reference_keep].
Qed.

Lemma X_drop_api_reference_filters_witness :
  forallb (fun l => negb (Py.startswith (Py.strip l) "- API Reference:"))
    ["  - Home: index.md"; "  - About: about.md"] = true /\
  Updater.drop_api_reference false ["  - Home: index.md"; "  - About: about.md"]
  = ["  - Home: index.md"; "  - About: about.md"].
Proof.
  split; [vm_compute; reflexivity|].
  apply (proj2 (X_drop_api_reference_filters _)). vm_compute. reflexivity.
Defined.

Lemma drop_api_reference_skip_tail (post : list string) :
  forallb (fun l => negb (Py.startswith l "  - ")) post = true ->
  Updater.drop_api_reference true post = [].
Proof.
  induction post as [|line rest IH]; intros H; [reflexivity|].
  simpl in H. apply andb_prop in H. destruct H as [H1 H2].
  apply negb_true_iff in H1. simpl. rewrite H1. cbn [andb].
  destruct (Py.startswith (Py.strip line) "- API Reference:"); apply IH; exact H2.
Qed.

Lemma drop_api_reference_cut (api : string) (post : list string) :
  Py.startswith (Py.strip api) "- API Reference:" = true ->
  forallb (fun l => negb (Py.startswith l "  - ")) post = true ->
  forall skip pre,
  Updater.drop_api_reference skip (app pre (api :: post))
  = Updater.drop_api_reference skip pre.
Proof.
  intros Ha Hp skip pre. revert skip.
  induction pre as [|line rest IH]; intros skip.
  - simpl. rewrite Ha. apply drop_api_reference_skip_tail. exact Hp.
  - simpl. rewrite !IH. reflexivity.
Qed.

Lemma prefix_app (p s : string) : String.prefix p s = true -> exists r, s = p ++ r.
Proof.
  revert s. induction p as [|a p IH]; intros s H; [exists s; reflexivity|].
  destruct s as [|c s]; [discriminate|]. cbn [String.prefix] in H.
  destruct (Ascii.ascii_dec a c) as [->|]; [|discriminate].
  destruct (IH s H) as [r ->]. exists r. reflexivity.
Qed.

Lemma item_line_not_deeper (l : string) :
  Py.startswith l "  - " = true -> Py.startswith l "    " = false.
Proof.
  intros H. destruct (prefix_app _ _ H) as [r ->]. reflexivity.
Qed.

Lemma drop_api_reference_at (api : string) (r : list string) :
  Py.startswith (Py.strip api) "- API Reference:" = true ->
  forall skip pre,
  Updater.drop_api_reference skip (app pre (api :: r))
  = app (Updater.drop_api_reference skip pre) (Updater.drop_api_reference true r).
Proof.
  intros Ha skip pre. revert skip.
  induction pre as [|line rest IH]; intros skip.
  - simpl. rewrite Ha. reflexivity.
  - simpl. rewrite !IH.
    destruct (Py.startswith (Py.strip line) "- API Reference:"); [reflexivity|].
    destruct skip; [destruct (Py.startswith line "  - " && negb (Py.startswith line "    "))|];
      reflexivity.
Qed.

Lemma drop_api_reference_resume (mid post : list string) (l : string) :
  forallb (fun m => negb (Py.startswith m "  - ")) mid = true ->
  Py.startswith l "  - " = true ->
  Py.startswith (Py.strip l) "- API Reference:" = false ->
  Updater.drop_api_reference true (app mid (l :: post))
  = l :: Updater.drop_api_reference false post.
Proof.
  intros Hm Hl Hs. induction mid as [|m mid IH].
  - simpl. rewrite Hs, Hl, (item_line_not_deeper l Hl). reflexivity.
  - simpl in Hm. apply andb_prop in Hm. destruct Hm as [H1 H2].
    apply negb_true_iff in H1. simpl. rewrite H1. cbn [andb].
    destruct (Py.startswith (Py.strip m) "- API Reference:"); apply IH; exact H2.
Qed.

(** X: after an [- API Reference:] line the loop of [_rebuild_nav_content]
    drops every line until the first one that starts with exactly two
    spaces and [- ] (a sibling item of a nav indented by two); that line is
    kept, unless it is itself an API Reference item, and the lines after it
    are processed as from the start.  So in a nav list written flush left
    ([- Home: ...]), where no line starts with two spaces and [- ], every
    item after the API Reference item is dropped along with it. *)
Theorem X_api_reference_drops_flush_left_tail (pre mid post : list string)
  (api l : string) :
  Py.startswith (Py.strip api) "- API Reference:" = true ->
  forallb (fun m => negb (Py.startswith m "  - ")) mid = true ->
  (Py.startswith l "  - " = true ->
   Py.startswith (Py.strip l) "- API Reference:" = false ->
   Updater.drop_api_reference false (app pre (api :: app mid (l :: post)))
   = app (Updater.drop_api_reference false pre)
       (l :: Updater.drop_api_reference false post)) /\
  Updater.drop_api_reference false (app pre (api :: mid))
  = Updater.drop_api_reference false pre.
Proof.
  intros Ha Hm. split.
  - intros Hl Hs. rewrite (drop_api_reference_at api _ Ha).
    rewrite (drop_api_reference_resume mid post l Hm Hl Hs). reflexivity.
  - apply drop_api_reference_cut; assumption.
Qed.

Lemma X_api_reference_drops_flush_left_tail_witness :
  Py.startswith (Py.strip "  - API Reference:") "- API Reference:" = true /\
  forallb (fun l => negb (Py.startswith l "  - "))
    ["    - Core: core.md"; "- Blog: blog.md"] = true /\
  Updater.drop_api_reference false
    (app ["  - Home: index.md"]
       ("  - API Reference:" :: app ["    - Core: core.md"; "- Blog: blog.md"]
          ("  - About: about.md" :: [""])))
  = ["  - Home: index.md"; "  - About: about.md"; ""] /\
  Updater.drop_api_reference false
    (app ["- Home: index.md"] ("- API Reference:" :: ["    - Core: core.md"; "- About: about.md"; ""]))
  = ["- Home: index.md"].
Proof.
  split; [vm_compute; reflexivity|]. split; [vm_compute; reflexivity|]. split.
  - rewrite (proj1 (X_api_reference_drops_flush_left_tail ["  - Home: index.md"]
                      ["    - Core: core.md"; "- Blog: blog.md"] [""]
                      "  - API Reference:" "  - About: about.md"
                      ltac:(vm_compute; reflexivity) ltac:(vm_compute; reflexivity)));
      [vm_compute; reflexivity|vm_compute; reflexivity|vm_compute; reflexivity].
  - rewrite (proj2 (X_api_reference_drops_flush_left_tail ["- Home: index.md"]
                      ["    - Core: core.md"; "- About: about.md"; ""] [] "- API Reference:" ""
                      ltac:(vm_compute; reflexivity) ltac:(vm_compute; reflexivity))).
    vm_compute. reflexivity.
Defined.

Lemma get_substring_suffix (s : string) (n k : nat) :
  String.get k (substring n (String.length s - n) s) = String.get (n + k) s.
Proof.
  revert n. induction s as [|c s IH]; intros n.
  - destruct n, k; reflexivity.
  - destruct n as [|n].
    + rewrite Nat.sub_0_r, substring_whole. reflexivity.
    + cbn [String.length substring Nat.sub]. rewrite IH. reflexivity.
Qed.

Lemma length_substring_suffix (s : string) (n : nat) :
  String.length (substring n (String.length s - n) s) = String.length s - n.
Proof.
  revert n. induction s as [|c s IH]; intros n.
  - destruct n; reflexivity.
  - destruct n as [|n].
    + rewrite Nat.sub_0_r, substring_whole. reflexivity.
    + cbn [String.length substring Nat.sub]. apply IH.
Qed.

Lemma get_None_length (s : string) (k : nat) :
  String.get k s = None -> String.length s <= k.
Proof.
  revert k. induction s as [|c s IH]; intros k H; [cbn; lia|].
  destruct k as [|k]; [discriminate|]. cbn in H |- *. apply IH in H. lia.
Qed.

Lemma prefix_length (p s : string) :
  String.prefix p s = true -> String.length p <= String.length s.
Proof.
  intros H. apply prefix_correct in H.
  revert s H. induction p as [|a p IH]; intros s H; [cbn; lia|].
  destruct s as [|c s]; [discriminate|]. cbn in H |- *.
  injection H as _ H. apply IH in H. lia.
Qed.

Lemma ws_run_spec (r : string) :
  Updater.ws_run r <= String.length r /\
  (forall k, k < Updater.ws_run r ->
     exists c, String.get k r = Some c /\ Py.is_space c = true).
Proof.
  induction r as [|c r [IH1 IH2]]; [split; [cbn; lia|intros k Hk; cbn in Hk; lia]|].
  cbn [Updater.ws_run]. destruct (Py.is_space c) eqn:Hc.
  - split; [cbn; lia|]. intros [|k] Hk; [exists c; split; [reflexivity|exact Hc]|].
    apply IH2. lia.
  - split; [lia|intros k Hk; lia].
Qed.

Lemma backtrack_eol_spec (r : string) (n k : nat) :
  Updater.backtrack_eol r n = Some k -> k <= n /\ Updater.eol_at r k = true.
Proof.
  induction n as [|n IH]; intros H; cbn [Updater.backtrack_eol] in H.
  - destruct (Updater.eol_at r 0) eqn:E; [|discriminate].
    injection H as <-. split; [lia|exact E].
  - destruct (Updater.eol_at r (S n)) eqn:E.
    + injection H as <-. split; [lia|exact E].
    + destruct (IH H) as [H1 H2]. split; [lia|exact H2].
Qed.

Lemma search_nav_start_sound (s : string) (pos : nat) (als : bool) (a b : nat) :
  Updater.search_nav_start s pos als = Some (a, b) ->
  exists i e, a = pos + i /\ b = pos + e /\
    substring i 4 s = "nav:" /\
    ((i = 0 /\ als = true) \/ (exists j, i = S j /\ String.get j s = Some Py.nl)) /\
    i + 4 <= e <= String.length s /\
    (e = String.length s \/ String.get e s = Some Py.nl) /\
    (forall k, i + 4 <= k < e ->
       exists c, String.get k s = Some c /\ Py.is_space c = true).
Proof.
  revert pos als. induction s as [|c s' IH]; intros pos als H; [discriminate|].
  cbn [Updater.search_nav_start] in H.
  destruct (als && String.prefix "nav:" (String c s')) eqn:Hp.
  - apply andb_prop in Hp. destruct Hp as [Hals Hp].
    pose proof (prefix_length _ _ Hp) as Hlen. change (String.length "nav:") with 4 in Hlen.
    apply prefix_correct in Hp. change (String.length "nav:") with 4 in Hp.
    set (s := String c s') in *.
    destruct (Updater.backtrack_eol (substring 4 (String.length s - 4) s)
                (Updater.ws_run (substring 4 (String.length s - 4) s))) as [k|] eqn:Hb.
    + injection H as <- <-.
      destruct (backtrack_eol_spec _ _ _ Hb) as [Hk He].
      destruct (ws_run_spec (substring 4 (String.length s - 4) s)) as [Hw Hsp].
      rewrite length_substring_suffix in Hw.
      exists 0, (4 + k). split; [lia|]. split; [lia|]. split; [exact Hp|].
      split; [left; split; [reflexivity|exact Hals]|]. split; [lia|]. split.
      * unfold Updater.eol_at in He. rewrite get_substring_suffix in He.
        destruct (String.get (4 + k) s) as [c'|] eqn:Hg.
        -- right. apply Ascii.eqb_eq in He. subst c'. reflexivity.
        -- left. apply get_None_length in Hg. lia.
      * intros k' Hk'. destruct (Hsp (k' - 4)) as [c' [Hg Hs]]; [lia|].
        rewrite get_substring_suffix in Hg. replace (4 + (k' - 4)) with k' in Hg by lia.
        exists c'. split; assumption.
    + apply IH in H.
      destruct H as [i [e [-> [-> [H1 [H2 [H3 [H4 H5]]]]]]]].
      exists (S i), (S e). split; [lia|]. split; [lia|]. split; [exact H1|].
      split.
      { right. destruct H2 as [[-> H2]|[j [-> H2]]].
        - exists 0. split; [reflexivity|]. apply Ascii.eqb_eq in H2. subst c. reflexivity.
        - exists (S j). split; [reflexivity|exact H2]. }
      split; [cbn; lia|]. split; [cbn; destruct H4 as [->|H4]; [left; reflexivity|right; exact H4]|].
      intros [|k] Hk; [lia|]. apply H5. lia.
  - apply IH in H.
    destruct H as [i [e [-> [-> [H1 [H2 [H3 [H4 H5]]]]]]]].
    exists (S i), (S e). split; [lia|]. split; [lia|]. split; [exact H1|].
    split.
    { right. destruct H2 as [[-> H2]|[j [-> H2]]].
      - exists 0. split; [reflexivity|]. apply Ascii.eqb_eq in H2. subst c. reflexivity.
      - exists (S j). split; [reflexivity|exact H2]. }
    split; [cbn; lia|]. split; [cbn; destruct H4 as [->|H4]; [left; reflexivity|right; exact H4]|].
    intros [|k] Hk; [lia|]. apply H5. lia.
Qed.

Lemma str_app_assoc (x y z : string) : (x ++ y) ++ z = x ++ (y ++ z).
Proof. induction x as [|c x IH]; cbn; [reflexivity|]. rewrite IH. reflexivity. Qed.

Lemma str_app_nil_r (x : string) : x ++ "" = x.
Proof. induction x as [|c x IH]; cbn; [reflexivity|]. rewrite IH. reflexivity. Qed.

Lemma substring_concat (s : string) (n m : nat) :
  n + m <= String.length s ->
  substring n m s ++ substring (n + m) (String.length s - (n + m)) s
  = substring n (String.length s - n) s.
Proof.
  revert n m. induction s as [|c s IH]; intros n m H.
  - cbn in H. destruct n, m; try lia. reflexivity.
  - destruct n as [|n].
    + destruct m as [|m].
      * reflexivity.
      * cbn in H |- *. f_equal. specialize (IH 0 m). cbn [Nat.add] in IH.
        rewrite Nat.sub_0_r in IH. apply IH. lia.
    + cbn in H |- *. apply IH. lia.
Qed.

Lemma substring_split (s : string) (n : nat) :
  n <= String.length s ->
  substring 0 n s ++ substring n (String.length s - n) s = s.
Proof.
  intros H. pose proof (substring_concat s 0 n H) as E. cbn [Nat.add] in E.
  rewrite E, Nat.sub_0_r. apply substring_whole.
Qed.

Lemma search_next_config_sound (s : string) (pos : nat) (als : bool) (j : nat) :
  Updater.search_next_config s pos als = Some j ->
  pos <= j /\ j - pos < String.length s /\
  Updater.key_colon false
    (substring (S (j - pos)) (String.length s - S (j - pos)) s) = true.
Proof.
  revert pos als. induction s as [|c s' IH]; intros pos als H; [discriminate|].
  cbn [Updater.search_next_config] in H.
  destruct (als && Ascii.eqb c Py.nl && Updater.key_colon false s') eqn:E.
  - injection H as <-. apply andb_prop in E. destruct E as [_ E].
    rewrite Nat.sub_diag. cbn [String.length substring Nat.sub].
    rewrite Nat.sub_0_r, substring_whole. split; [lia|]. split; [cbn; lia|exact E].
  - apply IH in H. destruct H as [H1 [H2 H3]].
    replace (j - pos) with (S (j - S pos)) by lia.
    split; [lia|]. split; [cbn; lia|]. exact H3.
Qed.

Lemma nav_start_match_sound (original : string) (a b : nat) :
  Updater.nav_start_match original = Some (a, b) ->
  substring a 4 original = "nav:" /\
  (a = 0 \/ String.get (a - 1) original = Some Py.nl) /\
  a + 4 <= b <= String.length original /\
  (b = String.length original \/ String.get b original = Some Py.nl) /\
  (forall k, a + 4 <= k < b ->
     exists c, String.get k original = Some c /\ Py.is_space c = true).
Proof.
  intros H. apply search_nav_start_sound in H.
  destruct H as [i [e [-> [-> [H1 [H2 [H3 [H4 H5]]]]]]]]. cbn [Nat.add].
  split; [exact H1|]. split.
  { destruct H2 as [[-> _]|[j [-> H2]]]; [left; reflexivity|right].
    replace (S j - 1) with j by lia. exact H2. }
  split; [exact H3|]. split; [exact H4|exact H5].
Qed.

(** X: [re.search(r'^nav:\s*$', ..., flags=re.MULTILINE)] as the legacy
    routine uses it: a match [(start, end)] is the text [nav:] at the start
    of a line, followed only by whitespace up to [end], which is the end of
    the file or the position of a newline. *)
Theorem X_nav_start_match_sound (original : string) (a b : nat) :
  Updater.nav_start_match original = Some (a, b) ->
  substring a 4 original = "nav:" /\
  (a = 0 \/ String.get (a - 1) original = Some Py.nl) /\
  a + 4 <= b <= String.length original /\
  (b = String.length original \/ String.get b original = Some Py.nl) /\
  (forall k, a + 4 <= k < b ->
     exists c, String.get k original = Some c /\ Py.is_space c = true).
Proof. apply nav_start_match_sound. Qed.

Lemma X_nav_start_match_sound_witness :
  Updater.nav_start_match
    ("site_name: X" ++ Py.nl_s ++ "nav:  " ++ Py.nl_s ++ "  - Home: index.md")
  = Some (13, 19) /\
  substring 13 4 ("site_name: X" ++ Py.nl_s ++ "nav:  " ++ Py.nl_s ++ "  - Home: index.md")
  = "nav:".
Proof.
  split; [vm_compute; reflexivity|].
  apply (X_nav_start_match_sound _ 13 19). vm_compute. reflexivity.
Defined.

(** X: the legacy routine splits [mkdocs.yml] into the text before the
    [nav:] line, the matched [nav:] line, the nav section and the text
    after it, which together give back the file; the text after the nav
    section is empty or starts with a top-level key [[a-z_]+:]; and the
    routine writes the text before and the text after unchanged around
    [nav:], a newline and the rebuilt nav section. *)
Theorem X_legacy_keeps_outside_nav
  (ns : list (string * list (string * navv))) (w : Updater.write_outcome)
  (original nav after : string) (a b : nat) :
  Updater.nav_start_match original = Some (a, b) ->
  Updater.split_nav_region original b = (nav, after) ->
  original = substring 0 a original ++ substring a (b - a) original ++ nav ++ after /\
  (after = "" \/ Updater.key_colon false after = true) /\
  Updater.update_mkdocs_config_legacy ns w original
  = Updater.write_file w
      (substring 0 a original ++ "nav:" ++ Py.nl_s
       ++ Updater.rebuild_nav_content nav ns ++ after) original.
Proof.
  intros Hm Hs.
  destruct (nav_start_match_sound _ _ _ Hm) as [_ [_ [Hab _]]].
  assert (Hr : nav ++ after = substring b (String.length original - b) original /\
               (after = "" \/ Updater.key_colon false after = true)).
  { unfold Updater.split_nav_region in Hs.
    set (r := substring b (String.length original - b) original) in *.
    unfold Updater.next_config_match in Hs.
    destruct (Updater.search_next_config r 0 true) as [j|] eqn:Hj.
    - injection Hs as <- <-.
      apply search_next_config_sound in Hj. rewrite Nat.sub_0_r in Hj.
      destruct Hj as [_ [Hj1 Hj2]].
      split; [apply substring_split; lia|right; rewrite Nat.add_1_r; exact Hj2].
    - injection Hs as <- <-. split; [apply str_app_nil_r|left; reflexivity]. }
  destruct Hr as [Hr Hafter]. split; [|split; [exact Hafter|]].
  - rewrite Hr.
    pose proof (substring_concat original a (b - a) ltac:(lia)) as E1.
    replace (a + (b - a)) with b in E1 by lia. rewrite E1.
    symmetry. apply substring_split. lia.
  - unfold Updater.update_mkdocs_config_legacy. rewrite Hm.
    rewrite Hs. cbn zeta.
    destruct (String.eqb after "") eqn:E; [apply String.eqb_eq in E; subst after|];
      reflexivity.
Qed.

Lemma X_legacy_keeps_outside_nav_witness :
  let original := "site_name: X" ++ Py.nl_s ++ "nav:" ++ Py.nl_s ++ "  - Home: index.md"
                  ++ Py.nl_s ++ Py.nl_s ++ "theme: material" ++ Py.nl_s in
  Updater.nav_start_match original = Some (13, 17) /\
  Updater.split_nav_region original 17
  = (Py.nl_s ++ "  - Home: index.md" ++ Py.nl_s ++ Py.nl_s, "theme: material" ++ Py.nl_s) /\
  original = substring 0 13 original ++ substring 13 (17 - 13) original
             ++ (Py.nl_s ++ "  - Home: index.md" ++ Py.nl_s ++ Py.nl_s)
             ++ ("theme: material" ++ Py.nl_s).
Proof.
  intros original. split; [vm_compute; reflexivity|]. split; [vm_compute; reflexivity|].
  refine (proj1 (X_legacy_keeps_outside_nav [] Updater.WriteOk original _ _ 13 17 _ _));
    vm_compute; reflexivity.
Defined.

Lemma list_ascii_of_string_app (x y : string) :
  list_ascii_of_string (x ++ y) = app (list_ascii_of_string x) (list_ascii_of_string y).
Proof. induction x as [|c x IH]; cbn; [reflexivity|]. rewrite IH. reflexivity. Qed.

Lemma In_substring (c : ascii) (n m : nat) (s : string) :
  In c (list_ascii_of_string (substring n m s)) -> In c (list_ascii_of_string s).
Proof.
  revert n m. induction s as [|x s IH]; intros n m H.
  - destruct n, m; exact H.
  - destruct n as [|n]; [destruct m as [|m]|].
    + destruct H.
    + cbn in H |- *. destruct H as [H|H]; [left; exact H|right; exact (IH 0 m H)].
    + cbn in H |- *. right. exact (IH n m H).
Qed.

Lemma In_replace_fuel (c : ascii) (fuel : nat) (old new s : string) :
  In c (list_ascii_of_string (Py.replace_fuel fuel old new s)) ->
  In c (list_ascii_of_string s) \/ In c (list_ascii_of_string new).
Proof.
  revert s. induction fuel as [|f IH]; intros s H; [left; exact H|].
  destruct s as [|x s']; [left; exact H|].
  change (Py.replace_fuel (S f) old new (String x s'))
    with (if String.prefix old (String x s')
          then new ++ Py.replace_fuel f old new
                 (substring (String.length old)
                    (String.length (String x s') - String.length old) (String x s'))
          else String x (Py.replace_fuel f old new s')) in H.
  destruct (String.prefix old (String x s')).
  - rewrite list_ascii_of_string_app in H. apply in_app_or in H.
    destruct H as [H|H]; [right; exact H|].
    destruct (IH _ H) as [H'|H']; [left; exact (In_substring _ _ _ _ H')|right; exact H'].
  - cbn in H. destruct H as [H|H]; [left; left; exact H|].
    destruct (IH _ H) as [H'|H']; [left; right; exact H'|right; exact H'].
Qed.

Lemma replace_one_fuel (a : ascii) (new : string) (fuel : nat) (s : string) :
  ~ In a (list_ascii_of_string new) ->
  String.length s <= fuel ->
  ~ In a (list_ascii_of_string (Py.replace_fuel fuel (String a EmptyString) new s)).
Proof.
  intros Hn. revert s. induction fuel as [|f IH]; intros s Hl.
  - destruct s; cbn in *; [intros []|lia].
  - destruct s as [|c s']; [cbn; intros []|].
    change (Py.replace_fuel (S f) (String a EmptyString) new (String c s'))
      with (if String.prefix (String a EmptyString) (String c s')
            then new ++ Py.replace_fuel f (String a EmptyString) new
                   (substring 1 (String.length (String c s') - 1) (String c s'))
            else String c (Py.replace_fuel f (String a EmptyString) new s')).
    cbn [String.length] in Hl. destruct (String.prefix (String a EmptyString) (String c s')) eqn:E.
    + apply prefix_one in E. subst c.
      change (substring 1 (String.length (String a s') - 1) (String a s'))
        with (substring 0 (String.length s' - 0) s').
      rewrite Nat.sub_0_r, substring_whole, list_ascii_of_string_app.
      intros H. apply in_app_or in H. destruct H as [H|H]; [exact (Hn H)|exact (IH s' ltac:(lia) H)].
    + cbn [list_ascii_of_string]. intros [H|H]; [|exact (IH s' ltac:(lia) H)].
      subst c. rewrite (proj2 (prefix_one _ _ s') eq_refl) in E. discriminate.
Qed.

Lemma case_underscore (c : ascii) :
  (Py.to_lower c = "_"%char -> c = "_"%char) /\ (Py.to_upper c = "_"%char -> c = "_"%char).
Proof.
  unfold Py.to_lower, Py.to_upper, Py.is_upper, Py.is_lower. split.
  - destruct (Nat.leb 65 (nat_of_ascii c)) eqn:E1;
      destruct (Nat.leb (nat_of_ascii c) 90) eqn:E2; cbn [andb]; try (intros H; exact H).
    intros H. apply (f_equal nat_of_ascii) in H.
    apply Nat.leb_le in E1. apply Nat.leb_le in E2.
    rewrite nat_ascii_embedding in H by lia.
    change (nat_of_ascii "_"%char) with 95 in H. lia.
  - destruct (Nat.leb 97 (nat_of_ascii c)) eqn:E1;
      destruct (Nat.leb (nat_of_ascii c) 122) eqn:E2; cbn [andb]; try (intros H; exact H).
    intros H. apply (f_equal nat_of_ascii) in H.
    apply Nat.leb_le in E1. apply Nat.leb_le in E2.
    rewrite nat_ascii_embedding in H by (pose proof (nat_ascii_bounded c); lia).
    change (nat_of_ascii "_"%char) with 95 in H. lia.
Qed.

Lemma title_aux_underscore (b : bool) (s : string) :
  In "_"%char (list_ascii_of_string (Py.title_aux b s)) ->
  In "_"%char (list_ascii_of_string s).
Proof.
  revert b. induction s as [|c s IH]; intros b H; [exact H|].
  cbn in H |- *. destruct H as [H|H]; [|right; exact (IH _ H)].
  left. destruct b;
    [apply (proj1 (case_underscore c))|apply (proj2 (case_underscore c))]; exact H.
Qed.

(** X: [_format_display_name] never leaves an underscore in a name: the
    underscores become spaces before [title()], [title()] makes none, and
    none of the special replacements ([Llm] to [LLM], [Id] to [ID], ...)
    inserts one. *)
Theorem X_format_display_name_no_underscore (name : string) :
  ~ In "_"%char (list_ascii_of_string (Updater.format_display_name name)).
Proof.
  unfold Updater.format_display_name.
  assert (Hr : forallb (fun r => negb (existsb (Ascii.eqb "_") (list_ascii_of_string (snd r))))
                 Updater.display_replacements = true) by (vm_compute; reflexivity).
  assert (H0 : ~ In "_"%char (list_ascii_of_string (Py.title (Py.replace "_" " " name)))).
  { intros H. apply title_aux_underscore in H. revert H.
    apply replace_one_fuel; [cbn; intros [H|[]]; discriminate|lia]. }
  revert Hr H0. generalize (Py.title (Py.replace "_" " " name)).
  induction Updater.display_replacements as [|r rs IH]; intros acc Hr H0; [exact H0|].
  cbn [fold_left]. cbn [forallb] in Hr. apply andb_prop in Hr. destruct Hr as [Hr1 Hr2].
  apply IH; [exact Hr2|]. intros H. unfold Py.replace in H.
  destruct (In_replace_fuel _ _ _ _ _ H) as [H'|H']; [exact (H0 H')|].
  apply negb_true_iff in Hr1.
  assert (E : existsb (Ascii.eqb "_") (list_ascii_of_string (snd r)) = true)
    by (apply existsb_exists; exists "_"%char; split; [exact H'|apply Ascii.eqb_refl]).
  congruence.
Qed.

Lemma str_length_app (x y : string) :
  String.length (x ++ y) = String.length x + String.length y.
Proof. induction x as [|c x IH]; cbn; [reflexivity|]. rewrite IH. reflexivity. Qed.

Lemma replace_fuel_empty (fuel : nat) (old new : string) :
  Py.replace_fuel fuel old new "" = "".
Proof. destruct fuel; reflexivity. Qed.

Lemma replace_fuel_skip (old new : string) (x y : string) (fuel : nat) :
  (forall p, p < String.length x -> substring p (String.length old) (x ++ y) <> old) ->
  String.length x <= fuel ->
  Py.replace_fuel fuel old new (x ++ y)
  = x ++ Py.replace_fuel (fuel - String.length x) old new y.
Proof.
  revert fuel. induction x as [|c x IH]; intros fuel Hp Hl.
  - rewrite Nat.sub_0_r. reflexivity.
  - destruct fuel as [|f]; [cbn in Hl; lia|].
    change (String c x ++ y) with (String c (x ++ y)).
    change (Py.replace_fuel (S f) old new (String c (x ++ y)))
      with (if String.prefix old (String c (x ++ y))
            then new ++ Py.replace_fuel f old new
                   (substring (String.length old)
                      (String.length (String c (x ++ y)) - String.length old)
                      (String c (x ++ y)))
            else String c (Py.replace_fuel f old new (x ++ y))).
    destruct (String.prefix old (String c (x ++ y))) eqn:E.
    + exfalso. apply prefix_correct in E. apply (Hp 0); [cbn; lia|exact E].
    + cbn [String.length Nat.sub]. rewrite IH; [reflexivity| |cbn in Hl; lia].
      intros p Hp'. apply (Hp (S p)). cbn; lia.
Qed.

Lemma substring_app_prefix (x y : string) :
  substring 0 (String.length x) (x ++ y) = x.
Proof. induction x as [|c x IH]; cbn; [destruct y; reflexivity|]. rewrite IH. reflexivity. Qed.

Lemma substring_app_suffix (x y : string) :
  substring (String.length x) (String.length y) (x ++ y) = y.
Proof.
  induction x as [|c x IH]; cbn; [apply substring_whole|exact IH].
Qed.

Lemma replace_fuel_hit (old new y : string) (fuel : nat) :
  old <> "" ->
  Py.replace_fuel (S fuel) old new (old ++ y) = new ++ Py.replace_fuel fuel old new y.
Proof.
  intros Hne. destruct old as [|c o]; [contradiction|].
  change (String c o ++ y) with (String c (o ++ y)).
  change (Py.replace_fuel (S fuel) (String c o) new (String c (o ++ y)))
    with (if String.prefix (String c o) (String c (o ++ y))
          then new ++ Py.replace_fuel fuel (String c o) new
                 (substring (String.length (String c o))
                    (String.length (String c (o ++ y)) - String.length (String c o))
                    (String c (o ++ y)))
          else String c (Py.replace_fuel fuel (String c o) new (o ++ y))).
  change (String c (o ++ y)) with (String c o ++ y).
  rewrite (proj2 (prefix_correct _ _) (substring_app_prefix _ _)).
  rewrite str_length_app, Nat.add_comm, Nat.add_sub, substring_app_suffix.
  reflexivity.
Qed.

(** X: when the template holds the placeholder [{{API_REFERENCE_CONTENT}}]
    exactly once, between a text [a] and a text [b], [update_mkdocs_config]
    writes [a], then the generated API Reference content, then [b]: the
    rest of the template is copied as it is. *)
Theorem X_template_single_placeholder
  (a b dest : string) (ns : list (string * list (string * navv)))
  (w : Updater.write_outcome) :
  String.index 0 Updater.placeholder (a ++ Updater.placeholder ++ b)
  = Some (String.length a) ->
  String.index 0 Updater.placeholder b = None ->
  Updater.update_mkdocs_config (Some (a ++ Updater.placeholder ++ b)) ns w dest
  = Updater.write_file w
      (a ++ Updater.generate_api_reference_content ns ++ b) dest.
Proof.
  intros H1 H2. unfold Updater.update_mkdocs_config, Py.contains. rewrite H1.
  cbn [negb]. f_equal. unfold Py.replace.
  set (P := Updater.placeholder) in *.
  set (C := Updater.generate_api_reference_content ns).
  assert (HP : String.length P = 25) by reflexivity.
  rewrite replace_fuel_skip.
  2:{ intros p Hp. apply (index_correct2 0 (String.length a) _ _ H1); lia. }
  2:{ rewrite str_length_app. lia. }
  rewrite !str_length_app, HP.
  replace (String.length a + (25 + String.length b) - String.length a)
    with (S (24 + String.length b)) by lia.
  rewrite replace_fuel_hit by (unfold P; discriminate).
  f_equal. f_equal.
  pose proof (replace_fuel_skip P C b "" (24 + String.length b)) as E.
  rewrite !str_app_nil_r, replace_fuel_empty, str_app_nil_r in E.
  apply E; [|lia].
  intros p Hp. apply (index_correct3 0 p _ _ H2); [unfold P; discriminate|lia].
Qed.

Lemma X_template_single_placeholder_witness :
  String.index 0 Updater.placeholder
    (("nav:" ++ Py.nl_s ++ "  - API Reference:" ++ Py.nl_s) ++ Updater.placeholder
     ++ (Py.nl_s ++ "theme: material"))
  = Some (String.length ("nav:" ++ Py.nl_s ++ "  - API Reference:" ++ Py.nl_s)) /\
  String.index 0 Updater.placeholder (Py.nl_s ++ "theme: material") = None /\
  Updater.update_mkdocs_config
    (Some (("nav:" ++ Py.nl_s ++ "  - API Reference:" ++ Py.nl_s) ++ Updater.placeholder
           ++ (Py.nl_s ++ "theme: material")))
    [] Updater.WriteOk "old"
  = (true, ("nav:" ++ Py.nl_s ++ "  - API Reference:" ++ Py.nl_s) ++ ""
           ++ (Py.nl_s ++ "theme: material")).
Proof.
  split; [vm_compute; reflexivity|]. split; [vm_compute; reflexivity|].
  rewrite X_template_single_placeholder; [reflexivity|vm_compute; reflexivity..].
Defined.

Lemma navv_ind' (P : navv -> Prop)
  (fs : forall s, P (VStr s))
  (fl : forall l, (forall x, In x l -> P x) -> P (VList l))
  (fd : forall d, (forall kv, In kv d -> P (snd kv)) ->
        (forall k sub x, In (k, VList sub) d -> In x sub -> P x) -> P (VDict d)) :
  forall v, P v.
Proof.
  fix IH 1. intros [s|l|d].
  - apply fs.
  - apply fl. induction l as [|x l IHl]; intros y Hy; [destruct Hy|].
    destruct Hy as [<-|Hy]; [apply IH|exact (IHl y Hy)].
  - apply fd.
    + induction d as [|[k x] d IHd]; intros kv Hkv; [destruct Hkv|].
      destruct Hkv as [<-|Hkv]; [apply IH|exact (IHd kv Hkv)].
    + induction d as [|[k x] d IHd]; intros k' sub y Hkv Hy; [destruct Hkv|].
      destruct Hkv as [Hkv|Hkv]; [|exact (IHd k' sub y Hkv Hy)].
      destruct x as [s|l|e]; try discriminate. injection Hkv as _ <-.
      clear IHd. induction l as [|z l IHl]; [destruct Hy|].
      destruct Hy as [<-|Hy]; [apply IH|exact (IHl Hy)].
Qed.

Lemma no_nl_spec (s : string) : no_nl s = true <-> ~ In Py.nl (list_ascii_of_string s).
Proof.
  unfold no_nl. rewrite negb_true_iff. split.
  - intros H Hin. assert (E : existsb (Ascii.eqb Py.nl) (list_ascii_of_string s) = true)
      by (apply existsb_exists; exists Py.nl; split; [exact Hin|apply Ascii.eqb_refl]).
    congruence.
  - intros H. destruct (existsb (Ascii.eqb Py.nl) (list_ascii_of_string s)) eqn:E; [|reflexivity].
    exfalso. apply existsb_exists in E. destruct E as [c [Hc Ec]].
    apply Ascii.eqb_eq in Ec. subst c. exact (H Hc).
Qed.

Lemma In_str_concat (c : ascii) (sep : string) (L : list string) :
  In c (list_ascii_of_string (String.concat sep L)) ->
  In c (list_ascii_of_string sep) \/ exists x, In x L /\ In c (list_ascii_of_string x).
Proof.
  induction L as [|x L IH]; [intros []|].
  destruct L as [|y L].
  - intros H. right. exists x. split; [left; reflexivity|exact H].
  - change (String.concat sep (x :: y :: L)) with (x ++ sep ++ String.concat sep (y :: L)).
    rewrite !list_ascii_of_string_app. intros H. apply in_app_or in H.
    destruct H as [H|H]; [right; exists x; split; [left; reflexivity|exact H]|].
    apply in_app_or in H. destruct H as [H|H]; [left; exact H|].
    destruct (IH H) as [H'|[z [Hz Hcz]]]; [left; exact H'|].
    right. exists z. split; [right; exact Hz|exact Hcz].
Qed.

Lemma hexdig_not_nl (m : nat) : m < 16 -> Py.hexdig m <> Py.nl.
Proof.
  intros Hm.
  do 16 (destruct m as [|m]; [vm_compute; discriminate|]). lia.
Qed.

Lemma repr_body_no_nl (q : ascii) (s : string) :
  q <> Py.nl -> ~ In Py.nl (list_ascii_of_string (Py.repr_body q s)).
Proof.
  intros Hq. induction s as [|c s IH]; [intros []|].
  cbn [Py.repr_body].
  assert (Hb : nat_of_ascii c < 256) by apply nat_ascii_bounded.
  destruct (Ascii.eqb c q || Nat.eqb (nat_of_ascii c) 92) eqn:E1.
  - cbn. intros [H|[H|H]]; [discriminate| |exact (IH H)].
    apply orb_true_iff in E1. destruct E1 as [E1|E1].
    + apply Ascii.eqb_eq in E1. subst c. first [exact (Hq H)|exact (Hq (eq_sym H))].
    + subst c. discriminate.
  - destruct (Nat.eqb (nat_of_ascii c) 10) eqn:E2;
      [cbn; intros [H|[H|H]]; [discriminate|discriminate|exact (IH H)]|].
    destruct (Nat.eqb (nat_of_ascii c) 13) eqn:E3;
      [cbn; intros [H|[H|H]]; [discriminate|discriminate|exact (IH H)]|].
    destruct (Nat.eqb (nat_of_ascii c) 9) eqn:E4;
      [cbn; intros [H|[H|H]]; [discriminate|discriminate|exact (IH H)]|].
    destruct (Nat.ltb (nat_of_ascii c) 32 || Nat.leb 127 (nat_of_ascii c)) eqn:E5.
    + cbn [list_ascii_of_string]. intros [H|[H|[H|[H|H]]]];
        [discriminate|discriminate| | |exact (IH H)].
      * apply (hexdig_not_nl (nat_of_ascii c / 16)); [apply Nat.Div0.div_lt_upper_bound; lia|].
        first [exact H|exact (eq_sym H)].
      * apply (hexdig_not_nl (nat_of_ascii c mod 16)); [apply Nat.mod_upper_bound; lia|].
        first [exact H|exact (eq_sym H)].
    + cbn. intros [H|H]; [|exact (IH H)].
      subst c. discriminate.
Qed.

Lemma repr_str_no_nl (s : string) : ~ In Py.nl (list_ascii_of_string (Py.repr_str s)).
Proof.
  unfold Py.repr_str.
  set (q := if Py.contains "'" s && negb (Py.contains (String Py.dquote EmptyString) s)
            then Py.dquote else "'"%char).
  assert (Hq : q <> Py.nl) by (unfold q; destruct (_ && _); discriminate).
  cbn [list_ascii_of_string]. rewrite list_ascii_of_string_app. cbn.
  intros [H|H]; [first [exact (Hq H)|exact (Hq (eq_sym H))]|].
  apply in_app_or in H. destruct H as [H|[H|[]]]; [exact (repr_body_no_nl q s Hq H)|].
  first [exact (Hq H)|exact (Hq (eq_sym H))].
Qed.

Lemma navv_repr_no_nl (v : navv) : ~ In Py.nl (list_ascii_of_string (navv_repr v)).
Proof.
  induction v as [s|l IH|d IH _] using navv_ind'; cbn [navv_repr].
  - apply repr_str_no_nl.
  - rewrite !list_ascii_of_string_app. intros H.
    apply in_app_or in H. destruct H as [H|H]; [destruct H as [H|[]]; discriminate|].
    apply in_app_or in H. destruct H as [H|H]; [|destruct H as [H|[]]; discriminate].
    apply In_str_concat in H. destruct H as [H|[x [Hx Hc]]].
    + destruct H as [H|[H|[]]]; discriminate.
    + apply in_map_iff in Hx. destruct Hx as [y [<- Hy]]. exact (IH y Hy Hc).
  - rewrite !list_ascii_of_string_app. intros H.
    apply in_app_or in H. destruct H as [H|H]; [destruct H as [H|[]]; discriminate|].
    apply in_app_or in H. destruct H as [H|H]; [|destruct H as [H|[]]; discriminate].
    apply In_str_concat in H. destruct H as [H|[x [Hx Hc]]].
    + destruct H as [H|[H|[]]]; discriminate.
    + apply in_map_iff in Hx. destruct Hx as [kv [<- Hkv]].
      rewrite !list_ascii_of_string_app in Hc. apply in_app_or in Hc.
      destruct Hc as [Hc|Hc]; [exact (repr_str_no_nl _ Hc)|].
      apply in_app_or in Hc. destruct Hc as [Hc|Hc]; [destruct Hc as [Hc|[Hc|[]]]; discriminate|].
      exact (IH kv Hkv Hc).
Qed.

Lemma split_nonnil (c : ascii) (s : string) : Py.split c s <> [].
Proof.
  destruct s as [|x s]; [discriminate|]. cbn [Py.split].
  destruct (Ascii.eqb x c); [discriminate|]. destruct (Py.split c s); discriminate.
Qed.

Lemma split_app_free (c : ascii) (x y : string) :
  ~ In c (list_ascii_of_string x) ->
  Py.split c (x ++ y)
  = match Py.split c y with h :: t => (x ++ h) :: t | [] => [x] end.
Proof.
  induction x as [|a x IH]; intros Hx.
  - cbn. destruct (Py.split c y) eqn:E; [exfalso; exact (split_nonnil c y E)|reflexivity].
  - change (String a x ++ y) with (String a (x ++ y)). cbn [Py.split].
    rewrite IH by (intros H; apply Hx; right; exact H).
    destruct (Ascii.eqb a c) eqn:E.
    + exfalso. apply Ascii.eqb_eq in E. subst a. apply Hx. left. reflexivity.
    + destruct (Py.split c y) eqn:E'; [exfalso; exact (split_nonnil c y E')|reflexivity].
Qed.

Lemma In_split_join (L : list string) (x : string) :
  (forall y, In y L -> ~ In Py.nl (list_ascii_of_string y)) ->
  In x (Py.split Py.nl (String.concat Py.nl_s L)) -> In x L \/ x = "".
Proof.
  induction L as [|y L IH]; intros HL Hx.
  - destruct Hx as [<-|[]]. right. reflexivity.
  - assert (Hy : ~ In Py.nl (list_ascii_of_string y)) by (apply HL; left; reflexivity).
    destruct L as [|z L].
    + change (String.concat Py.nl_s [y]) with y in Hx.
      rewrite <- (str_app_nil_r y) in Hx.
      rewrite split_app_free in Hx by exact Hy. cbn in Hx.
      destruct Hx as [<-|[]]. left. left. symmetry. apply str_app_nil_r.
    + change (String.concat Py.nl_s (y :: z :: L))
        with (y ++ String Py.nl (String.concat Py.nl_s (z :: L))) in Hx.
      rewrite split_app_free in Hx by exact Hy.
      cbn [Py.split] in Hx. rewrite Ascii.eqb_refl in Hx.
      destruct Hx as [<-|Hx]; [left; left; symmetry; apply str_app_nil_r|].
      destruct (IH (fun w Hw => HL w (or_intror Hw)) Hx) as [H|H]; [left; right; exact H|right; exact H].
Qed.

Lemma spaces_no_nl (n : nat) : ~ In Py.nl (list_ascii_of_string (Updater.spaces n)).
Proof.
  unfold Updater.spaces. intros H. apply In_str_concat in H.
  destruct H as [[]|[x [Hx Hc]]].
  apply repeat_spec in Hx. subst x. destruct Hc as [Hc|[]]. discriminate.
Qed.

Lemma item_line_no_nl (n : nat) (u v : string) :
  ~ In Py.nl (list_ascii_of_string u) -> ~ In Py.nl (list_ascii_of_string v) ->
  ~ In Py.nl (list_ascii_of_string (Updater.spaces n ++ "- " ++ u ++ v)).
Proof.
  intros Hu Hv H. rewrite !list_ascii_of_string_app in H.
  apply in_app_or in H. destruct H as [H|H]; [exact (spaces_no_nl n H)|].
  apply in_app_or in H. destruct H as [H|H]; [destruct H as [H|[H|[]]]; discriminate|].
  apply in_app_or in H. destruct H as [H|H]; [exact (Hu H)|exact (Hv H)].
Qed.

Lemma navv_str_no_nl (v : navv) :
  navv_nl_free v = true -> ~ In Py.nl (list_ascii_of_string (navv_str v)).
Proof.
  destruct v as [s|l|d]; intros H; cbn [navv_str]; [|apply navv_repr_no_nl..].
  apply no_nl_spec. exact H.
Qed.

Lemma item_lines_shape (v : navv) :
  forall indent line,
  navv_nl_free v = true -> In line (Updater.item_lines indent v) ->
  ~ In Py.nl (list_ascii_of_string line) /\
  exists m rest, line = Updater.spaces (indent + 2 * m) ++ "- " ++ rest.
Proof.
  induction v as [s|l IH|d IH IHs] using navv_ind'; intros indent line Hv Hl.
  - destruct Hl as [<-|[]]. split.
    + rewrite <- (str_app_nil_r s). apply item_line_no_nl; [exact (navv_str_no_nl (VStr s) Hv)|intros []].
    + exists 0, s. rewrite Nat.add_0_r. reflexivity.
  - destruct Hl as [<-|[]]. split.
    + rewrite <- (str_app_nil_r (navv_str (VList l))).
      apply item_line_no_nl; [apply navv_repr_no_nl|intros []].
    + exists 0, (navv_str (VList l)). rewrite Nat.add_0_r. reflexivity.
  - cbn [Updater.item_lines] in Hl. cbn [navv_nl_free] in Hv.
    revert Hv Hl. induction d as [|[key value] d IHd]; intros Hv Hl; [destruct Hl|].
    cbn [forallb] in Hv. apply andb_prop in Hv. destruct Hv as [Hkv Hv].
    apply andb_prop in Hkv. destruct Hkv as [Hk Hval]. cbn [fst snd] in Hk, Hval.
    apply no_nl_spec in Hk.
    apply in_app_or in Hl. destruct Hl as [Hl|Hl].
    2:{ apply IHd; [intros kv Hkv; apply IH; right; exact Hkv
                   |intros k sub x Hkv; exact (IHs k sub x (or_intror Hkv))|exact Hv|exact Hl]. }
    destruct value as [s|sub|e].
    + destruct Hl as [<-|[]]. split.
      * apply item_line_no_nl; [exact Hk|].
        rewrite list_ascii_of_string_app. intros H. apply in_app_or in H.
        destruct H as [H|H]; [destruct H as [H|[H|[]]]; discriminate|].
        exact (navv_str_no_nl _ Hval H).
      * exists 0. eexists. rewrite Nat.add_0_r. reflexivity.
    + destruct Hl as [<-|Hl].
      * split.
        -- apply item_line_no_nl; [exact Hk|]. intros [H|[]]. discriminate.
        -- exists 0. eexists. rewrite Nat.add_0_r. reflexivity.
      * assert (Hsub : forall x line, In x sub -> In line (Updater.item_lines (indent + 2) x) ->
                  ~ In Py.nl (list_ascii_of_string line) /\
                  exists m rest, line = Updater.spaces (indent + 2 + 2 * m) ++ "- " ++ rest).
        { intros x line' Hx Hl'. apply (IHs key sub x (or_introl eq_refl) Hx); [|exact Hl'].
          cbn [navv_nl_free] in Hval. exact (proj1 (forallb_forall _ _) Hval x Hx). }
        destruct (String.eqb _ "") in Hl; [destruct Hl|].
        unfold Updater.nonblank_lines in Hl. apply filter_In in Hl. destruct Hl as [Hl Hnb].
        apply In_split_join in Hl.
        2:{ intros y Hy. apply in_concat in Hy. destruct Hy as [ys [Hys Hy]].
            apply in_map_iff in Hys. destruct Hys as [x [<- Hx]].
            exact (proj1 (Hsub x y Hx Hy)). }
        destruct Hl as [Hl| ->]; [|discriminate].
        apply in_concat in Hl. destruct Hl as [ys [Hys Hy]].
        apply in_map_iff in Hys. destruct Hys as [x [<- Hx]].
        destruct (Hsub x line Hx Hy) as [H1 [m [rest Hr]]].
        split; [exact H1|]. exists (S m), rest. rewrite Hr. f_equal. f_equal. lia.
    + destruct Hl as [<-|[]]. split.
      * apply item_line_no_nl; [exact Hk|].
        rewrite list_ascii_of_string_app. intros H. apply in_app_or in H.
        destruct H as [H|H]; [destruct H as [H|[H|[]]]; discriminate|].
        exact (navv_repr_no_nl _ H).
      * exists 0. eexists. rewrite Nat.add_0_r. reflexivity.
Qed.

(** X: when the keys and string values of a navigation list hold no
    newline, every line [_nav_to_yaml_string] emits is one line (no newline
    in it) and a YAML list item: [indent + 2 m] spaces, then [- ], for some
    nesting depth [m]. *)
Theorem X_nav_yaml_lines_are_items (l : list navv) (indent : nat) (line : string) :
  forallb navv_nl_free l = true ->
  In line (Updater.nav_to_yaml_lines l indent) ->
  ~ In Py.nl (list_ascii_of_string line) /\
  exists m rest, line = Updater.spaces (indent + 2 * m) ++ "- " ++ rest.
Proof.
  intros Hl Hin. unfold Updater.nav_to_yaml_lines in Hin.
  apply in_concat in Hin. destruct Hin as [ys [Hys Hy]].
  apply in_map_iff in Hys. destruct Hys as [v [<- Hv]].
  apply (item_lines_shape v indent line); [exact (proj1 (forallb_forall _ _) Hl v Hv)|exact Hy].
Qed.

Lemma X_nav_yaml_lines_are_items_witness :
  forallb navv_nl_free [VDict [("core", VList [VDict [("Agent", VStr "a.md")]])]] = true /\
  In "    - Agent: a.md" (Updater.nav_to_yaml_lines
                            [VDict [("core", VList [VDict [("Agent", VStr "a.md")]])]] 2) /\
  (~ In Py.nl (list_ascii_of_string "    - Agent: a.md") /\
   exists m rest, "    - Agent: a.md" = Updater.spaces (2 + 2 * m) ++ "- " ++ rest).
Proof.
  split; [vm_compute; reflexivity|]. split; [vm_compute; tauto|].
  apply (X_nav_yaml_lines_are_items [VDict [("core", VList [VDict [("Agent", VStr "a.md")]])]] 2);
    [vm_compute; reflexivity|vm_compute; tauto].
Defined.

Lemma record_node_doc_file (cfg : Config) (pkg : Package) (f : PyFile)
  (k : list string) (v : string) :
  record_node cfg pkg (get_package_display_name pkg) f = Some (k, v) ->
  exists dp, doc_file cfg pkg f = Some (dp, Py.join "." k) /\
             v = index_page cfg (get_package_display_name pkg) dp.
Proof.
  unfold record_node, doc_file.
  destruct (should_exclude_path cfg pkg f); [discriminate|].
  destruct (String.eqb (last (module_parts f) "") "__init__"); [|discriminate].
  destruct (process_init_module (module_parts f) f) as [[parts' dp] has_all].
  destruct parts' as [|x xs]; [discriminate|].
  destruct has_all; cbn [negb]; [|discriminate].
  intros H. injection H as <- <-. exists dp. split; reflexivity.
Qed.

Lemma In_sort_by {A} (key : A -> list string) (x : A) (l : list A) :
  In x l -> In x (sort_by key l).
Proof. intros H. apply (proj2 (sort_by_In key x l)). exact H. Qed.

(** X: every page that the navigation built by the first pass links to
    is the page of a file [f] of a configured package for which the second
    pass ([process_package]) computes the same path below
    [docs_base_path], under the same package name; that page is written
    unless the [self.nav] assignment or [create_documentation_file] fails
    for [f]: when they succeed, the API Reference has no dead link. *)
Theorem X_nav_pages_written_by_second_pass (cfg : Config)
  (ok : Package -> PyFile -> bool) (packages : list Package)
  (name : string) (pnav : list (string * navv)) (p : string) :
  dict_get String.eqb name (nav_structure (first_pass cfg packages)) = Some pnav ->
  In p (nav_pages pnav) ->
  exists pkg f dp ident,
    In pkg packages /\ In f (files pkg) /\ doc_file cfg pkg f = Some (dp, ident) /\
    p = index_page cfg (get_package_display_name pkg) dp /\
    (ok pkg f = true ->
     In (get_package_display_name pkg, dp, ident) (second_pass cfg ok packages)).
Proof.
  intros Hget Hp.
  destruct (proj1 (proj2 (first_pass_inv cfg packages) name pnav Hget) p Hp)
    as [k [_ [pkg [f [Hpkg [Hf Hr]]]]]].
  destruct (record_node_doc_file _ _ _ _ _ Hr) as [dp [Hd Hv]].
  exists pkg, f, dp, (Py.join "." k).
  split; [exact Hpkg|]. split; [exact Hf|]. split; [exact Hd|]. split; [exact Hv|].
  intros Hok.
  unfold second_pass. apply in_flat_map. exists pkg. split; [exact Hpkg|].
  unfold process_package_docs. apply in_flat_map. exists f.
  split; [apply In_sort_by; exact Hf|]. rewrite Hd, Hok. left. reflexivity.
Qed.

Lemma X_nav_pages_written_by_second_pass_witness :
  exists pnav,
    dict_get String.eqb "bridgic-core"
      (nav_structure (first_pass (cfg_index_only true) [package_upper_child])) = Some pnav /\
    exists pkg f dp ident,
      In pkg [package_upper_child] /\ In f (files pkg) /\
      doc_file (cfg_index_only true) pkg f = Some (dp, ident) /\
      "reference/bridgic-core/bridgic/core/automa/Args/index.md"
      = index_page (cfg_index_only true) (get_package_display_name pkg) dp /\
      (true = true ->
       In (get_package_display_name pkg, dp, ident)
         (second_pass (cfg_index_only true) (fun _ _ => true) [package_upper_child])).
Proof.
  refine (ex_intro _ _ (conj eq_refl _)).
  refine (X_nav_pages_written_by_second_pass (cfg_index_only true) (fun _ _ => true)
            [package_upper_child] "bridgic-core" _ _ eq_refl _).
  vm_compute. left. reflexivity.
Defined.

(** *** Loading [doc_config.yaml] *)

Module LoadFacts.
Import DocumentationConfig.

Ltac split_matches :=
  repeat match goal with
         | |- context [match ?x with _ => _ end] => destruct x eqn:?
         end.

Lemma step_exclude_files_keeps (st : DocConfig) (d : list (string * yval)) :
  exclude_patterns (fst (step_exclude_files st d)) = exclude_patterns st /\
  packages (fst (step_exclude_files st d)) = packages st /\
  package_info (fst (step_exclude_files st d)) = package_info st /\
  options (fst (step_exclude_files st d)) = options st.
Proof. unfold step_exclude_files. split_matches; cbn; auto. Qed.

Lemma step_packages_keeps (st : DocConfig) (d : list (string * yval)) :
  exclude_patterns (fst (step_packages st d)) = exclude_patterns st /\
  exclude_files (fst (step_packages st d)) = exclude_files st /\
  options (fst (step_packages st d)) = options st.
Proof. unfold step_packages. split_matches; cbn; auto. Qed.

Lemma step_generation_options_keeps (st : DocConfig) (d : list (string * yval)) :
  exclude_patterns (fst (step_generation_options st d)) = exclude_patterns st /\
  exclude_files (fst (step_generation_options st d)) = exclude_files st /\
  packages (fst (step_generation_options st d)) = packages st /\
  package_info (fst (step_generation_options st d)) = package_info st.
Proof. unfold step_generation_options. split_matches; cbn; auto. Qed.

Lemma load_unfold (st : DocConfig) (d : list (string * yval)) :
  load_from_file st (Some (YDict d))
  = let st1 := fst (step_exclude_patterns st d) in
    if negb (snd (step_exclude_patterns st d)) then st1 else
    let st2 := fst (step_exclude_files st1 d) in
    if negb (snd (step_exclude_files st1 d)) then st2 else
    let st3 := fst (step_packages st2 d) in
    if negb (snd (step_packages st2 d)) then st3 else
    fst (step_generation_options st3 d).
Proof.
  unfold load_from_file. destruct (step_exclude_patterns st d) as [st1 ok1]. cbn.
  destruct ok1; [|reflexivity]. destruct (step_exclude_files st1 d) as [st2 ok2]. cbn.
  destruct ok2; [|reflexivity]. destruct (step_packages st2 d) as [st3 ok3]. cbn.
  destruct ok3; reflexivity.
Qed.

(** X: [load_from_file] applies its sections in order and does not undo
    them when a later one raises: the exclusion patterns after loading are
    [set(data['exclude_patterns'])] whenever that succeeds, whatever the
    rest of the file holds, and the previous ones when the key is absent or
    [set()] raises. *)
Theorem X_config_exclude_patterns_kept (st : DocConfig) (d : list (string * yval)) :
  exclude_patterns (load_from_file st (Some (YDict d)))
  = match dict_get String.eqb "exclude_patterns" d with
    | Some v => match py_set v with Some l => l | None => exclude_patterns st end
    | None => exclude_patterns st
    end.
Proof.
  rewrite load_unfold. cbv zeta.
  assert (H1 : exclude_patterns (fst (step_exclude_patterns st d))
               = match dict_get String.eqb "exclude_patterns" d with
                 | Some v => match py_set v with Some l => l | None => exclude_patterns st end
                 | None => exclude_patterns st
                 end)
    by (unfold step_exclude_patterns; split_matches; reflexivity).
  rewrite <- H1.
  set (st1 := fst (step_exclude_patterns st d)).
  destruct (negb (snd (step_exclude_patterns st d))); [reflexivity|].
  destruct (step_exclude_files_keeps st1 d) as [E2 _].
  set (st2 := fst (step_exclude_files st1 d)) in *.
  destruct (negb (snd (step_exclude_files st1 d))); [exact E2|].
  destruct (step_packages_keeps st2 d) as [E3 _].
  set (st3 := fst (step_packages st2 d)) in *.
  destruct (negb (snd (step_packages st2 d))); [congruence|].
  destruct (step_generation_options_keeps st3 d) as [E4 _]. congruence.
Qed.

(** X: when [packages] is a list of dicts of which one has no ['path']
    (or is not a dict), [load_from_file] raises in that section and stops:
    the package list stays as it was and [generation_options] is never
    read, so every generation option keeps its previous value. *)
Theorem X_bad_package_entry_skips_options (st : DocConfig) (d : list (string * yval))
  (e : list (string * yval)) (l : list yval) :
  dict_get String.eqb "packages" d = Some (YList (YDict e :: l)) ->
  Ast.traverse get_path (YDict e :: l) = None ->
  packages (load_from_file st (Some (YDict d))) = packages st /\
  options (load_from_file st (Some (YDict d))) = options st.
Proof.
  intros Hp Ht. rewrite load_unfold. cbv zeta.
  assert (E1 : packages (fst (step_exclude_patterns st d)) = packages st /\
               options (fst (step_exclude_patterns st d)) = options st)
    by (unfold step_exclude_patterns; split_matches; cbn; auto).
  destruct (negb (snd (step_exclude_patterns st d))); [exact E1|].
  destruct E1 as [E1 E1'].
  set (st1 := fst (step_exclude_patterns st d)) in *.
  destruct (step_exclude_files_keeps st1 d) as [_ [E2 [_ E2']]].
  set (st2 := fst (step_exclude_files st1 d)) in *.
  destruct (negb (snd (step_exclude_files st1 d))); [split; congruence|].
  assert (Hs : step_packages st2 d = (st2, false))
    by (unfold step_packages; rewrite Hp, Ht; reflexivity).
  rewrite Hs. cbn. split; congruence.
Qed.

Lemma X_bad_package_entry_skips_options_witness :
  let d := [("packages", YList [YDict [("path", YStr "bridgic-core")];
                               YDict [("name", YStr "llms")]]);
            ("generation_options", YDict [("only_index_pages", YBool false)])] in
  dict_get String.eqb "packages" d
  = Some (YList (YDict [("path", YStr "bridgic-core")] :: [YDict [("name", YStr "llms")]])) /\
  Ast.traverse get_path (YDict [("path", YStr "bridgic-core")] :: [YDict [("name", YStr "llms")]])
  = None /\
  packages (load_from_file set_defaults (Some (YDict d))) = packages set_defaults /\
  options (load_from_file set_defaults (Some (YDict d))) = options set_defaults.
Proof.
  intros d. split; [reflexivity|]. split; [reflexivity|].
  apply (X_bad_package_entry_skips_options set_defaults d
           [("path", YStr "bridgic-core")] [YDict [("name", YStr "llms")]]);
    reflexivity.
Defined.

Lemma step_ok (st : DocConfig) (d : list (string * yval)) :
  (forall v, dict_get String.eqb "exclude_patterns" d = Some v -> py_set v <> None) ->
  snd (step_exclude_patterns st d) = true /\
  (forall st', (forall v, dict_get String.eqb "exclude_files" d = Some v -> py_set v <> None) ->
               snd (step_exclude_files st' d) = true).
Proof.
  intros H1. split.
  - unfold step_exclude_patterns. destruct (dict_get String.eqb "exclude_patterns" d) as [v|];
      [|reflexivity].
    destruct (py_set v) eqn:E; [reflexivity|]. exfalso. exact (H1 v eq_refl E).
  - intros st' H2. unfold step_exclude_files.
    destruct (dict_get String.eqb "exclude_files" d) as [v|]; [|reflexivity].
    destruct (py_set v) eqn:E; [reflexivity|]. exfalso. exact (H2 v eq_refl E).
Qed.

Lemma yeqb_YStr (p : string) (k : yval) : yeqb (YStr p) k = true -> k = YStr p.
Proof.
  destruct k; cbn; try discriminate. intros H. apply String.eqb_eq in H. subst. reflexivity.
Qed.

Lemma yeqb_YStr_r (p : string) (k : yval) : yeqb k (YStr p) = true -> k = YStr p.
Proof.
  destruct k; cbn; try discriminate. intros H. apply String.eqb_eq in H. subst. reflexivity.
Qed.

Lemma dict_get_dict_set_same {V} (p : string) (v : V) (d : list (yval * V)) :
  dict_get yeqb (YStr p) (dict_set yeqb (YStr p) v d) = Some v.
Proof.
  induction d as [|[k' v'] d IH]; cbn [dict_get dict_set].
  - cbn [yeqb]. rewrite String.eqb_refl. reflexivity.
  - destruct (yeqb (YStr p) k') eqn:E; cbn [dict_get]; rewrite E; [reflexivity|exact IH].
Qed.

Lemma dict_get_dict_set_other {V} (p : string) (k2 : yval) (v : V) (d : list (yval * V)) :
  yeqb (YStr p) k2 = false ->
  dict_get yeqb (YStr p) (dict_set yeqb k2 v d) = dict_get yeqb (YStr p) d.
Proof.
  intros Hk. induction d as [|[k' v'] d IH]; cbn [dict_get dict_set].
  - rewrite Hk. reflexivity.
  - destruct (yeqb k2 k') eqn:E2; cbn [dict_get].
    + destruct (yeqb (YStr p) k') eqn:E; [|reflexivity].
      apply yeqb_YStr in E. subst k'. apply yeqb_YStr_r in E2. subst k2.
      cbn [yeqb] in Hk. rewrite String.eqb_refl in Hk. discriminate.
    + destruct (yeqb (YStr p) k'); [reflexivity|exact IH].
Qed.

(** Entries that are dicts with a hashable ['path']. *)
Lemma build_info_total (l : list yval) :
  (forall pkg, In pkg l -> exists e v, pkg = YDict e /\
     dict_get String.eqb "path" e = Some v /\ hashable v = true) ->
  forall acc, exists info, build_info l acc = Some info.
Proof.
  induction l as [|pkg l IH]; intros Hl acc; [exists acc; reflexivity|].
  destruct (Hl pkg (or_introl eq_refl)) as [e [v [-> [Hp Hh]]]].
  cbn [build_info]. rewrite Hp, Hh. cbn [negb]. apply IH.
  intros q Hq. apply Hl. right. exact Hq.
Qed.

Lemma build_info_app (l1 l2 : list yval) (acc : list (yval * (yval * yval))) :
  build_info (app l1 l2) acc
  = match build_info l1 acc with Some a => build_info l2 a | None => None end.
Proof.
  revert acc. induction l1 as [|pkg l1 IH]; intros acc; [reflexivity|].
  cbn [app build_info]. destruct pkg as [| | | | |d]; try reflexivity.
  destruct (dict_get String.eqb "path" d) as [v|]; [|reflexivity].
  destruct (hashable v); [apply IH|reflexivity].
Qed.

(** Entries whose path is not [p] leave the entry of [p] as it was. *)
Lemma build_info_other (p : string) (l : list yval) :
  (forall e v, In (YDict e) l -> dict_get String.eqb "path" e = Some v ->
               yeqb (YStr p) v = false) ->
  forall acc info, build_info l acc = Some info ->
  dict_get yeqb (YStr p) info = dict_get yeqb (YStr p) acc.
Proof.
  induction l as [|pkg l IH]; intros Hl acc info H.
  - injection H as <-. reflexivity.
  - cbn [build_info] in H. destruct pkg as [| | | | |d]; try discriminate.
    destruct (dict_get String.eqb "path" d) as [v|] eqn:Ev; [|discriminate].
    destruct (hashable v); [|discriminate].
    rewrite (IH (fun e w Hin => Hl e w (or_intror Hin)) _ _ H).
    apply dict_get_dict_set_other. exact (Hl d v (or_introl eq_refl) Ev).
Qed.

Lemma traverse_get_path (l : list yval) :
  (forall pkg, In pkg l -> exists e v, pkg = YDict e /\
     dict_get String.eqb "path" e = Some v /\ hashable v = true) ->
  exists paths, Ast.traverse get_path l = Some paths.
Proof.
  induction l as [|pkg l IH]; intros Hl; [exists []; reflexivity|].
  destruct (Hl pkg (or_introl eq_refl)) as [e [v [-> [Hp _]]]].
  destruct (IH (fun q Hq => Hl q (or_intror Hq))) as [paths Hpaths].
  exists (v :: paths). cbn. rewrite Hp, Hpaths. reflexivity.
Qed.

(** X: with the list-of-dicts format of [packages] (every entry a dict
    with a hashable ['path']), the display name of a path [p] is the
    ['name'] of the last entry with that path, and its whole ['path'] when
    that entry has no ['name'] ([pkg.get('name', pkg['path'])]), not the
    last part of the path with [-] turned into [_] as a plain path list
    would give. *)
Theorem X_new_format_default_name_is_path (st : DocConfig) (d : list (string * yval))
  (l pre post : list yval) (e : list (string * yval)) (p : string) :
  (forall v, dict_get String.eqb "exclude_patterns" d = Some v -> py_set v <> None) ->
  (forall v, dict_get String.eqb "exclude_files" d = Some v -> py_set v <> None) ->
  dict_get String.eqb "packages" d = Some (YList l) ->
  (forall pkg, In pkg l -> exists e v, pkg = YDict e /\
     dict_get String.eqb "path" e = Some v /\ hashable v = true) ->
  l = app pre (YDict e :: post) ->
  dict_get String.eqb "path" e = Some (YStr p) ->
  (forall e' v, In (YDict e') post -> dict_get String.eqb "path" e' = Some v ->
                yeqb (YStr p) v = false) ->
  get_package_display_name (load_from_file st (Some (YDict d))) (YStr p)
  = Some (get_or e "name" (YStr p)) /\
  (dict_get String.eqb "name" e = None ->
   get_package_display_name (load_from_file st (Some (YDict d))) (YStr p)
   = Some (YStr p)).
Proof.
  intros H1 H2 Hpk Hl Hsplit Hp Hpost.
  enough (Hname : get_package_display_name (load_from_file st (Some (YDict d))) (YStr p)
                  = Some (get_or e "name" (YStr p))).
  { split; [exact Hname|]. intros Hn. rewrite Hname. unfold get_or. rewrite Hn. reflexivity. }
  destruct (step_ok st d H1) as [Ok1 Ok2].
  rewrite load_unfold. cbv zeta. rewrite Ok1. cbn [negb].
  set (st1 := fst (step_exclude_patterns st d)).
  rewrite (Ok2 st1 H2). cbn [negb].
  set (st2 := fst (step_exclude_files st1 d)).
  destruct (traverse_get_path _ Hl) as [paths Hpaths].
  destruct (build_info_total _ Hl []) as [info Hb].
  assert (Hs : step_packages st2 d
               = ({| exclude_patterns := exclude_patterns st2;
                     exclude_files := exclude_files st2; packages := paths;
                     package_info := info; options := options st2 |}, true)).
  { unfold step_packages. rewrite Hpk.
    destruct l as [|pkg0 l0]; [destruct pre; discriminate|].
    destruct (Hl pkg0 (or_introl eq_refl)) as [e0 [v0 [Hpkg0 _]]].
    rewrite Hpkg0. rewrite <- Hpkg0, Hpaths, Hb. reflexivity. }
  rewrite Hs. cbn [fst snd negb].
  destruct (step_generation_options_keeps
              {| exclude_patterns := exclude_patterns st2;
                 exclude_files := exclude_files st2; packages := paths;
                 package_info := info; options := options st2 |} d) as [_ [_ [_ Hinfo]]].
  unfold get_package_display_name. cbn [hashable negb]. rewrite Hinfo. cbn [package_info].
  rewrite Hsplit, build_info_app in Hb.
  destruct (build_info pre []) as [a|]; [|discriminate].
  cbn [build_info] in Hb. rewrite Hp in Hb. cbn [hashable] in Hb.
  rewrite (build_info_other p post Hpost _ _ Hb), dict_get_dict_set_same. reflexivity.
Qed.

(** A path listed twice, the later entry named, and another entry
    without a name. *)
Lemma X_new_format_default_name_is_path_witness :
  let d := [("packages", YList [YDict [("path", YStr "packages/bridgic-core")];
                               YDict [("path", YStr "packages/bridgic-llms-openai")];
                               YDict [("path", YStr "packages/bridgic-core");
                                      ("name", YStr "bridgic-core")]])] in
  get_package_display_name (load_from_file set_defaults (Some (YDict d)))
    (YStr "packages/bridgic-core") = Some (YStr "bridgic-core") /\
  get_package_display_name (load_from_file set_defaults (Some (YDict d)))
    (YStr "packages/bridgic-llms-openai") = Some (YStr "packages/bridgic-llms-openai").
Proof.
  intros d.
  assert (Hl : forall pkg, In pkg [YDict [("path", YStr "packages/bridgic-core")];
                                  YDict [("path", YStr "packages/bridgic-llms-openai")];
                                  YDict [("path", YStr "packages/bridgic-core");
                                         ("name", YStr "bridgic-core")]] ->
               exists e v, pkg = YDict e /\
                 dict_get String.eqb "path" e = Some v /\ hashable v = true).
  { intros pkg [<-|[<-|[<-|[]]]]; eexists; eexists; split; [reflexivity| |reflexivity| |reflexivity|];
      split; reflexivity. }
  split.
  - apply (proj1 (X_new_format_default_name_is_path set_defaults d _
             [YDict [("path", YStr "packages/bridgic-core")];
              YDict [("path", YStr "packages/bridgic-llms-openai")]] []
             [("path", YStr "packages/bridgic-core"); ("name", YStr "bridgic-core")]
             "packages/bridgic-core"
             ltac:(intros v Hv; discriminate) ltac:(intros v Hv; discriminate)
             eq_refl Hl eq_refl eq_refl ltac:(intros e' v [])));
      reflexivity.
  - apply (proj2 (X_new_format_default_name_is_path set_defaults d _
             [YDict [("path", YStr "packages/bridgic-core")]]
             [YDict [("path", YStr "packages/bridgic-core"); ("name", YStr "bridgic-core")]]
             [("path", YStr "packages/bridgic-llms-openai")]
             "packages/bridgic-llms-openai"
             ltac:(intros v Hv; discriminate) ltac:(intros v Hv; discriminate)
             eq_refl Hl eq_refl eq_refl
             ltac:(intros e' v [He|[]] Hv; injection He as <-; injection Hv as <-;
                   vm_compute; reflexivity))).
    reflexivity.
Defined.

(** X: with the plain-list format of [packages] (or an empty list),
    [load_from_file] takes the list as it is and leaves [package_info] as
    it was (also when the list is written over existing entries), so a
    path without an entry in it (every path, starting from the defaults)
    is displayed under its last part with [-] turned into [_]. *)
Theorem X_old_format_name_from_basename (st : DocConfig) (d : list (string * yval))
  (l : list yval) (p : string) :
  (forall v, dict_get String.eqb "exclude_patterns" d = Some v -> py_set v <> None) ->
  (forall v, dict_get String.eqb "exclude_files" d = Some v -> py_set v <> None) ->
  dict_get String.eqb "packages" d = Some (YList l) ->
  (forall e l', l <> YDict e :: l') ->
  dict_get yeqb (YStr p) (package_info st) = None ->
  packages (load_from_file st (Some (YDict d))) = l /\
  package_info (load_from_file st (Some (YDict d))) = package_info st /\
  get_package_display_name (load_from_file st (Some (YDict d))) (YStr p)
  = Some (YStr (Py.replace "-" "_" (Gen.path_name p))).
Proof.
  intros H1 H2 Hpk Hl Hinfo0.
  destruct (step_ok st d H1) as [Ok1 Ok2].
  rewrite load_unfold. cbv zeta. rewrite Ok1. cbn [negb].
  assert (E1 : package_info (fst (step_exclude_patterns st d)) = package_info st)
    by (unfold step_exclude_patterns; split_matches; reflexivity).
  set (st1 := fst (step_exclude_patterns st d)) in *.
  rewrite (Ok2 st1 H2). cbn [negb].
  destruct (step_exclude_files_keeps st1 d) as [_ [_ [E2 _]]].
  set (st2 := fst (step_exclude_files st1 d)) in *.
  assert (Hs : step_packages st2 d
               = ({| exclude_patterns := exclude_patterns st2;
                     exclude_files := exclude_files st2; packages := l;
                     package_info := package_info st2; options := options st2 |}, true)).
  { unfold step_packages. rewrite Hpk.
    destruct l as [|[] l']; try reflexivity. exfalso. exact (Hl _ _ eq_refl). }
  rewrite Hs. cbn [fst snd negb].
  destruct (step_generation_options_keeps
              {| exclude_patterns := exclude_patterns st2;
                 exclude_files := exclude_files st2; packages := l;
                 package_info := package_info st2; options := options st2 |} d)
    as [_ [_ [Hpkgs Hinfo]]].
  split; [exact Hpkgs|]. split; [rewrite Hinfo; cbn [package_info]; rewrite E2, E1; reflexivity|].
  unfold get_package_display_name. cbn [hashable negb]. rewrite Hinfo. cbn [package_info].
  rewrite E2, E1, Hinfo0. reflexivity.
Qed.

Lemma X_old_format_name_from_basename_witness :
  let d := [("packages", YList [YStr "packages/bridgic-core"])] in
  dict_get String.eqb "packages" d = Some (YList [YStr "packages/bridgic-core"]) /\
  packages (load_from_file set_defaults (Some (YDict d))) = [YStr "packages/bridgic-core"] /\
  package_info (load_from_file set_defaults (Some (YDict d))) = package_info set_defaults /\
  get_package_display_name (load_from_file set_defaults (Some (YDict d)))
    (YStr "packages/bridgic-core")
  = Some (YStr (Py.replace "-" "_" (Gen.path_name "packages/bridgic-core"))).
Proof.
  intros d. split; [reflexivity|].
  apply (X_old_format_name_from_basename set_defaults d [YStr "packages/bridgic-core"]);
    [intros v Hv; discriminate|intros v Hv; discriminate|reflexivity| |reflexivity].
  intros e l' H. discriminate.
Defined.

End LoadFacts.

(** X: when [only_index_pages] is off, a module [index.py] and the
    [__init__.py] with exports of the same sub-package get the same
    documentation file [<dirs>/index.md] from [process_package], with
    different identifiers: whichever comes later overwrites the other. *)
Theorem X_index_module_shares_package_page (cfg : Config) (pkg : Package)
  (dirs : list string) (src1 src2 : option (list Ast.stmt)) :
  dirs <> [] ->
  should_exclude_path cfg pkg {| rel_parts := app dirs ["__init__.py"]; source := src1 |}
  = false ->
  should_exclude_path cfg pkg {| rel_parts := app dirs ["index.py"]; source := src2 |}
  = false ->
  exports_of src1 <> [] ->
  only_index_pages cfg = false ->
  doc_file cfg pkg {| rel_parts := app dirs ["__init__.py"]; source := src1 |}
  = Some (app dirs ["index.md"], Py.join "." dirs) /\
  doc_file cfg pkg {| rel_parts := app dirs ["index.py"]; source := src2 |}
  = Some (app dirs ["index.md"], Py.join "." (app dirs ["index"])).
Proof.
  intros Hd Hx1 Hx2 Hne Hoip. split.
  - unfold doc_file. rewrite Hx1.
    assert (Hm : module_parts {| rel_parts := app dirs ["__init__.py"]; source := src1 |}
                 = app dirs ["__init__"]).
    { unfold module_parts. cbn [rel_parts]. rewrite removelast_last, last_last. reflexivity. }
    rewrite Hm, last_last. cbn [String.eqb Ascii.eqb Bool.eqb andb].
    unfold process_init_module. cbn [source]. unfold exports_of in Hne.
    destruct (snd (Ast.parse_init_doc_and_all Ast.insertion_order src1)) as [|e es]; [contradiction|].
    rewrite removelast_last, length_app.
    destruct dirs as [|x xs]; [contradiction|].
    replace (Nat.ltb 1 (length (x :: xs) + length ["__init__"])) with true
      by (symmetry; apply Nat.ltb_lt; cbn [length]; lia).
    reflexivity.
  - unfold doc_file. rewrite Hx2.
    assert (Hm : module_parts {| rel_parts := app dirs ["index.py"]; source := src2 |}
                 = app dirs ["index"]).
    { unfold module_parts. cbn [rel_parts]. rewrite removelast_last, last_last. reflexivity. }
    rewrite Hm, last_last, removelast_last, Hoip. reflexivity.
Qed.

Lemma X_index_module_shares_package_page_witness :
  let cfg := {| exclude_patterns := []; exclude_files := []; docs_base_path := "reference";
                only_index_pages := false; single_entry_as_group := true |} in
  should_exclude_path cfg package_upper_child
    {| rel_parts := app ["bridgic"; "core"] ["__init__.py"]; source := exports_A |} = false /\
  exports_of exports_A <> [] /\
  doc_file cfg package_upper_child
    {| rel_parts := app ["bridgic"; "core"] ["__init__.py"]; source := exports_A |}
  = Some (["bridgic"; "core"; "index.md"], "bridgic.core") /\
  doc_file cfg package_upper_child
    {| rel_parts := app ["bridgic"; "core"] ["index.py"]; source := None |}
  = Some (["bridgic"; "core"; "index.md"], "bridgic.core.index").
Proof.
  intros cfg. split; [vm_compute; reflexivity|]. split; [vm_compute; discriminate|].
  apply (X_index_module_shares_package_page cfg package_upper_child ["bridgic"; "core"]
           exports_A None);
    [discriminate|vm_compute; reflexivity|vm_compute; reflexivity|vm_compute; discriminate
    |reflexivity].
Defined.
End ExtraFacts.

(** ** The legacy region-staging routine as a whole *)

Module RegionFacts.
Import Updater Scenarios ExtraFacts.



Section FindIndex.
Context {A : Type} (p : A -> bool).



End FindIndex.



End RegionFacts.
